(** * sc-controller input pipeline: device monitor, USB transport, input mapper

    A shallow embedding of
      - [scc/device_monitor.py]  (class [DeviceMonitor]),
      - [scc/drivers/usb.py]     (classes [USBDevice] and [USBDriver]),
      - [scc/mapper.py]          (class [Mapper]),
    followed by the properties established about them.

    Python objects with mutable attributes become records that are threaded
    through a state-and-exception monad; dictionaries become [gmap]s (or
    lists of keys where iteration order is observable); calls into code that
    lives outside these three files (sysfs reads, libusb, profile actions)
    are recorded in a trace and answered by an explicit environment. *)

From Stdlib Require Import ZArith QArith Lia Lqa.
From stdpp Require Import base gmap strings list pretty.

Open Scope Z_scope.

(** ** Python exceptions and the state-and-exception monad *)

(** The exception classes that the modelled code raises or catches.
    Every one of them is a subclass of Python's [Exception]. *)
Inductive exn :=
  | AssertionError
  | OSError
  | KeyError
  | IndexError
  | AttributeError
  | USBError
  | USBErrorBusy
  | USBErrorPipe
  | USBErrorNoDevice
  | OtherException (what : string).

(** [usb1.USBErrorBusy], [USBErrorPipe] and [USBErrorNoDevice] derive from
    [usb1.USBError]. *)
Definition is_USBError (e : exn) : bool :=
  match e with
  | USBError | USBErrorBusy | USBErrorPipe | USBErrorNoDevice => true
  | _ => false
  end.

(** Result of running a piece of Python code: it returns or it raises. *)
Inductive Outcome (A : Type) :=
  | Returned (a : A)
  | Raised (e : exn).
Arguments Returned {A} a.
Arguments Raised {A} e.

(** A method of an object whose attributes are [St]: the attributes after
    the call are produced whether the call returned or raised, so that what
    a failing call left behind can be inspected. *)
Definition Py (St A : Type) : Type := St → Outcome A * St.

Definition py_ret {St A} (a : A) : Py St A := λ s, (Returned a, s).

Definition py_bind {St A B} (f : A → Py St B) (m : Py St A) : Py St B :=
  λ s, match m s with
       | (Returned a, s') => f a s'
       | (Raised e, s') => (Raised e, s')
       end.

Definition py_raise {St A} (e : exn) : Py St A := λ s, (Raised e, s).

Definition py_get {St} : Py St St := λ s, (Returned s, s).

Definition py_modify {St} (f : St → St) : Py St unit := λ s, (Returned tt, f s).

(** [try: body  except <handles>: handler]. *)
Definition py_try {St A} (body : Py St A) (handles : exn → bool)
    (handler : exn → Py St A) : Py St A :=
  λ s, match body s with
       | (Returned a, s') => (Returned a, s')
       | (Raised e, s') => if handles e then handler e s' else (Raised e, s')
       end.

(** [assert cond]. *)
Definition py_assert {St} (cond : bool) : Py St unit :=
  if cond then py_ret tt else py_raise AssertionError.

(** [for x in xs: body x], stopping at the first exception. *)
Fixpoint py_for {St A} (xs : list A) (body : A → Py St unit) : Py St unit :=
  match xs with
  | [] => py_ret tt
  | x :: xs' => py_bind (λ _, py_for xs' body) (body x)
  end.

#[global] Instance Py_ret {St} : MRet (Py St) := @py_ret St.
#[global] Instance Py_bind {St} : MBind (Py St) := @py_bind St.

(** Lifts an answer of the environment into the monad. *)
Definition py_answer {St A} (o : Outcome A) : Py St A :=
  match o with
  | Returned a => mret a
  | Raised e => py_raise e
  end.

(** ** [scc/device_monitor.py] *)
Module DeviceMonitor.

(** Identity of a Python callable (a bound method or a function object). *)
Definition callable := string.

(** [key = (subsystem, vendor_id, product_id)]; the ids are [None] for the
    "input" subsystem. *)
Definition Key : Type := string * option Z * option Z.

(** Value stored in [known_devs]: [(vendor, product, rem_cb)]. *)
Definition KnownDev : Type := option Z * option Z * option callable.

Inductive Event :=
  (** [Monitor.match_subsystem(subsystem)] of the eudev wrapper *)
  | MatchSubsystem (subsystem : string)
  (** [cb(syspath, vendor, product)], together with the entry that
      [known_devs] held for [syspath] when the call was made *)
  | ArrivalCalled (cb : callable) (syspath : string)
      (vendor product : option Z) (registered : option KnownDev)
  (** [log.exception(e)] *)
  | LogException (e : exn).

(** The attributes of a [DeviceMonitor] that [add_callback] and
    [_on_new_syspath] read or write, and the trace of their calls to the
    outside. *)
Record t := mk {
  dev_added_cbs : gmap Key callable;
  dev_removed_cbs : gmap Key (option callable);
  known_devs : gmap string KnownDev;
  trace : list Event
}.

(** [DeviceMonitor.__init__] *)
Definition init : t :=
  {| dev_added_cbs := ∅; dev_removed_cbs := ∅; known_devs := ∅; trace := [] |}.

(** What the world outside the monitor answers. *)
Record Env := {
  (** [get_vendor_product(syspath, subsystem)] reads sysfs: a pair of
      ids, or [OSError]. *)
  get_vendor_product : string → string → Outcome (Z * Z);
  (** what calling an arrival callback yields: [None], [False], [True]
      or an exception. The callback sees [known_devs] as they are during
      the call. *)
  call_arrival : callable → gmap string KnownDev → string →
                 option Z → option Z → Outcome (option bool)
}.

Definition emit (ev : Event) : Py t unit :=
  py_modify (λ s, mk (dev_added_cbs s) (dev_removed_cbs s) (known_devs s)
                     (trace s ++ [ev])).

Definition set_known_devs (f : gmap string KnownDev → gmap string KnownDev)
    : Py t unit :=
  py_modify (λ s, mk (dev_added_cbs s) (dev_removed_cbs s) (f (known_devs s))
                     (trace s)).

(** [del d[k]] raises [KeyError] when the key is absent. *)
Definition del_known_dev (syspath : string) : Py t unit :=
  s ← py_get;
  match known_devs s !! syspath with
  | Some _ => set_known_devs (delete syspath)
  | None => py_raise KeyError
  end.

(** [DeviceMonitor.add_callback] *)
Definition add_callback (subsystem : string) (vendor_id product_id : option Z)
    (added_cb : callable) (removed_cb : option callable) : Py t unit :=
  let key : Key := (subsystem, vendor_id, product_id) in
  s ← py_get;
  py_assert (bool_decide (dev_added_cbs s !! key = None));;
  emit (MatchSubsystem subsystem);;
  py_modify (λ s, mk (<[key := added_cb]> (dev_added_cbs s)) (dev_removed_cbs s)
                     (known_devs s) (trace s));;
  py_modify (λ s, mk (dev_added_cbs s) (<[key := removed_cb]> (dev_removed_cbs s))
                     (known_devs s) (trace s)).

(** The body of the first [try] of [_on_new_syspath]: the pair
    [vendor, product]. *)
Definition read_ids (env : Env) (subsystem syspath : string)
    : Outcome (option Z * option Z) :=
  if bool_decide (subsystem = "input") then Returned (None, None)
  else match get_vendor_product env syspath subsystem with
       | Returned (vendor, product) => Returned (Some vendor, Some product)
       | Raised e => Raised e
       end.

(** [DeviceMonitor._on_new_syspath] *)
Definition _on_new_syspath (env : Env) (subsystem syspath : string) : Py t unit :=
  λ s0,
  match read_ids env subsystem syspath with
  | Raised OSError =>
      (* Cannot grab vendor & product, probably subdevice or bus itself *)
      (Returned tt, s0)
  | Raised e => (Raised e, s0)
  | Returned (vendor, product) =>
      let key : Key := (subsystem, vendor, product) in
      let cb := dev_added_cbs s0 !! key in
      let rem_cb := default None (dev_removed_cbs s0 !! key) in
      match cb with
      | None => (Returned tt, s0)
      | Some cb =>
          (set_known_devs <[syspath := ((vendor, product, rem_cb) : KnownDev)]>;;
           py_try
             (s ← py_get;
              emit (ArrivalCalled cb syspath vendor product
                      (known_devs s !! syspath));;
              match call_arrival env cb (known_devs s) syspath vendor product with
              | Returned None => del_known_dev syspath
              | Returned (Some _) => mret tt
              | Raised e => py_raise e
              end)
             (λ _, true)
             (λ e, emit (LogException e);; del_known_dev syspath)) s0
      end
  end.

End DeviceMonitor.

(** ** [scc/drivers/usb.py] *)
Module USB.

Definition callable := string.
Definition bytes := list Byte.byte.

#[global] Instance byte_eq_dec : EqDecision Byte.byte := Byte.byte_eq_dec.

(** The argument tuple of [handle.controlWrite]:
    [(request_type, request, value, index, data, timeout)]. *)
Record ControlMsg := mkMsg {
  request_type : Z;
  request : Z;
  value : Z;
  index : Z;
  data : bytes;
  timeout : Z
}.

#[global] Instance ControlMsg_eq_dec : EqDecision ControlMsg.
Proof. solve_decision. Defined.

(** An entry of [_rmsg]: [(msg, index, size, callback)]; [msg] is passed
    to [controlWrite] without a timeout, which then defaults to 0. *)
Record Request := mkReq {
  r_msg : ControlMsg;
  r_index : Z;
  r_size : Z;
  r_callback : callable
}.

(** Calls that a [USBDevice] makes on its libusb handle and on the
    callbacks it was given. *)
Inductive HandleCall :=
  | ControlWrite (msg : ControlMsg)
  | ControlRead (request_type request value index size : Z)
  | RequestCallback (cb : callable) (response : bytes)
  | ClaimInterface (number : Z)
  | ReleaseInterface (number : Z)
  | AttachKernelDriver (number : Z)
  | ResetDevice
  | CloseHandle.

(** What the handle answers to a call, given the calls made so far. *)
Definition HandleEnv : Type := list HandleCall → HandleCall → Outcome bytes.

(** *** class [USBDevice] *)
Record USBDevice := mkDev {
  _claimed : list Z;
  _cmsg : list ControlMsg;   (* control messages *)
  _rmsg : list Request;      (* requests (expect a response) *)
  calls : list HandleCall
}.

(** [USBDevice.__init__] *)
Definition new_device : USBDevice :=
  {| _claimed := []; _cmsg := []; _rmsg := []; calls := [] |}.

Definition call (henv : HandleEnv) (c : HandleCall) : Py USBDevice bytes :=
  λ d, (henv (calls d) c, mkDev (_claimed d) (_cmsg d) (_rmsg d) (calls d ++ [c])).

Definition set_cmsg (f : list ControlMsg → list ControlMsg) : Py USBDevice unit :=
  py_modify (λ d, mkDev (_claimed d) (f (_cmsg d)) (_rmsg d) (calls d)).

Definition set_rmsg (f : list Request → list Request) : Py USBDevice unit :=
  py_modify (λ d, mkDev (_claimed d) (_cmsg d) (f (_rmsg d)) (calls d)).

Definition set_claimed (f : list Z → list Z) : Py USBDevice unit :=
  py_modify (λ d, mkDev (f (_claimed d)) (_cmsg d) (_rmsg d) (calls d)).

(** [b'\x00' * n]: empty when [n] is not positive. *)
Definition zero_bytes (n : Z) : bytes := replicate (Z.to_nat n) Byte.x00.

(** [USBDevice.send_control]: [self._cmsg.insert(0, ...)]. *)
Definition send_control (index : Z) (data : bytes) : Py USBDevice unit :=
  let zeros := zero_bytes (64 - Z.of_nat (length data)) in
  set_cmsg (λ q, mkMsg 0x21 0x09 0x0300 index (data ++ zeros) 0 :: q).

(** [list.remove(x)]: drops the first element equal to [x]. *)
Fixpoint list_remove {A} `{EqDecision A} (x : A) (l : list A) : list A :=
  match l with
  | [] => []
  | y :: l' => if decide (y = x) then l' else y :: list_remove x l'
  end.

(** The test of the loop of [overwrite_control]:
    [x_index == index and x_data[0:3] == data[0:3]]. *)
Definition same_slot (index : Z) (data : bytes) (x : ControlMsg) : bool :=
  bool_decide (USB.index x = index) && bool_decide (take 3 (USB.data x) = take 3 data).

(** [USBDevice.overwrite_control] *)
Definition overwrite_control (index : Z) (data : bytes) : Py USBDevice unit :=
  d ← py_get;
  match List.find (same_slot index data) (_cmsg d) with
  | Some x => set_cmsg (list_remove x)
  | None => mret tt
  end;;
  send_control index data.

(** [USBDevice.make_request] *)
Definition make_request (index : Z) (callback : callable) (data : bytes)
    (size : Z) : Py USBDevice unit :=
  set_rmsg (λ q, q ++ [mkReq (mkMsg 0x21 0x09 0x0300 index data 0)
                             index size callback]).

(** First loop of [flush]: [while len(self._cmsg): msg = self._cmsg.pop();
    self.handle.controlWrite( *msg)]. [pop()] takes the last element, so
    the loop walks the queue from its end; [todo] is the reversed queue. *)
Fixpoint flush_cmsg (henv : HandleEnv) (todo : list ControlMsg) : Py USBDevice unit :=
  match todo with
  | [] => mret tt
  | msg :: rest =>
      set_cmsg (λ _, rev rest);;
      call henv (ControlWrite msg);;
      flush_cmsg henv rest
  end.

(** Second loop of [flush], over [_rmsg], again from the end. *)
Fixpoint flush_rmsg (henv : HandleEnv) (todo : list Request) : Py USBDevice unit :=
  match todo with
  | [] => mret tt
  | r :: rest =>
      set_rmsg (λ _, rev rest);;
      call henv (ControlWrite (r_msg r));;
      response ← call henv (ControlRead 0xA1 0x01 0x0300 (r_index r) (r_size r));
      call henv (RequestCallback (r_callback r) response);;
      flush_rmsg henv rest
  end.

(** [USBDevice.flush] *)
Definition flush (henv : HandleEnv) : Py USBDevice unit :=
  d ← py_get;
  flush_cmsg henv (rev (_cmsg d));;
  d ← py_get;
  flush_rmsg henv (rev (_rmsg d)).

(** [USBDevice.claim] *)
Definition claim (henv : HandleEnv) (number : Z) : Py USBDevice unit :=
  call henv (ClaimInterface number);;
  set_claimed (λ l, l ++ [number]).

(** [USBDevice.unclaim] *)
Definition unclaim (henv : HandleEnv) : Py USBDevice unit :=
  d ← py_get;
  py_for (_claimed d) (λ number,
    py_try
      (call henv (ReleaseInterface number);;
       call henv (AttachKernelDriver number);;
       mret tt)
      (λ e, match e with USBErrorNoDevice => true | _ => false end)
      (* Safe to ignore, happens when USB is removed *)
      (λ _, mret tt));;
  set_claimed (λ _, []).

(** [USBDevice.close] *)
Definition close (henv : HandleEnv) : Py USBDevice unit :=
  py_try (unclaim henv) (λ _, true) (λ _, mret tt);;
  py_try
    (call henv ResetDevice;;
     call henv CloseHandle;;
     mret tt)
    (λ _, true) (λ _, mret tt).

(** The writes that reached the handle, in the order they were made. *)
Definition writes (cs : list HandleCall) : list ControlMsg :=
  omap (λ c, match c with ControlWrite m => Some m | _ => None end) cs.

(** *** [callback_wrapper] of [USBDevice.set_input_interrupt] *)

(** libusb transfer status codes. *)
Inductive TransferStatus :=
  | TRANSFER_COMPLETED
  | TRANSFER_ERROR
  | TRANSFER_TIMED_OUT
  | TRANSFER_CANCELLED
  | TRANSFER_STALL
  | TRANSFER_NO_DEVICE
  | TRANSFER_OVERFLOW.

#[global] Instance TransferStatus_eq_dec : EqDecision TransferStatus.
Proof. solve_decision. Defined.

(** A completed transfer as the wrapper sees it. *)
Record USBTransfer := {
  getStatus : TransferStatus;
  getActualLength : Z;
  getBuffer : bytes
}.

Inductive InterruptEvent :=
  | UserCallback (endpoint : Z) (payload : bytes)
  | LogCallbackError (e : exn)
  | Submit
  | LogSubmitFailed (e : exn).

(** Whether the user callback and [transfer.submit()] raise. *)
Record InterruptEnv := {
  user_callback : Z → bytes → Outcome unit;
  submit : Outcome unit
}.

Definition emit_i (ev : InterruptEvent) : Py (list InterruptEvent) unit :=
  py_modify (λ tr, tr ++ [ev]).

(** The closure [callback_wrapper(transfer)] that [set_input_interrupt]
    installs for [(endpoint, size, callback)]; the state is the trace of
    what it did. *)
Definition callback_wrapper (ienv : InterruptEnv) (endpoint size : Z)
    (transfer : USBTransfer) : Py (list InterruptEvent) unit :=
  if bool_decide (getStatus transfer ≠ TRANSFER_COMPLETED)
     || bool_decide (getActualLength transfer ≠ size)
  then mret tt
  else
    let payload := getBuffer transfer in
    let finally : Py (list InterruptEvent) unit :=
      py_try
        (emit_i Submit;;
         match submit ienv with
         | Returned _ => mret tt
         | Raised e => py_raise e
         end)
        (λ _, true)
        (λ e, emit_i (LogSubmitFailed e)) in
    py_try
      (emit_i (UserCallback endpoint payload);;
       match user_callback ienv endpoint payload with
       | Returned _ => mret tt
       | Raised e => py_raise e
       end)
      (λ _, true)
      (λ e, emit_i (LogCallbackError e));;
    finally.

(** *** class [USBDriver] *)

(** A low-level libusb device, as listed by [_ctx.getDeviceIterator()]. *)
Record LLDevice := {
  dev_id : nat;
  getBusNumber : Z;
  getDeviceAddress : Z
}.

(** An element of [_retry_devices]: the [(syspath, (vendor, product))]
    that [handle_new_device] appends, or the bare [(vendor, product)] that
    [USBDevice.force_restart] appends. *)
Inductive RetryEntry :=
  | Entry (syspath : string) (tp : Z * Z)
  | Bare (tp : Z * Z).

#[global] Instance RetryEntry_eq_dec : EqDecision RetryEntry.
Proof. solve_decision. Defined.

Inductive Event :=
  (** [self._ctx.handleEventsTimeout()] *)
  | HandleEventsTimeout
  (** a reading of [time.time()] *)
  | Now (t : Q)
  (** entry into [handle_new_device(syspath, vendor, product)] *)
  | HandleNewDevice (syspath : string) (vendor product : Z)
  (** [device.open()] *)
  | DeviceOpen (dev : nat)
  (** [device.close()] on the low-level device *)
  | DeviceClose (dev : nat)
  (** the driver callback [callback(device, handle)] *)
  | DriverCallback (cb : callable) (dev : nat)
  (** the [on_failure] callback, with its positional arguments *)
  | FailCallback (cb : callable) (syspath : option string) (vendor product : Z)
  (** [daemon.add_error(f"usb:{vendor}:{product}", ...)] *)
  | AddError (vendor product : Z)
  (** [daemon.remove_error(f"usb:{vendor}:{product}")] *)
  | RemoveError (vendor product : Z)
  | LogError (msg : string).

Record USBDriver := mkDrv {
  daemon : bool;                          (* whether [set_daemon] was called *)
  _known_ids : gmap (Z * Z) callable;
  _fail_cbs : gmap (Z * Z) callable;
  _devices : list (nat * USBDevice);      (* dict, in insertion order *)
  _syspaths : gmap string nat;
  _retry_devices : list RetryEntry;
  _retry_devices_timer : Q;
  _changed : Z;
  trace : list Event
}.

(** [USBDriver.__init__] *)
Definition new_driver : USBDriver :=
  {| daemon := false; _known_ids := ∅; _fail_cbs := ∅; _devices := [];
     _syspaths := ∅; _retry_devices := []; _retry_devices_timer := 0%Q;
     _changed := 0; trace := [] |}.

(** What libusb, sysfs and the registered driver callbacks answer, given
    the trace so far. *)
Record Env := {
  (** [DeviceMonitor.get_usb_address(syspath)] *)
  get_usb_address : string → Outcome (Z * Z);
  getDeviceIterator : list Event → list LLDevice;
  (** whether [device.open()] succeeds *)
  device_open : list Event → LLDevice → Outcome unit;
  (** [callback(device, handle)]: a new [USBDevice], [None], or an
      exception *)
  driver_callback : list Event → callable → LLDevice → Outcome (option USBDevice);
  (** whether the [on_failure] callback raises *)
  fail_callback : list Event → callable → Outcome unit;
  (** the handle of each opened device *)
  handle_of : nat → HandleEnv
}.

Definition emit (ev : Event) : Py USBDriver unit :=
  py_modify (λ s, mkDrv (daemon s) (_known_ids s) (_fail_cbs s) (_devices s)
                        (_syspaths s) (_retry_devices s) (_retry_devices_timer s)
                        (_changed s) (trace s ++ [ev])).

Definition set_devices (f : list (nat * USBDevice) → list (nat * USBDevice))
    : Py USBDriver unit :=
  py_modify (λ s, mkDrv (daemon s) (_known_ids s) (_fail_cbs s) (f (_devices s))
                        (_syspaths s) (_retry_devices s) (_retry_devices_timer s)
                        (_changed s) (trace s)).

Definition set_syspaths (f : gmap string nat → gmap string nat) : Py USBDriver unit :=
  py_modify (λ s, mkDrv (daemon s) (_known_ids s) (_fail_cbs s) (_devices s)
                        (f (_syspaths s)) (_retry_devices s) (_retry_devices_timer s)
                        (_changed s) (trace s)).

Definition set_retry_devices (f : list RetryEntry → list RetryEntry)
    : Py USBDriver unit :=
  py_modify (λ s, mkDrv (daemon s) (_known_ids s) (_fail_cbs s) (_devices s)
                        (_syspaths s) (f (_retry_devices s)) (_retry_devices_timer s)
                        (_changed s) (trace s)).

Definition set_retry_devices_timer (t : Q) : Py USBDriver unit :=
  py_modify (λ s, mkDrv (daemon s) (_known_ids s) (_fail_cbs s) (_devices s)
                        (_syspaths s) (_retry_devices s) t
                        (_changed s) (trace s)).

Definition set_changed (n : Z) : Py USBDriver unit :=
  py_modify (λ s, mkDrv (daemon s) (_known_ids s) (_fail_cbs s) (_devices s)
                        (_syspaths s) (_retry_devices s) (_retry_devices_timer s)
                        n (trace s)).

(** [d[k] = v] on a dictionary kept in insertion order. *)
Fixpoint dict_set {V} (k : nat) (v : V) (d : list (nat * V)) : list (nat * V) :=
  match d with
  | [] => [(k, v)]
  | (k', v') :: d' => if decide (k' = k) then (k, v) :: d'
                      else (k', v') :: dict_set k v d'
  end.

(** [self.daemon.<method>(...)]: [AttributeError] when [daemon] is [None]. *)
Definition need_daemon : Py USBDriver unit :=
  s ← py_get;
  if daemon s then mret tt else py_raise AttributeError.

(** [USBDriver.handle_new_device]; returns [None], [False] or [True]. *)
Definition handle_new_device (env : Env) (syspath : string) (vendor product : Z)
    : Py USBDriver (option bool) :=
  let tp := (vendor, product) in
  emit (HandleNewDevice syspath vendor product);;
  s ← py_get;
  match _known_ids s !! tp with
  | None => mret None
  | Some callback =>
      need_daemon;;
      '(bus, dev) ← py_answer (get_usb_address env syspath);
      match List.find (λ device, bool_decide
               ((bus, dev) = (getBusNumber device, getDeviceAddress device)))
             (getDeviceIterator env (trace s)) with
      | None => mret None
      | Some device =>
          s ← py_get;
          emit (DeviceOpen (dev_id device));;
          match device_open env (trace s) device with
          | Raised e =>
              if is_USBError e then
                emit (LogError "Failed to open USB device");;
                match _fail_cbs s !! tp with
                | Some fail_cb =>
                    s ← py_get;
                    emit (FailCallback fail_cb (Some syspath) vendor product);;
                    py_answer (fail_callback env (trace s) fail_cb);;
                    mret None
                | None =>
                    (if daemon s then emit (AddError vendor product) else mret tt);;
                    mret None
                end
              else py_raise e
          | Returned _ =>
              s ← py_get;
              emit (DriverCallback callback (dev_id device));;
              match driver_callback env (trace s) callback device with
              | Raised USBErrorBusy =>
                  emit (LogError "Failed to claim USB device");;
                  match _fail_cbs s !! tp with
                  | Some fail_cb =>
                      emit (DeviceClose (dev_id device));;
                      s ← py_get;
                      emit (FailCallback fail_cb None vendor product);;
                      py_answer (fail_callback env (trace s) fail_cb);;
                      mret (Some false)
                  | None =>
                      (if daemon s then emit (AddError vendor product) else mret tt);;
                      set_retry_devices (λ l, l ++ [Entry syspath tp]);;
                      emit (DeviceClose (dev_id device));;
                      mret (Some true)
                  end
              | Raised e => py_raise e
              | Returned (Some handled_device) =>
                  set_devices (dict_set (dev_id device) handled_device);;
                  set_syspaths <[syspath := dev_id device]>;;
                  need_daemon;;
                  emit (RemoveError vendor product);;
                  mret (Some true)
              | Returned None =>
                  emit (LogError "Known USB device ignored");;
                  emit (DeviceClose (dev_id device));;
                  mret (Some false)
              end
          end
      end
  end.

(** The loop [for d in self._devices.values(): try: d.flush() except
    usb1.USBErrorPipe: ...; d.close(); break] of [mainloop], as a function
    of the dictionary: it yields the devices after the loop and the
    exception, if any, that left it. *)
Fixpoint flush_devices (env : Env) (ds : list (nat * USBDevice))
    : Outcome unit * list (nat * USBDevice) :=
  match ds with
  | [] => (Returned tt, [])
  | (k, d) :: rest =>
      match flush (handle_of env k) d with
      | (Returned _, d') =>
          let '(r, rest') := flush_devices env rest in (r, (k, d') :: rest')
      | (Raised USBErrorPipe, d') =>
          let '(r, d'') := close (handle_of env k) d' in
          (match r with Returned _ => Returned tt | Raised e => Raised e end,
           (k, d'') :: rest)
      | (Raised e, d') => (Raised e, (k, d') :: rest)
      end
  end.

(** [USBDriver.mainloop]; [t_check] and [t_set] are what the two calls of
    [time.time()] return when they are reached. The callbacks that run
    inside a pass (those of [handleEventsTimeout], of the requests that
    [flush] serves and of [handle_new_device]) are answered by the
    environment and recorded: what such a callback does to the driver
    itself is no part of a pass here. [USBDevice.force_restart], through
    which a callback can reach the retry queue, is a step of its own
    ([USBHotplug.force_restart]). *)
Definition mainloop (env : Env) (t_check t_set : Q) : Py USBDriver unit :=
  s ← py_get;
  (if bool_decide (_changed s > 0) then
     emit HandleEventsTimeout;;
     set_changed 0
   else mret tt);;
  s ← py_get;
  (let '(r, ds) := flush_devices env (_devices s) in
   set_devices (λ _, ds);;
   py_answer r);;
  s ← py_get;
  if bool_decide (_retry_devices s ≠ []) then
    emit (Now t_check);;
    if Qlt_le_dec (_retry_devices_timer s) t_check then
      emit (Now t_set);;
      set_retry_devices_timer (t_set + 5)%Q;;
      let lst := _retry_devices s in
      set_retry_devices (λ _, []);;
      py_for lst (λ entry,
        (* [for syspath, (vendor, product) in lst]: of a bare pair of ids,
           the second, an integer, cannot be unpacked *)
        match entry with
        | Entry syspath (vendor, product) =>
            handle_new_device env syspath vendor product;;
            mret tt
        | Bare _ => py_raise (OtherException "TypeError")
        end)
    else mret tt
  else mret tt.

End USB.

(** ** [scc/mapper.py] *)
Module Mapper.

(** The names [LEFT], [RIGHT], [CPAD], [DPAD], [STICK] and [RSTICK] of
    [scc/constants.py], a file that is not among the modelled sources: they
    index [profile.pads] and [profile.triggers] and are passed as the [what]
    argument of the handlers. Only their being distinct matters here. *)
Inductive What := LEFT | RIGHT | CPAD | DPAD | STICK | RSTICK.

#[global] Instance What_eq_dec : EqDecision What.
Proof. solve_decision. Defined.

(** The members [FE_STICK], [FE_TRIGGER] and [FE_PAD] of [force_event],
    also names of [scc/constants.py]. *)
Inductive ForceEvent := FE_STICK | FE_TRIGGER | FE_PAD.

#[global] Instance ForceEvent_eq_dec : EqDecision ForceEvent.
Proof. solve_decision. Defined.

Module HapticPos.
Inductive t := LEFT | RIGHT | BOTH.
End HapticPos.

#[global] Instance HapticPos_eq_dec : EqDecision HapticPos.t.
Proof. solve_decision. Defined.

(** The numeric constants of [scc/constants.py] that [mapper.py] uses.
    That file is not among the modelled sources, so its values are
    parameters of the development. *)
Class Constants := {
  (* SCButtons *)
  LPAD : Z;
  LPADTOUCH : Z;
  RPADTOUCH : Z;
  CPADTOUCH : Z;
  STICKPRESS : Z;
  STICKTILT : Z;
  (* ControllerFlags *)
  SEPARATE_STICK : Z;
  IS_DECK : Z;
  HAS_RSTICK : Z;
  HAS_CPAD : Z;
  (* the integer value of a HapticPos member, used as a list index *)
  HapticPos_value : HapticPos.t → Z
}.

(** Modelled from the spec: class [HapticData] of [scc/controller.py],
    which is not among the sources. A haptic request has a position and
    an amplitude (with a period and a count, the keyword arguments that
    [mapper.py] passes to its constructor); [get_position] reads the
    position and [with_position] yields the same request for another
    position, since the spec has a request for both sides split into two
    single-side requests that both carry its amplitude. *)
Record HapticData := mkHaptic {
  position : HapticPos.t;
  amplitude : Q;
  period : Q;
  count : Z
}.

(** Modelled from the spec: [HapticData.get_position] of
    [scc/controller.py], the side a request is for. *)
Definition get_position (h : HapticData) : HapticPos.t := position h.

(** Modelled from the spec: [HapticData.with_position] of
    [scc/controller.py], the same request for another side. *)
Definition with_position (h : HapticData) (p : HapticPos.t) : HapticData :=
  mkHaptic p (amplitude h) (period h) (count h).

(** One raw read of the controller ([state] and [old_state]). *)
Record ControllerState := {
  st_buttons : Z;
  ltrig : Z; rtrig : Z;
  stick_x : Z; stick_y : Z;
  lpad_x : Z; lpad_y : Z;
  rpad_x : Z; rpad_y : Z;
  cpad_x : Z; cpad_y : Z;
  dpad_x : Z; dpad_y : Z;
  rstick_x : Z; rstick_y : Z;
  gpitch : Z; gyaw : Z; groll : Z;
  q1 : Z; q2 : Z; q3 : Z; q4 : Z
}.

(** What [input] reads from a controller object. *)
Record Controller := {
  flags : Z;
  get_gyro_enabled : bool
}.

(** What [input] reads from the bound profile: the keys of
    [profile.buttons], in iteration order, and the keys of
    [profile.triggers]. [profile.stick], [profile.rstick], [profile.gyro]
    and [profile.pads[side]] exist for every profile. *)
Record Profile := {
  p_buttons : list Z;
  p_triggers : list What
}.

(** Calls that leave the mapper: into the bound profile, the controller,
    the scheduler and the log. *)
Inductive Call :=
  (** [profile.buttons[x].button_press(mapper)] *)
  | button_press (x : Z)
  (** [profile.buttons[x].button_release(mapper)] *)
  | button_release (x : Z)
  (** [profile.stick.whole(mapper, x, y, what)] *)
  | stick_whole (x y : Z) (what : What)
  (** [profile.rstick.whole(mapper, x, y, what)] *)
  | rstick_whole (x y : Z) (what : What)
  (** [profile.pads[side].whole(mapper, x, y, what)] *)
  | pad_whole (side : What) (x y : Z) (what : What)
  (** [profile.triggers[side].trigger(mapper, position, old_position)] *)
  | trigger (side : What) (pos old_pos : Z)
  (** [profile.gyro.gyro(mapper, pitch, yaw, roll, q1, q2, q3, q4)] *)
  | gyro (pitch yaw roll q1 q2 q3 q4 : Z)
  (** [controller.feedback(hapticdata)] *)
  | controller_feedback (h : HapticData)
  (** [log.error(...)] *)
  | log_error
  (** [self.scheduler.run()] *)
  | scheduler_run
  (** [self.generate_events()]: flushes the virtual keyboard and mouse,
      which none of the dispatch rules reads *)
  | generate_events.

(** Whether a call raises, given the calls made so far. A handler gets
    the mapper as its argument: what it does through it to the virtual
    devices, and any store of its own into the attributes of the mapper
    ([set_button], [set_was_pressed], [force_event]), stays outside the
    model, in which a call returns or raises and nothing else. What is
    established below is therefore about the calls that [input] makes and
    about the attributes as [input] itself leaves them. *)
Definition Env : Type := list Call → Call → option exn.

(** The attributes of a [Mapper] that the dispatch rules and the haptic
    feedback read or write. *)
Record t := mk {
  profile : Profile;
  controller : option Controller;
  feedbacks : list (option HapticData);   (* left, right *)
  buttons : Z;
  old_buttons : Z;
  lpad_touched : bool;
  state : option ControllerState;
  old_state : option ControllerState;
  force_event : list ForceEvent;
  _testing : bool;                        (* hasattr(self, "_testing") *)
  trace : list Call
}.

(** [Mapper.__init__] *)
Definition init (p : Profile) : t :=
  {| profile := p; controller := None; feedbacks := [None; None];
     buttons := 0; old_buttons := 0; lpad_touched := false;
     state := None; old_state := None; force_event := [];
     _testing := false; trace := [] |}.

(** [Mapper.set_controller] *)
Definition set_controller (c : option Controller) : Py t unit :=
  py_modify (λ m, mk (profile m) c (feedbacks m) (buttons m) (old_buttons m)
                     (lpad_touched m) (state m) (old_state m) (force_event m)
                     (_testing m) (trace m)).

Definition set_feedbacks (f : list (option HapticData) → list (option HapticData))
    : Py t unit :=
  py_modify (λ m, mk (profile m) (controller m) (f (feedbacks m)) (buttons m)
                     (old_buttons m) (lpad_touched m) (state m) (old_state m)
                     (force_event m) (_testing m) (trace m)).

Definition set_buttons (b : Z) : Py t unit :=
  py_modify (λ m, mk (profile m) (controller m) (feedbacks m) b (old_buttons m)
                     (lpad_touched m) (state m) (old_state m) (force_event m)
                     (_testing m) (trace m)).

Definition set_lpad_touched (b : bool) : Py t unit :=
  py_modify (λ m, mk (profile m) (controller m) (feedbacks m) (buttons m)
                     (old_buttons m) b (state m) (old_state m) (force_event m)
                     (_testing m) (trace m)).

Definition set_force_event (fe : list ForceEvent) : Py t unit :=
  py_modify (λ m, mk (profile m) (controller m) (feedbacks m) (buttons m)
                     (old_buttons m) (lpad_touched m) (state m) (old_state m) fe
                     (_testing m) (trace m)).

(** The four stores at the head of [input]. *)
Definition store_states (old_st st : ControllerState) : Py t unit :=
  py_modify (λ m, mk (profile m) (controller m) (feedbacks m) (st_buttons st)
                     (buttons m) (lpad_touched m) (Some st) (Some old_st)
                     (force_event m) (_testing m) (trace m)).

(** A call to the outside: recorded, and raising if the environment says
    so. *)
Definition call (env : Env) (c : Call) : Py t unit :=
  λ m, (match env (trace m) c with Some e => Raised e | None => Returned tt end,
        mk (profile m) (controller m) (feedbacks m) (buttons m) (old_buttons m)
           (lpad_touched m) (state m) (old_state m) (force_event m)
           (_testing m) (trace m ++ [c])).

(** Python truth value of an integer. *)
Definition truthy (n : Z) : bool := negb (n =? 0).

(** [l[i] = v] on a Python list: negative indices count from the end,
    anything else out of range raises [IndexError]. *)
Definition py_setitem {A} (i : Z) (v : A) (l : list A) : Outcome (list A) :=
  let n := Z.of_nat (length l) in
  if bool_decide (0 ≤ i < n) then Returned (<[Z.to_nat i := v]> l)
  else if bool_decide (- n ≤ i < 0) then Returned (<[Z.to_nat (n + i) := v]> l)
  else Raised IndexError.

Section WithConstants.
Context `{K : Constants}.

(** [Mapper.send_feedback] *)
Definition send_feedback (hapticdata : HapticData) : Py t unit :=
  if bool_decide (get_position hapticdata = HapticPos.BOTH) then
    (* HapticPos.BOTH is special case as controller doesn't
       really support doing that by itself. *)
    m ← py_get;
    l ← py_answer (py_setitem 0
           (Some (with_position hapticdata HapticPos.LEFT)) (feedbacks m));
    set_feedbacks (λ _, l);;
    m ← py_get;
    l ← py_answer (py_setitem 1
           (Some (with_position hapticdata HapticPos.RIGHT)) (feedbacks m));
    set_feedbacks (λ _, l)
  else
    m ← py_get;
    l ← py_answer (py_setitem (HapticPos_value (get_position hapticdata))
           (Some hapticdata) (feedbacks m));
    set_feedbacks (λ _, l).

(** [Mapper.generate_feedback] *)
Definition generate_feedback (env : Env) : Py t unit :=
  m ← py_get;
  match controller m with
  | Some _ =>
      py_for [0%nat; 1%nat] (λ x,
        m ← py_get;
        match feedbacks m !! x with
        | Some (Some h) =>
            call env (controller_feedback h);;
            set_feedbacks <[x := None]>
        | Some None => mret tt
        | None => py_raise IndexError
        end)
  | None => mret tt
  end.

(** [self.controller.flags]: [AttributeError] while no controller is
    set. *)
Definition self_controller_flags : Py t Z :=
  m ← py_get;
  match controller m with
  | Some c => mret (flags c)
  | None => py_raise AttributeError
  end.

(** [FE_x in fe] *)
Definition forced (fe : list ForceEvent) (f : ForceEvent) : bool :=
  bool_decide (f ∈ fe).

(** [a != b] *)
Definition changed (a b : Z) : bool := negb (a =? b).

(** The [try] block of [input], part by part. *)

(** "Check buttons" *)
Definition check_buttons (env : Env) (btn_add btn_rem : Z) : Py t unit :=
  m ← py_get;
  if truthy btn_add || truthy btn_rem then
    (* At least one button was pressed *)
    py_for (p_buttons (profile m)) (λ x,
      if truthy (Z.land x btn_add) then call env (button_press x)
      else if truthy (Z.land x btn_rem) then call env (button_release x)
      else mret tt)
  else mret tt.

(** "Check sticks" *)
Definition check_sticks (env : Env) (old_st st : ControllerState)
    (fe : list ForceEvent) : Py t unit :=
  self_flags ← self_controller_flags;
  m ← py_get;
  (if truthy (Z.land self_flags SEPARATE_STICK) then
     if forced fe FE_STICK || changed (stick_x old_st) (stick_x st)
        || changed (stick_y old_st) (stick_y st)
     then call env (stick_whole (stick_x st) (stick_y st) STICK)
     else mret tt
   else if negb (truthy (Z.land (buttons m) LPADTOUCH)) then
     if forced fe FE_STICK || changed (lpad_x old_st) (lpad_x st)
        || changed (lpad_y old_st) (lpad_y st)
     then call env (stick_whole (lpad_x st) (lpad_y st) STICK)
     else mret tt
   else mret tt);;
  self_flags ← self_controller_flags;
  if truthy (Z.land self_flags IS_DECK) then
    if forced fe FE_STICK || changed (rstick_x old_st) (rstick_x st)
       || changed (rstick_y old_st) (rstick_y st)
    then call env (rstick_whole (rstick_x st) (rstick_y st) RSTICK)
    else mret tt
  else mret tt.

(** "Check gyro" *)
Definition check_gyro (env : Env) (ctrl : Controller) (st : ControllerState)
    : Py t unit :=
  if get_gyro_enabled ctrl then
    call env (gyro (gpitch st) (gyaw st) (groll st) (q1 st) (q2 st) (q3 st) (q4 st))
  else mret tt.

(** "Check triggers" *)
Definition check_triggers (env : Env) (old_st st : ControllerState)
    (fe : list ForceEvent) : Py t unit :=
  m ← py_get;
  (if forced fe FE_TRIGGER || changed (ltrig st) (ltrig old_st) then
     if bool_decide (LEFT ∈ p_triggers (profile m))
     then call env (trigger LEFT (ltrig st) (ltrig old_st))
     else mret tt
   else mret tt);;
  if forced fe FE_TRIGGER || changed (rtrig st) (rtrig old_st) then
    if bool_decide (RIGHT ∈ p_triggers (profile m))
    then call env (trigger RIGHT (rtrig st) (rtrig old_st))
    else mret tt
  else mret tt.

(** "Check pads": "RPAD" *)
Definition check_rpad (env : Env) (ctrl : Controller)
    (old_st st : ControllerState) (fe : list ForceEvent) (btn_rem : Z)
    : Py t unit :=
  m ← py_get;
  if truthy (Z.land (flags ctrl) IS_DECK) then
    if forced fe FE_PAD || changed (rpad_x old_st) (rpad_x st)
       || changed (rpad_y old_st) (rpad_y st)
    then call env (pad_whole RIGHT (rpad_x st) (rpad_y st) RIGHT)
    else mret tt
  else if truthy (Z.land (flags ctrl) HAS_RSTICK) then
    if forced fe FE_PAD || changed (rpad_x old_st) (rpad_x st)
       || changed (rpad_y old_st) (rpad_y st)
    then call env (pad_whole RIGHT (rpad_x st) (rpad_y st) RIGHT)
    else mret tt
  else if forced fe FE_PAD || truthy (Z.land (buttons m) RPADTOUCH)
          || truthy (Z.land RPADTOUCH btn_rem)
  then call env (pad_whole RIGHT (rpad_x st) (rpad_y st) RIGHT)
  else mret tt.

(** "DPAD" *)
Definition check_dpad (env : Env) (ctrl : Controller)
    (old_st st : ControllerState) (fe : list ForceEvent) : Py t unit :=
  if truthy (Z.land (flags ctrl) IS_DECK) then
    if forced fe FE_PAD || changed (dpad_x old_st) (dpad_x st)
       || changed (dpad_y old_st) (dpad_y st)
    then call env (pad_whole DPAD (dpad_x st) (dpad_y st) DPAD)
    else mret tt
  else mret tt.

(** "LPAD" *)
Definition check_lpad (env : Env) (old_st st : ControllerState)
    (fe : list ForceEvent) : Py t unit :=
  self_flags ← self_controller_flags;
  m ← py_get;
  if truthy (Z.land self_flags SEPARATE_STICK) then
    if forced fe FE_PAD || changed (lpad_x old_st) (lpad_x st)
       || changed (lpad_y old_st) (lpad_y st)
    then call env (pad_whole LEFT (lpad_x st) (lpad_y st) LEFT)
    else mret tt
  else if truthy (Z.land (buttons m) LPADTOUCH) then
    (* Pad is being touched now *)
    (if negb (lpad_touched m) then set_lpad_touched true else mret tt);;
    call env (pad_whole LEFT (lpad_x st) (lpad_y st) LEFT);;
    m ← py_get;
    if truthy (Z.land (st_buttons old_st) STICKTILT)
       && negb (truthy (Z.land (buttons m) STICKTILT))
    then
      (* LPAD and stick share axes: this is how the mapper can tell
         that the stick was recentered *)
      call env (stick_whole 0 0 STICK)
    else mret tt
  else if negb (truthy (Z.land (buttons m) STICKTILT)) then
    (* Pad is not being touched *)
    if lpad_touched m then
      set_lpad_touched false;;
      call env (pad_whole LEFT 0 0 LEFT)
    else mret tt
  else mret tt.

(** "CPAD (touchpad on DS4 controller)" *)
Definition check_cpad (env : Env) (ctrl : Controller)
    (old_st st : ControllerState) (fe : list ForceEvent) : Py t unit :=
  m ← py_get;
  if truthy (Z.land (flags ctrl) HAS_CPAD) then
    if forced fe FE_PAD
       || changed (cpad_x old_st) (cpad_x st)
       || changed (cpad_y old_st) (cpad_y st)
       || (truthy (Z.land (old_buttons m) CPADTOUCH)
           && negb (truthy (Z.land (buttons m) CPADTOUCH)))
    then
      if truthy (Z.land (buttons m) CPADTOUCH)
      then call env (pad_whole CPAD (cpad_x st) (cpad_y st) CPAD)
      else if truthy (Z.land (old_buttons m) CPADTOUCH)
      then call env (pad_whole CPAD 0 0 CPAD)
      else mret tt
    else mret tt
  else mret tt.

(** The body of the [try] block of [input]. *)
Definition dispatch (env : Env) (ctrl : Controller)
    (old_st st : ControllerState) (fe : list ForceEvent)
    (btn_add btn_rem : Z) : Py t unit :=
  check_buttons env btn_add btn_rem;;
  check_sticks env old_st st fe;;
  check_gyro env ctrl st;;
  check_triggers env old_st st fe;;
  check_rpad env ctrl old_st st fe btn_rem;;
  check_dpad env ctrl old_st st fe;;
  check_lpad env old_st st fe;;
  check_cpad env ctrl old_st st fe.

(** [Mapper.input]. The bookkeeping of [time_elapsed], which only
    scales mouse motion, is left out. *)
Definition input (env : Env) (ctrl : Controller)
    (old_st st : ControllerState) : Py t unit :=
  (* Store states *)
  store_states old_st st;;
  m ← py_get;
  (if truthy (Z.land (buttons m) LPAD)
      && negb (truthy (Z.land (buttons m) (Z.lor LPADTOUCH STICKTILT)))
   then set_buttons (Z.lor (Z.land (buttons m) (Z.lnot LPAD)) STICKPRESS)
   else mret tt);;
  m ← py_get;
  let fe := force_event m in
  set_force_event [];;
  (* Check buttons *)
  let xor := Z.lxor (old_buttons m) (buttons m) in
  let btn_rem := Z.land xor (old_buttons m) in
  let btn_add := Z.land xor (buttons m) in
  py_try (dispatch env ctrl old_st st fe btn_add btn_rem)
    (λ _, true)
    (λ e,
       (* Log error but don't crash here, it breaks too many things at once *)
       m ← py_get;
       if _testing m then py_raise e
       else call env log_error;; call env log_error);;
  call env scheduler_run;;
  call env generate_events;;
  generate_feedback env.

End WithConstants.

End Mapper.

(** ** [scc/device_monitor.py]: udev events, removal callbacks, rescan *)
Module DeviceMonitorEvents.
Import DeviceMonitor.

(** A udev event as [receive_device()] returns it. *)
Record DeviceEvent := {
  action : string;
  initialized : bool;
  subsystem : string;
  syspath : string
}.

(** Calls to the outside that [on_data_ready] and [rescan] make besides
    those of [_on_new_syspath]. *)
Inductive Call :=
  (** [self._get_hci_addresses()], whose body is [DeviceIds._get_hci_addresses] *)
  | GetHciAddresses
  (** a removal callback: [cb(syspath, vendor, product)] *)
  | RemovalCalled (cb : callable) (syspath : string) (vendor product : option Z).

(** The monitor together with the trace of those calls. *)
Record t := mk {
  monitor : DeviceMonitor.t;
  calls : list Call
}.

Record Env := {
  base : DeviceMonitor.Env;
  (** whether [_get_hci_addresses] raises *)
  get_hci_addresses : list Call → Outcome unit;
  (** whether a removal callback raises *)
  call_removal : list Call → callable → string → option Z → option Z → Outcome unit;
  (** what iterating over the enumerator yields, once every watched
      subsystem was matched on it *)
  enumerate : list string;
  (** [DeviceMonitor.get_subsystem(syspath)]: may raise [OSError] *)
  get_subsystem : string → Outcome string
}.

Definition on_monitor {A} (m : Py DeviceMonitor.t A) : Py t A :=
  λ s, let '(o, mon) := m (monitor s) in (o, mk mon (calls s)).

Definition call {A} (c : Call) (answer : list Call → Outcome A) : Py t A :=
  λ s, (answer (calls s), mk (monitor s) (calls s ++ [c])).

(** [DeviceMonitor.add_remove_callback] *)
Definition add_remove_callback (syspath : string) (cb : option callable)
    : Py DeviceMonitor.t unit :=
  s ← py_get;
  match known_devs s !! syspath with
  | Some (vendor, product, old_cb) =>
      set_known_devs (delete syspath);;
      set_known_devs <[syspath := ((vendor, product, cb) : KnownDev)]>
  | None => mret tt
  end.

(** [DeviceMonitor.on_data_ready]; [event] is what [receive_device()]
    returned. *)
Definition on_data_ready (env : Env) (event : option DeviceEvent) : Py t unit :=
  match event with
  | None => mret tt
  | Some event =>
      s ← py_get;
      let known := bool_decide (is_Some (known_devs (monitor s) !! syspath event)) in
      if bool_decide (action event = "bind") && initialized event then
        if negb known then
          on_monitor (_on_new_syspath (base env) (subsystem event) (syspath event))
        else mret tt
      else if bool_decide (action event = "add") && initialized event
              && (bool_decide (subsystem event = "input")
                  || bool_decide (subsystem event = "bluetooth")) then
        (* those are not bound *)
        if negb known then
          (if bool_decide (subsystem event = "bluetooth")
           then call GetHciAddresses (get_hci_addresses env)
           else mret tt);;
          on_monitor (_on_new_syspath (base env) (subsystem event) (syspath event))
        else mret tt
      else if (bool_decide (action event = "remove")
               || bool_decide (action event = "unbind")) && known then
        match known_devs (monitor s) !! syspath event with
        | Some (vendor, product, cb) =>
            on_monitor (set_known_devs (delete (syspath event)));;
            match cb with
            | Some cb =>
                call (RemovalCalled cb (syspath event) vendor product)
                     (λ history, call_removal env history cb (syspath event)
                                   vendor product)
            | None => mret tt
            end
        | None => py_raise KeyError
        end
      else mret tt
  end.

(** [subsystem in subsystem_to_vp_to_callback]: some key of
    [dev_added_cbs] is for this subsystem. *)
Definition watched (s : DeviceMonitor.t) (subsystem : string) : bool :=
  existsb (λ kv : Key * callable, bool_decide (kv.1.1.1 = subsystem))
    (map_to_list (dev_added_cbs s)).

(** [DeviceMonitor.rescan] *)
Definition rescan (env : Env) : Py t unit :=
  call GetHciAddresses (get_hci_addresses env);;
  s ← py_get;
  let subsystems := watched (monitor s) in
  py_for (enumerate env) (λ syspath,
    s ← py_get;
    if bool_decide (is_Some (known_devs (monitor s) !! syspath)) then mret tt
    else
      match get_subsystem env syspath with
      | Raised OSError => mret tt
      | Raised e => py_raise e
      | Returned subsystem =>
          if subsystems subsystem
          then on_monitor (_on_new_syspath (base env) subsystem syspath)
          else mret tt
      end).

End DeviceMonitorEvents.


(** ** [scc/device_monitor.py]: vendor and product ids, bluetooth addresses *)
Module DeviceIds.
Import Stdlib.Strings.Ascii.

(** *** The Python string functions that the code uses *)

(** The digit of value [n] as [hex] prints it: ["0123456789abcdef"[n]]. *)
Definition hex_digit (n : Z) : ascii :=
  if n <? 10 then ascii_of_nat (48 + Z.to_nat n) else ascii_of_nat (87 + Z.to_nat n).

Fixpoint hex_loop (fuel : nat) (n : Z) (acc : string) : string :=
  match fuel with
  | O => acc
  | S fuel' =>
      let acc' := String (hex_digit (n mod 16)) acc in
      if n <? 16 then acc' else hex_loop fuel' (n / 16) acc'
  end.

(** [hex(x)] *)
Definition hex (x : Z) : string :=
  if x <? 0 then "-0x" +:+ hex_loop (S (Z.to_nat (Z.log2 (- x)))) (- x) ""
  else "0x" +:+ hex_loop (S (Z.to_nat (Z.log2 x))) x "".

(** [s.lstrip(chars)] *)
Fixpoint lstrip (chars : list ascii) (s : string) : string :=
  match s with
  | EmptyString => EmptyString
  | String a s' => if bool_decide (a ∈ chars) then lstrip chars s' else s
  end.

(** [s.zfill(width)] *)
Definition zfill (width : nat) (s : string) : string :=
  let pad := String.string_of_list_ascii (replicate (width - String.length s) "0"%char) in
  match s with
  | String a rest =>
      if bool_decide (a = "+"%char) || bool_decide (a = "-"%char)
      then String a (pad +:+ rest)
      else pad +:+ s
  | EmptyString => pad
  end.

Definition upper_ascii (a : ascii) : ascii :=
  let n := nat_of_ascii a in
  if (97 <=? n)%nat && (n <=? 122)%nat then ascii_of_nat (n - 32) else a.

(** [s.upper()], on ASCII strings *)
Fixpoint upper (s : string) : string :=
  match s with
  | EmptyString => EmptyString
  | String a s' => String (upper_ascii a) (upper s')
  end.

(** [s.split("/")[-1]] *)
Fixpoint last_component (s : string) : string :=
  match s with
  | EmptyString => EmptyString
  | String a s' =>
      if existsb (λ b, bool_decide (b = "/"%char)) (String.list_ascii_of_string s')
      then last_component s'
      else if bool_decide (a = "/"%char) then s' else s
  end.

(** [os.path.join(a, b)] for a relative [b] *)
Definition path_join (a b : string) : string :=
  match last (String.list_ascii_of_string a) with
  | None => b
  | Some c => if bool_decide (c = "/"%char) then a +:+ b else a +:+ "/" +:+ b
  end.

(** The value of a hexadecimal digit, of either case. *)
Definition hex_value (a : ascii) : option Z :=
  let n := Z.of_nat (nat_of_ascii a) in
  if (48 <=? n) && (n <=? 57) then Some (n - 48)
  else if (65 <=? n) && (n <=? 70) then Some (n - 55)
  else if (97 <=? n) && (n <=? 102) then Some (n - 87)
  else None.

Fixpoint int16_loop (s : string) (acc : Z) : option Z :=
  match s with
  | EmptyString => Some acc
  | String a s' =>
      match hex_value a with
      | Some d => int16_loop s' (16 * acc + d)
      | None => None
      end
  end.

(** [int(x, 16)] on a string of hexadecimal digits, which is all that
    [RE_BT_NUMBERS] lets through; on anything else the model raises
    [ValueError]. *)
Definition int16 (x : string) : Outcome Z :=
  match x with
  | EmptyString => Raised (OtherException "ValueError")
  | _ => match int16_loop x 0 with
         | Some v => Returned v
         | None => Raised (OtherException "ValueError")
         end
  end.

(** *** [RE_BT_NUMBERS] *)

(** The character class [[0-9A-F]]. *)
Definition is_hex_upper (a : ascii) : bool :=
  let n := nat_of_ascii a in
  ((48 <=? n) && (n <=? 57) || (65 <=? n) && (n <=? 70))%nat.

(** [RE_BT_NUMBERS.match(name)] for the pattern
    [[0-9A-F]{4}:([0-9A-F]{4}):([0-9A-F]{4}).*]: the two groups, or [None].
    The match is anchored at the start only, and the trailing [.*] never
    fails. *)
Definition RE_BT_NUMBERS_match (name : string) : option (string * string) :=
  match String.list_ascii_of_string name with
  | a1 :: a2 :: a3 :: a4 :: c1 :: b1 :: b2 :: b3 :: b4 :: c2
      :: d1 :: d2 :: d3 :: d4 :: _ =>
      if forallb is_hex_upper [a1; a2; a3; a4; b1; b2; b3; b4; d1; d2; d3; d4]
         && bool_decide (c1 = ":"%char) && bool_decide (c2 = ":"%char)
      then Some (String.string_of_list_ascii [b1; b2; b3; b4],
                 String.string_of_list_ascii [d1; d2; d3; d4])
      else None
  | _ => None
  end.

(** [vendor, product = [ int(x, 16) for x in RE_BT_NUMBERS.match(name).groups() ]] *)
Definition ids_of_groups (groups : string * string) : Outcome (Z * Z) :=
  match int16 (fst groups), int16 (snd groups) with
  | Returned vendor, Returned product => Returned (vendor, product)
  | Raised e, _ => Raised e
  | _, Raised e => Raised e
  end.

(** *** [DeviceMonitor.get_vendor_product] *)

(** What sysfs holds. *)
Record SysFs := {
  path_exists : string → bool;                 (* [os.path.exists] *)
  (** [int(open(path).read().strip(), 16)] *)
  read_id : string → Outcome Z;
  listdir : string → Outcome (list string);    (* [os.listdir] *)
  isdir : string → bool;                       (* [os.path.isdir] *)
  get_subsystem : string → Outcome string;     (* [DeviceMonitor.get_subsystem] *)
  _dev_for_hci : string → Outcome (option string)
}.

Inductive FsEvent :=
  (** [time.sleep(1)] *)
  | Sleep.

(** The search of [get_vendor_product] in the "bluetooth" subsystem:
    the ids, or [None] when the method goes on to raise. *)
Definition bluetooth_ids (fs : SysFs) (syspath : string)
    : Py (list FsEvent) (option (Z * Z)) :=
  (* Search for folder that matches regular expression... *)
  all ← py_answer (listdir fs syspath);
  let names := List.filter (λ name, isdir fs syspath
                                    && bool_decide (is_Some (RE_BT_NUMBERS_match name)))
                 all in
  match names with
  | name :: _ =>
      match RE_BT_NUMBERS_match name with
      | Some groups => ids ← py_answer (ids_of_groups groups); mret (Some ids)
      | None => py_raise AttributeError
      end
  | [] =>
      (* Sleep for 1 second to make sure info is available on system *)
      py_modify (λ tr, tr ++ [Sleep]);;
      node ← py_answer (_dev_for_hci fs syspath);
      match node with
      | Some node =>
          if bool_decide (node ≠ "") then
            match RE_BT_NUMBERS_match (last_component node) with
            | Some groups => ids ← py_answer (ids_of_groups groups); mret (Some ids)
            | None => mret None
            end
          else mret None
      | None => mret None
      end
  end.

(** [DeviceMonitor.get_vendor_product] *)
Definition get_vendor_product (fs : SysFs) (syspath : string)
    (subsystem : option string) : Py (list FsEvent) (Z * Z) :=
  if path_exists fs (path_join syspath "idVendor") then
    vendor ← py_answer (read_id fs (path_join syspath "idVendor"));
    product ← py_answer (read_id fs (path_join syspath "idProduct"));
    mret (vendor, product)
  else
    subsystem ← match subsystem with
                | Some s => mret s
                | None => py_answer (get_subsystem fs syspath)
                end;
    found ← (if bool_decide (subsystem = "bluetooth")
             then bluetooth_ids fs syspath
             else mret None);
    match found with
    | Some ids => mret ids
    | None => py_raise OSError
    end.

(** *** [DeviceMonitor._get_hci_addresses] *)

(** An entry of [cl.conn_info]. *)
Record hci_conn_info := {
  handle : Z;          (* [c_uint16] *)
  bdaddr : list Z      (* [c_uint8 * 6] *)
}.

Record HciEnv := {
  HAVE_BLUETOOTH_LIB : bool;
  hci_get_route : Z;                 (* what [btlib.hci_get_route] returns *)
  (** [fcntl.ioctl(s, HCIGETCONNLIST, cl, True)] *)
  ioctl : Outcome Z;
  (** the first [cl.conn_num] entries of [cl.conn_info] after the ioctl *)
  conn_info : list hci_conn_info
}.

(** Storing into a [c_uint16] field: ctypes does no overflow checking. *)
Definition c_uint16 (n : Z) : Z := n mod 65536.

(** [hex(x).lstrip("0x").zfill(2).upper()] *)
Definition format_byte (x : Z) : string :=
  upper (zfill 2 (lstrip ["0"%char; "x"%char] (hex x))).

(** [":".join([ ... for x in reversed(ci.bdaddr) ])] *)
Definition format_address (bdaddr : list Z) : string :=
  String.concat ":" (map format_byte (rev bdaddr)).

(** [DeviceMonitor._get_hci_addresses], on [self.bt_addresses] *)
Definition _get_hci_addresses (env : HciEnv) : Py (gmap string string) unit :=
  if negb (HAVE_BLUETOOTH_LIB env) then mret tt
  else
    let dev_id := c_uint16 (hci_get_route env) in
    if (dev_id <? 0) || (dev_id >? 65534) then mret tt
    else
      r ← py_answer (ioctl env);
      if negb (r =? 0) then
        (* log.error("Failed to list bluetooth collections") *)
        mret tt
      else
        py_for (conn_info env) (λ ci,
          let id := "hci" +:+ pretty dev_id +:+ ":" +:+ pretty (handle ci) in
          py_modify <[id := format_address (bdaddr ci)]>).

End DeviceIds.


(** ** [scc/drivers/usb.py]: removal, registration and shutdown *)
Module USBHotplug.
Import USB.

Definition set_known_ids (f : gmap (Z * Z) callable → gmap (Z * Z) callable)
    : Py USBDriver unit :=
  py_modify (λ s, mkDrv (daemon s) (f (_known_ids s)) (_fail_cbs s) (_devices s)
                        (_syspaths s) (_retry_devices s) (_retry_devices_timer s)
                        (_changed s) (trace s)).

Definition set_fail_cbs (f : gmap (Z * Z) callable → gmap (Z * Z) callable)
    : Py USBDriver unit :=
  py_modify (λ s, mkDrv (daemon s) (_known_ids s) (f (_fail_cbs s)) (_devices s)
                        (_syspaths s) (_retry_devices s) (_retry_devices_timer s)
                        (_changed s) (trace s)).

(** [d[k]] on a dictionary kept in insertion order. *)
Fixpoint dict_get {V} (k : nat) (d : list (nat * V)) : option V :=
  match d with
  | [] => None
  | (k', v) :: d' => if decide (k' = k) then Some v else dict_get k d'
  end.

(** [del d[k]] on a dictionary kept in insertion order. *)
Fixpoint dict_del {V} (k : nat) (d : list (nat * V)) : list (nat * V) :=
  match d with
  | [] => []
  | (k', v) :: d' => if decide (k' = k) then d' else (k', v) :: dict_del k d'
  end.

(** [USBDriver.handle_removed_device]. [lowlevel_close] tells whether
    [device.close()] on the low-level device raises. The method returns
    [None]; the result here is the [USBDevice] that was taken out of
    [_devices], as its [close()] left it, for whoever still holds it. *)
Definition handle_removed_device (env : Env)
    (lowlevel_close : list Event → nat → Outcome unit)
    (syspath : string) (vendor product : Z) : Py USBDriver (option USBDevice) :=
  s ← py_get;
  match _syspaths s !! syspath with
  | None => mret None
  | Some device =>
      match dict_get device (_devices s) with
      | None => py_raise KeyError
      | Some handled_device =>
          set_syspaths (delete syspath);;
          set_devices (dict_del device);;
          match close (handle_of env device) handled_device with
          | (Raised e, _) => py_raise e
          | (Returned _, closed) =>
              s ← py_get;
              emit (DeviceClose device);;
              py_try (py_answer (lowlevel_close (trace s) device))
                (λ e, match e with USBErrorNoDevice => true | _ => false end)
                (* Safe to ignore, happens when device is physically removed *)
                (λ _, mret tt);;
              mret (Some closed)
          end
      end
  end.

(** The loop [for d in to_release: d.close()] of [on_exit]; it yields the
    devices as they are after the loop. *)
Fixpoint close_all (env : Env) (ds : list (nat * USBDevice))
    : Outcome unit * list (nat * USBDevice) :=
  match ds with
  | [] => (Returned tt, [])
  | (k, d) :: rest =>
      match close (handle_of env k) d with
      | (Returned _, d') =>
          let '(r, rest') := close_all env rest in (r, (k, d') :: rest')
      | (Raised e, d') => (Raised e, (k, d') :: rest)
      end
  end.

(** [USBDriver.on_exit]. The method returns [None]; the result here is
    the released devices, which the driver no longer holds. *)
Definition on_exit (env : Env) : Py USBDriver (list (nat * USBDevice)) :=
  s ← py_get;
  if bool_decide (_devices s ≠ []) then
    let to_release := _devices s in
    set_devices (λ _, []);;
    set_syspaths (λ _, ∅);;
    let '(r, released) := close_all env to_release in
    py_answer r;;
    mret released
  else mret [].

(** The USB driver together with the device monitor of its daemon. *)
Definition World : Type := USBDriver * DeviceMonitor.t.

Definition on_driver {A} (m : Py USBDriver A) : Py World A :=
  λ w, let '(o, d) := m (fst w) in (o, (d, snd w)).

Definition on_monitor {A} (m : Py DeviceMonitor.t A) : Py World A :=
  λ w, let '(o, mon) := m (snd w) in (o, (fst w, mon)).

(** [USBDriver.register_hotplug_device]; the bound methods
    [self.handle_new_device] and [self.handle_removed_device] are the
    callables of these names. *)
Definition register_hotplug_device (callback : callable) (vendor_id product_id : Z)
    (on_failure : option callable) : Py World unit :=
  on_driver (set_known_ids <[(vendor_id, product_id) := callback]>);;
  match on_failure with
  | Some f => on_driver (set_fail_cbs <[(vendor_id, product_id) := f]>)
  | None => mret tt
  end;;
  on_driver need_daemon;;
  on_monitor (DeviceMonitor.add_callback "usb" (Some vendor_id) (Some product_id)
                "handle_new_device" (Some "handle_removed_device")).

(** [USBDriver.unregister_hotplug_device] *)
Definition unregister_hotplug_device (callback : callable) (vendor_id product_id : Z)
    : Py USBDriver unit :=
  s ← py_get;
  if bool_decide (_known_ids s !! (vendor_id, product_id) = Some callback) then
    set_known_ids (delete (vendor_id, product_id));;
    s ← py_get;
    match _fail_cbs s !! (vendor_id, product_id) with
    | Some _ => set_fail_cbs (delete (vendor_id, product_id))
    | None => mret tt
    end
  else mret tt.

(** [USBDevice.force_restart], called on the device that the driver holds
    under [k] and whose low-level device reports the ids [vendor] and
    [product]: the device is closed where it is, in [_devices], and the
    pair of ids goes to the retry queue of the driver, [_usb]. Of a device
    that the driver does not hold, only the queue is the driver's. *)
Definition force_restart (env : Env) (k : nat) (vendor product : Z)
    : Py USBDriver unit :=
  let tp := (vendor, product) in
  s ← py_get;
  match dict_get k (_devices s) with
  | Some dev =>
      let '(r, closed) := close (handle_of env k) dev in
      set_devices (dict_set k closed);;
      py_answer r
  | None => mret tt
  end;;
  set_retry_devices (λ l, l ++ [Bare tp]).

End USBHotplug.


(** ** [scc/mapper.py]: the button queries that actions use *)
Module MapperButtons.
Import Mapper.

(** The [button] argument of [is_pressed], [set_button] and their
    [was_] variants: [LEFT], [RIGHT], or a member of [SCButtons]. *)
Inductive Button := PadLeft | PadRight | SCButton (b : Z).

Definition set_old_buttons (b : Z) : Py t unit :=
  py_modify (λ m, mk (profile m) (controller m) (feedbacks m) (buttons m) b
                     (lpad_touched m) (state m) (old_state m) (force_event m)
                     (_testing m) (trace m)).

Section WithButtons.
Context `{K : Constants}.

(** [SCButtons.RPAD], and the members of [SCButtons] in the order in
    which the enumeration yields them: further names of
    [scc/constants.py]. *)
Variable RPAD : Z.
Variable SCButtons : list Z.

(** [Mapper.controller_flags] *)
Definition controller_flags (m : t) : Z :=
  match controller m with
  | None => 0
  | Some c => flags c
  end.

(** [Mapper.is_touched]; the result [False] is the integer 0. *)
Definition is_touched (what : What) (m : t) : Z :=
  match what with
  | LEFT => Z.land (buttons m) LPADTOUCH
  | RIGHT => Z.land (buttons m) RPADTOUCH
  | CPAD => Z.land (buttons m) CPADTOUCH
  | _ => 0
  end.

(** [Mapper.was_touched] *)
Definition was_touched (what : What) (m : t) : Z :=
  match what with
  | LEFT => Z.land (old_buttons m) LPADTOUCH
  | RIGHT => Z.land (old_buttons m) RPADTOUCH
  | CPAD => Z.land (old_buttons m) CPADTOUCH
  | _ => 0
  end.

(** The mask that [is_pressed] and [was_pressed] test. *)
Definition pressed_mask (button : Button) : Z :=
  match button with
  | PadLeft => LPAD
  | PadRight => RPAD
  | SCButton b => b
  end.

(** [Mapper.is_pressed] *)
Definition is_pressed (button : Button) (m : t) : Z :=
  Z.land (buttons m) (pressed_mask button).

(** [Mapper.was_pressed] *)
Definition was_pressed (button : Button) (m : t) : Z :=
  Z.land (old_buttons m) (pressed_mask button).

(** [Mapper.get_pressed_button] *)
Definition get_pressed_button (m : t) : option Z :=
  List.find (λ x, truthy (Z.land (Z.land x (buttons m)) (Z.lnot (old_buttons m))))
    SCButtons.

(** The mask that [set_button] and [set_was_pressed] change. *)
Definition touch_mask (button : Button) : Z :=
  match button with
  | PadLeft => LPADTOUCH
  | PadRight => RPADTOUCH
  | SCButton b => b
  end.

(** [Mapper.set_button] *)
Definition set_button (button : Button) (state : bool) : Py t unit :=
  m ← py_get;
  if state then set_buttons (Z.lor (buttons m) (touch_mask button))
  else set_buttons (Z.land (buttons m) (Z.lnot (touch_mask button))).

(** [Mapper.set_was_pressed] *)
Definition set_was_pressed (button : Button) (state : bool) : Py t unit :=
  m ← py_get;
  if state then set_old_buttons (Z.lor (old_buttons m) (touch_mask button))
  else set_old_buttons (Z.land (old_buttons m) (Z.lnot (touch_mask button))).

End WithButtons.

End MapperButtons.


(** ** [scc/mapper.py]: the output side, from the accumulators to the
    virtual devices *)
Module MapperOutput.

(** The virtual devices that can be waiting for a [synEvent]. *)
Inductive Device := Keyboard | Mouse | Gamepad.

#[global] Instance Device_eq_dec : EqDecision Device.
Proof. solve_decision. Defined.

#[global] Instance Device_countable : Countable Device.
Proof.
  refine (inj_countable'
            (λ d, match d with Keyboard => 0 | Mouse => 1 | Gamepad => 2 end)%nat
            (λ n, match n with 0 => Keyboard | 1 => Mouse | _ => Gamepad end)%nat _).
  by intros [].
Defined.

Section WithNumbers.

(** The numbers that actions pass as movements are Python ints or
    floats; only these operations on them are used, and nothing is assumed
    about them beyond what a property states. *)
Variable num : Type.
Variable zero : num.                  (* [0] *)
Variable add : num → num → num.       (* [a + b] *)
Variable negate : num → num.          (* [a * -1] *)
Variable to_int : num → Outcome Z.    (* [int(a)]: raises for an infinity and for a NaN *)
Variable nonzero : num → bool.        (* [a != 0] *)

(** The order in which a [for] loop finds the members of a set, which
    Python leaves open. *)
Variable iteration_order : gset Device → list Device.

(** Calls on the virtual keyboard and mouse. *)
Inductive OutEvent :=
  | pressEvent (keys : list Z)
  | releaseEvent (keys : list Z)
  | moveEvent (x y : Z) (time_elapsed : num)
  | scrollEvent (wx wy : num)
  | moveStickEvent (sx sy : num) (time_elapsed : num)
  | synEvent (dev : Device).

(** Whether a call on a virtual device raises, given the calls made so
    far. *)
Definition DevEnv : Type := list OutEvent → OutEvent → option exn.

(** The attributes of a [Mapper] behind its virtual devices, and the
    trace of the calls on those. *)
Record Out := mkOut {
  keypress_list : list Z;
  keyrelease_list : list Z;
  mouse_movements : list num;   (* mouse x, y, wheel vertical, horizontal, stick mouse x, y *)
  syn_list : gset Device;
  time_elapsed : num;
  events : list OutEvent
}.

(** The part of [Mapper.__init__] that sets these attributes up. *)
Definition init : Out :=
  {| keypress_list := []; keyrelease_list := [];
     mouse_movements := [zero; zero; zero; zero; zero; zero];
     syn_list := ∅; time_elapsed := zero; events := [] |}.

(** A call on a virtual device: recorded, and raising if the environment
    says so. *)
Definition call (env : DevEnv) (ev : OutEvent) : Py Out unit :=
  λ s, (match env (events s) ev with Some e => Raised e | None => Returned tt end,
        mkOut (keypress_list s) (keyrelease_list s) (mouse_movements s)
              (syn_list s) (time_elapsed s) (events s ++ [ev])).

Definition set_keypress_list (l : list Z) : Py Out unit :=
  py_modify (λ s, mkOut l (keyrelease_list s) (mouse_movements s)
                        (syn_list s) (time_elapsed s) (events s)).

Definition set_keyrelease_list (l : list Z) : Py Out unit :=
  py_modify (λ s, mkOut (keypress_list s) l (mouse_movements s)
                        (syn_list s) (time_elapsed s) (events s)).

Definition set_mouse_movements (l : list num) : Py Out unit :=
  py_modify (λ s, mkOut (keypress_list s) (keyrelease_list s) l
                        (syn_list s) (time_elapsed s) (events s)).

Definition set_syn_list (l : gset Device) : Py Out unit :=
  py_modify (λ s, mkOut (keypress_list s) (keyrelease_list s) (mouse_movements s)
                        l (time_elapsed s) (events s)).

(** [self.syn_list.add(dev)] *)
Definition syn_add (dev : Device) : Py Out unit :=
  s ← py_get;
  set_syn_list ({[dev]} ∪ syn_list s).

(** [self.mouse_movements[i] += d] *)
Definition add_movement (i : nat) (d : num) : Py Out unit :=
  s ← py_get;
  match mouse_movements s !! i with
  | Some v => set_mouse_movements (<[i := add v d]> (mouse_movements s))
  | None => py_raise IndexError
  end.

(** [Mapper.mouse_move] *)
Definition mouse_move (dx dy : num) : Py Out unit :=
  add_movement 0 dx;; add_movement 1 dy.

(** [Mapper.mouse_wheel] *)
Definition mouse_wheel (wx wy : num) : Py Out unit :=
  add_movement 2 wx;; add_movement 3 wy.

(** [Mapper.mouse_move_stick] *)
Definition mouse_move_stick (dx dy : num) : Py Out unit :=
  add_movement 4 dx;; add_movement 5 dy.

(** [Mapper.sync] *)
Definition sync (env : DevEnv) : Py Out unit :=
  s ← py_get;
  if bool_decide (syn_list s ≠ ∅) then
    py_for (iteration_order (syn_list s)) (λ dev, call env (synEvent dev));;
    set_syn_list ∅
  else mret tt.

(** [Mapper.generate_events] *)
Definition generate_events (env : DevEnv) : Py Out unit :=
  (* Generate events - keys *)
  s ← py_get;
  (if bool_decide (keypress_list s ≠ []) then
     call env (pressEvent (keypress_list s));;
     set_keypress_list []
   else mret tt);;
  s ← py_get;
  (if bool_decide (keyrelease_list s ≠ []) then
     call env (releaseEvent (keyrelease_list s));;
     set_keyrelease_list []
   else mret tt);;
  (* Generate events - mouse *)
  s ← py_get;
  match mouse_movements s with
  | [mx; my; wx; wy; sx; sy] =>
      (if nonzero mx || nonzero my then
         x ← py_answer (to_int mx);
         y ← py_answer (to_int (negate my));
         call env (moveEvent x y (time_elapsed s));;
         syn_add Mouse
       else mret tt);;
      (if nonzero wx || nonzero wy then
         call env (scrollEvent wx wy);;
         syn_add Mouse
       else mret tt);;
      (if nonzero sx || nonzero sy then
         call env (moveStickEvent sx (negate sy) (time_elapsed s));;
         syn_add Mouse
       else mret tt);;
      set_mouse_movements [zero; zero; zero; zero; zero; zero];;
      sync env
  | _ => py_raise (OtherException "ValueError")
  end.

End WithNumbers.

End MapperOutput.

(** * Properties *)

(** Case analysis on what the code branches on next, leaving alone the
    pairs of outcome and state that the monad passes on. *)
Ltac py_case :=
  match goal with
  | |- context [match ?x with _ => _ end] =>
      lazymatch type of x with
      | prod (Outcome _) _ => fail
      | _ => destruct x eqn:?
      end
  end.

(** Unfolds the monad down to pairs of outcome and state. *)
Ltac py_simpl :=
  repeat (unfold mbind, mret, Py_bind, Py_ret, py_bind, py_ret, py_try, py_get,
            py_modify, py_raise, py_assert, py_answer in *;
          simpl in *).

(** ** Device monitor *)
Module DeviceMonitorSpec.
Import DeviceMonitor.

(** The monitor watches [subsystem] for the ids [vendor] and [product]
    with the arrival callback [cb]. *)
Definition registered (s : t) (subsystem : string) (vendor product : option Z)
    (cb : callable) : Prop :=
  dev_added_cbs s !! ((subsystem, vendor, product) : Key) = Some cb.

(** The removal callback that the monitor keeps for a key. *)
Definition removal_cb (s : t) (subsystem : string) (vendor product : option Z)
    : option callable :=
  default None (dev_removed_cbs s !! ((subsystem, vendor, product) : Key)).

(** A registration that succeeds stores both callbacks under the key. *)
Lemma add_callback_fresh s subsystem vendor product cb rcb :
  dev_added_cbs s !! ((subsystem, vendor, product) : Key) = None →
  add_callback subsystem vendor product cb rcb s =
    (Returned tt,
     mk (<[(subsystem, vendor, product) := cb]> (dev_added_cbs s))
        (<[(subsystem, vendor, product) := rcb]> (dev_removed_cbs s))
        (known_devs s) (trace s ++ [MatchSubsystem subsystem])).
Proof.
  intros Hfresh. unfold add_callback, mbind, Py_bind, py_bind, py_get. simpl.
  rewrite bool_decide_eq_true_2 by exact Hfresh. reflexivity.
Qed.

(** A registration under a key that is taken raises before it touches
    anything. *)
Lemma add_callback_taken s subsystem vendor product cb0 cb rcb :
  dev_added_cbs s !! ((subsystem, vendor, product) : Key) = Some cb0 →
  add_callback subsystem vendor product cb rcb s = (Raised AssertionError, s).
Proof.
  intros Htaken. unfold add_callback, mbind, Py_bind, py_bind, py_get. simpl.
  rewrite bool_decide_eq_false_2; [reflexivity | congruence].
Qed.

(** A registration returns exactly when its key was free. *)
Lemma add_callback_returns s subsystem vendor product cb rcb s1 :
  add_callback subsystem vendor product cb rcb s = (Returned tt, s1) →
  dev_added_cbs s !! ((subsystem, vendor, product) : Key) = None.
Proof.
  intros Hrun.
  destruct (dev_added_cbs s !! ((subsystem, vendor, product) : Key)) as [cb0|] eqn:E;
    [|reflexivity].
  rewrite (add_callback_taken _ _ _ _ cb0) in Hrun by exact E. discriminate.
Qed.

(** What can happen to a monitor between two registrations. *)
Inductive Op :=
  | AddCallback (subsystem : string) (vendor_id product_id : option Z)
      (added_cb : callable) (removed_cb : option callable)
  | NewSyspath (subsystem syspath : string).

Definition step (env : Env) (op : Op) (s : t) : t :=
  match op with
  | AddCallback subsystem vendor product cb rcb =>
      snd (add_callback subsystem vendor product cb rcb s)
  | NewSyspath subsystem syspath => snd (_on_new_syspath env subsystem syspath s)
  end.

Definition run (env : Env) (ops : list Op) (s : t) : t :=
  fold_left (λ s op, step env op s) ops s.

(** [_on_new_syspath] never touches the callback tables. *)
Lemma on_new_syspath_keeps_callbacks env subsystem syspath s :
  dev_added_cbs (snd (_on_new_syspath env subsystem syspath s)) = dev_added_cbs s
  ∧ dev_removed_cbs (snd (_on_new_syspath env subsystem syspath s)) = dev_removed_cbs s.
Proof.
  unfold _on_new_syspath, set_known_devs, emit, del_known_dev.
  repeat (py_case; py_simpl; unfold set_known_devs, emit; py_simpl); done.
Qed.

(** Nothing unregisters a key. *)
Lemma step_keeps_registration env op s (key : Key) cb rcb :
  dev_added_cbs s !! key = Some cb →
  dev_removed_cbs s !! key = Some rcb →
  dev_added_cbs (step env op s) !! key = Some cb
  ∧ dev_removed_cbs (step env op s) !! key = Some rcb.
Proof.
  intros Hadded Hremoved.
  destruct op as [subsystem vendor product cb' rcb'|subsystem syspath]; simpl.
  - destruct (dev_added_cbs s !! ((subsystem, vendor, product) : Key)) as [cb0|] eqn:E.
    + by rewrite (add_callback_taken _ _ _ _ cb0).
    + rewrite add_callback_fresh by exact E. simpl.
      assert ((subsystem, vendor, product) ≠ key) by congruence.
      by rewrite !lookup_insert_ne.
  - destruct (on_new_syspath_keeps_callbacks env subsystem syspath s) as [-> ->].
    done.
Qed.

Lemma run_keeps_registration env ops s (key : Key) cb rcb :
  dev_added_cbs s !! key = Some cb →
  dev_removed_cbs s !! key = Some rcb →
  dev_added_cbs (run env ops s) !! key = Some cb
  ∧ dev_removed_cbs (run env ops s) !! key = Some rcb.
Proof.
  revert s. induction ops as [|op ops IH]; intros s Hadded Hremoved; simpl; [done|].
  destruct (step_keeps_registration env op s key cb rcb Hadded Hremoved).
  by apply IH.
Qed.

(** C4. Once [add_callback] has registered a callback pair under a key
    [(subsystem, vendor_id, product_id)], a later [add_callback] with the
    same key, whatever the monitor did in between, raises [AssertionError]
    and leaves the monitor as it was: the key still maps to the pair of the
    first call, and [dev_added_cbs] and [dev_removed_cbs] are unchanged. *)
Theorem C4_duplicate_registration_fails
    (env : Env) (s s1 : t) (between : list Op)
    (subsystem : string) (vendor product : option Z)
    (cb1 cb2 : callable) (rcb1 rcb2 : option callable) :
  add_callback subsystem vendor product cb1 rcb1 s = (Returned tt, s1) →
  let before := run env between s1 in
  let '(outcome, s2) := add_callback subsystem vendor product cb2 rcb2 before in
  outcome = Raised AssertionError
  ∧ s2 = before
  ∧ dev_added_cbs s2 !! ((subsystem, vendor, product) : Key) = Some cb1
  ∧ dev_removed_cbs s2 !! ((subsystem, vendor, product) : Key) = Some rcb1.
Proof.
  intros Hfirst before.
  pose proof (add_callback_returns _ _ _ _ _ _ _ Hfirst) as Hfree.
  rewrite (add_callback_fresh _ _ _ _ _ _ Hfree) in Hfirst.
  injection Hfirst as <-.
  destruct (run_keeps_registration env between
              (mk (<[(subsystem, vendor, product) := cb1]> (dev_added_cbs s))
                  (<[(subsystem, vendor, product) := rcb1]> (dev_removed_cbs s))
                  (known_devs s) (trace s ++ [MatchSubsystem subsystem]))
              (subsystem, vendor, product) cb1 rcb1)
    as [Hadded Hremoved]; [apply lookup_insert_eq | apply lookup_insert_eq |].
  fold before in Hadded, Hremoved.
  rewrite (add_callback_taken _ _ _ _ cb1) by exact Hadded.
  done.
Qed.

Lemma C4_duplicate_registration_fails_witness :
  let first := snd (add_callback "usb" (Some 0x28de) (Some 0x1142)
                      "handle_new_device" (Some "handle_removed_device") init) in
  let before := run {| get_vendor_product := λ _ _, Raised OSError;
                       call_arrival := λ _ _ _ _ _, Returned None |}
                  [AddCallback "input" None None "evdev_added" None;
                   NewSyspath "usb" "/sys/devices/usb1"] first in
  let '(outcome, s2) :=
    add_callback "usb" (Some 0x28de) (Some 0x1142) "other_added" None before in
  outcome = Raised AssertionError
  ∧ dev_added_cbs s2 !! (("usb", Some 0x28de, Some 0x1142) : Key)
      = Some "handle_new_device".
Proof.
  intros first before.
  pose proof (C4_duplicate_registration_fails
    {| get_vendor_product := λ _ _, Raised OSError;
       call_arrival := λ _ _ _ _ _, Returned None |}
    init first
    [AddCallback "input" None None "evdev_added" None;
     NewSyspath "usb" "/sys/devices/usb1"]
    "usb" (Some 0x28de) (Some 0x1142) "handle_new_device" "other_added"
    (Some "handle_removed_device") None eq_refl) as H.
  cbv zeta in H. subst before.
  destruct (add_callback "usb" (Some 0x28de) (Some 0x1142) "other_added" None _)
    as [outcome s2].
  destruct H as (H1 & _ & H3 & _). split; [exact H1 | exact H3].
Defined.

(** What the monitor's arrival callback gets from
    [USBDriver.handle_new_device] when the USB driver is in state [drv]:
    the value that method returns. *)
Definition usb_arrival (uenv : USB.Env) (drv : USB.USBDriver)
    (syspath : string) (vendor product : option Z) : Outcome (option bool) :=
  match vendor, product with
  | Some v, Some p => fst (USB.handle_new_device uenv syspath v p drv)
  | _, _ => Raised (OtherException "TypeError")
  end.

(** A USB driver that knows the ids 28de:1142, with the daemon set. *)
Definition sample_driver : USB.USBDriver :=
  USB.mkDrv true {[ (0x28de, 0x1142) := "sc_dongle" ]} ∅ [] ∅ [] 0%Q 0 [].

(** The device is on bus 1 at address 7 and opens, but the driver
    callback turns it down: it returns [None]. *)
Definition rejecting_usb : USB.Env :=
  {| USB.get_usb_address := λ _, Returned (1, 7);
     USB.getDeviceIterator := λ _, [ {| USB.dev_id := 0; USB.getBusNumber := 1;
                                        USB.getDeviceAddress := 7 |} ];
     USB.device_open := λ _ _, Returned tt;
     USB.driver_callback := λ _ _ _, Returned None;
     USB.fail_callback := λ _ _, Returned tt;
     USB.handle_of := λ _ _ _, Returned [] |}.

Definition rejecting_env : Env :=
  {| get_vendor_product := λ _ _, Returned (0x28de, 0x1142);
     call_arrival := λ _ _, usb_arrival rejecting_usb sample_driver |}.

(** The monitor after [register_hotplug_device] of the USB driver. *)
Definition sample_monitor : t :=
  snd (add_callback "usb" (Some 0x28de) (Some 0x1142)
         "handle_new_device" (Some "handle_removed_device") init).

(** The entry that [_on_new_syspath] writes into [known_devs] before it
    calls the arrival callback. *)
Definition entry (s : t) (subsystem : string) (vendor product : option Z) : KnownDev :=
  (vendor, product, removal_cb s subsystem vendor product).

(** [_on_new_syspath] for an arrival that the monitor accepts, in closed
    form. *)
Lemma on_new_syspath_accepted env s subsystem syspath vendor product cb :
  read_ids env subsystem syspath = Returned (vendor, product) →
  registered s subsystem vendor product cb →
  let e := entry s subsystem vendor product in
  let during := <[syspath := e]> (known_devs s) in
  let called := ArrivalCalled cb syspath vendor product (Some e) in
  _on_new_syspath env subsystem syspath s =
    (Returned tt,
     match call_arrival env cb during syspath vendor product with
     | Returned None =>
         mk (dev_added_cbs s) (dev_removed_cbs s) (delete syspath (known_devs s))
            (trace s ++ [called])
     | Returned (Some _) =>
         mk (dev_added_cbs s) (dev_removed_cbs s) during (trace s ++ [called])
     | Raised exc =>
         mk (dev_added_cbs s) (dev_removed_cbs s) (delete syspath (known_devs s))
            ((trace s ++ [called]) ++ [LogException exc])
     end).
Proof.
  intros Hids Hreg e during called. subst e during called.
  unfold _on_new_syspath. rewrite Hids. unfold registered in Hreg. rewrite Hreg.
  unfold entry, removal_cb.
  unfold mbind, Py_bind, py_bind, py_try, py_get, set_known_devs, emit,
    py_modify, del_known_dev. simpl.
  rewrite !lookup_insert_eq.
  match goal with
  | |- context [call_arrival ?a ?b ?c ?d ?e ?f] =>
      destruct (call_arrival a b c d e f) as [[b'|]|exc]
  end; simpl.
  - reflexivity.
  - py_simpl. rewrite !lookup_insert_eq. unfold set_known_devs. py_simpl.
    do 2 f_equal. apply (delete_insert_eq (known_devs s)).
  - py_simpl. rewrite !lookup_insert_eq. unfold set_known_devs. py_simpl.
    do 2 f_equal. apply (delete_insert_eq (known_devs s)).
Qed.

(** C3, as amended. For an arrival that the monitor accepts,
    [_on_new_syspath] writes the bus path into [known_devs] and only then
    calls the arrival callback, which finds the path registered. If the
    callback raises or returns [None], the path is taken out of
    [known_devs] again; if it returns [False] or [True], the path stays.
    An exception of the callback is logged and does not leave
    [_on_new_syspath], which returns normally in every case. *)
Theorem C3_arrival_dispatch
    (env : Env) (s : t) (subsystem syspath : string)
    (vendor product : option Z) (cb : callable) :
  read_ids env subsystem syspath = Returned (vendor, product) →
  registered s subsystem vendor product cb →
  let e := entry s subsystem vendor product in
  let during := <[syspath := e]> (known_devs s) in
  let result := call_arrival env cb during syspath vendor product in
  let '(outcome, s') := _on_new_syspath env subsystem syspath s in
  outcome = Returned tt
  ∧ during !! syspath = Some e
  ∧ (∃ tail, trace s' =
       trace s ++ ArrivalCalled cb syspath vendor product (during !! syspath) :: tail
       ∧ tail = match result with Raised exc => [LogException exc] | _ => [] end)
  ∧ (result = Returned None → known_devs s' !! syspath = None)
  ∧ (∀ exc, result = Raised exc → known_devs s' !! syspath = None)
  ∧ (∀ b, result = Returned (Some b) → known_devs s' !! syspath = Some e).
Proof.
  intros Hids Hreg e during result.
  rewrite (on_new_syspath_accepted env s subsystem syspath vendor product cb Hids Hreg).
  fold e. fold during. fold result.
  assert (Hduring : during !! syspath = Some e) by apply lookup_insert_eq.
  rewrite Hduring.
  destruct result as [[b|]|exc]; simpl;
    (split; [reflexivity|]); (split; [reflexivity|]).
  - split; [exists []; split; reflexivity|].
    repeat split; try discriminate. intros b' _. exact Hduring.
  - split; [exists []; split; reflexivity|].
    repeat split; try discriminate. intros _. apply (lookup_delete_eq (known_devs s)).
  - split; [exists [LogException exc]; split; [|reflexivity]|].
    { rewrite <- app_assoc. reflexivity. }
    repeat split; try discriminate. intros exc' _. apply (lookup_delete_eq (known_devs s)).
Qed.

Lemma C3_arrival_dispatch_witness :
  let '(outcome, s') :=
    _on_new_syspath rejecting_env "usb" "/sys/devices/usb1/1-2" sample_monitor in
  outcome = Returned tt
  ∧ known_devs s' !! "/sys/devices/usb1/1-2"
      = Some (Some 0x28de, Some 0x1142, Some "handle_removed_device").
Proof.
  pose proof (C3_arrival_dispatch rejecting_env sample_monitor
    "usb" "/sys/devices/usb1/1-2" (Some 0x28de) (Some 0x1142)
    "handle_new_device" eq_refl eq_refl) as H.
  simpl in H.
  destruct (_on_new_syspath rejecting_env "usb" "/sys/devices/usb1/1-2" sample_monitor)
    as [outcome s'].
  destruct H as (H1 & _ & _ & _ & _ & H6).
  split; [exact H1|]. exact (H6 false eq_refl).
Defined.

(** C3 as first stated does not hold: a callback that returns [False],
    as [USBDriver.handle_new_device] does for a device that its driver
    turned down, leaves the bus path in [known_devs]. *)
Lemma C3_false_return_keeps_path :
  ¬ (∀ (env : Env) (s : t) (subsystem syspath : string)
       (vendor product : option Z) (cb : callable),
       read_ids env subsystem syspath = Returned (vendor, product) →
       registered s subsystem vendor product cb →
       call_arrival env cb (<[syspath := entry s subsystem vendor product]> (known_devs s))
         syspath vendor product = Returned (Some false) →
       known_devs (snd (_on_new_syspath env subsystem syspath s)) !! syspath = None).
Proof.
  intros Hclaim.
  specialize (Hclaim rejecting_env sample_monitor "usb" "/sys/devices/usb1/1-2"
                (Some 0x28de) (Some 0x1142) "handle_new_device"
                eq_refl eq_refl eq_refl).
  vm_compute in Hclaim. discriminate.
Qed.

End DeviceMonitorSpec.

(** ** USB devices: the control-message queue *)
Module USBDeviceSpec.
Import USB.

(** A call that schedules a control message. *)
Inductive Op :=
  | Send (index : Z) (data : bytes)
  | Overwrite (index : Z) (data : bytes).

Definition schedule (op : Op) : Py USBDevice unit :=
  match op with
  | Send index data => send_control index data
  | Overwrite index data => overwrite_control index data
  end.

(** The message that [send_control(index, data)] puts into the queue. *)
Definition message (index : Z) (data : bytes) : ControlMsg :=
  mkMsg 0x21 0x09 0x0300 index
    (data ++ zero_bytes (64 - Z.of_nat (length data))) 0.

Definition message_of (op : Op) : ControlMsg :=
  match op with
  | Send index data | Overwrite index data => message index data
  end.

Definition is_send (op : Op) : bool :=
  match op with Send _ _ => true | Overwrite _ _ => false end.

(** A handle on which every control write succeeds. *)
Definition writes_succeed (henv : HandleEnv) : Prop :=
  ∀ history msg, ∃ r, henv history (ControlWrite msg) = Returned r.

(** A handle on which every call succeeds. *)
Definition ok_handle : HandleEnv := λ _ _, Returned [].

(** The queued messages for one index. *)
Definition queued_for (index : Z) (d : USBDevice) : list ControlMsg :=
  filter (λ x, USB.index x = index) (_cmsg d).

Lemma send_control_eq index data d :
  send_control index data d =
    (Returned tt, mkDev (_claimed d) (message index data :: _cmsg d) (_rmsg d) (calls d)).
Proof. reflexivity. Qed.

(** [overwrite_control] in closed form: the first queued message of the
    same slot, if there is one, leaves the queue, and the new message
    goes to the front. *)
Lemma overwrite_control_eq index data d :
  overwrite_control index data d =
    (Returned tt,
     mkDev (_claimed d)
       (message index data ::
          match List.find (same_slot index data) (_cmsg d) with
          | Some x => list_remove x (_cmsg d)
          | None => _cmsg d
          end)
       (_rmsg d) (calls d)).
Proof.
  unfold overwrite_control. py_simpl.
  destruct (List.find (same_slot index data) (_cmsg d)); reflexivity.
Qed.

(** Removing an element from a queue whose upper part is the image of
    [kept] under [f] removes from [kept] or from the lower part. *)
Lemma list_remove_map_app {A B} `{EqDecision B} (f : A → B) (x : B)
    (kept : list A) (old : list B) :
  ∃ kept' old', list_remove x (map f kept ++ old) = map f kept' ++ old'
                ∧ sublist kept' kept ∧ sublist old' old.
Proof.
  induction kept as [|a kept IH]; simpl.
  - exists [], (list_remove x old). split; [done|]. split; [constructor|].
    clear. induction old as [|y old IH]; simpl; [constructor|].
    destruct (decide (y = x)); [by apply sublist_cons | by apply sublist_skip].
  - destruct (decide (f a = x)).
    + exists kept, old. split; [done|]. split; [by apply sublist_cons | done].
    + destruct IH as (kept' & old' & -> & Hk & Ho).
      exists (a :: kept'), old'. split; [done|]. split; [by apply sublist_skip | done].
Qed.

Lemma sublist_rev {A} (l k : list A) : sublist l k → sublist (rev l) (rev k).
Proof.
  induction 1 as [|x l k _ IH|x l k _ IH]; simpl.
  - constructor.
  - by apply sublist_app.
  - by apply sublist_inserts_r.
Qed.

(** Scheduling never fails and leaves the handle alone; the new message
    goes to the front of [_cmsg], above the old queue, from which at most
    one message was taken. *)
Lemma schedule_front op d :
  ∃ rest, schedule op d =
            (Returned tt, mkDev (_claimed d) (message_of op :: rest) (_rmsg d) (calls d))
          ∧ (rest = _cmsg d
             ∨ is_send op = false ∧ ∃ x, rest = list_remove x (_cmsg d)).
Proof.
  destruct op as [index data|index data]; simpl.
  - exists (_cmsg d). by rewrite send_control_eq; auto.
  - rewrite overwrite_control_eq. eexists; split; [reflexivity|].
    destruct (List.find _ _); eauto.
Qed.

Lemma py_for_snoc {St A} (xs : list A) (x : A) (body : A → Py St unit) s :
  py_for (xs ++ [x]) body s =
    match py_for xs body s with
    | (Returned _, s') => body x s'
    | (Raised e, s') => (Raised e, s')
    end.
Proof.
  revert s. induction xs as [|y xs IH]; intros s; simpl.
  - unfold py_bind, py_ret. destruct (body x s) as [[[]|e] s']; reflexivity.
  - unfold py_bind.
    destruct (body y s) as [[[]|e] s']; [apply IH | reflexivity].
Qed.

(** After any sequence of scheduling calls the queue holds, newest
    first, the messages of some of the calls and below them some of what
    was queued before; the last call is always among them. *)
Lemma schedule_all ops d :
  ∃ kept old,
    py_for ops schedule d =
      (Returned tt,
       mkDev (_claimed d) (map message_of kept ++ old) (_rmsg d) (calls d))
    ∧ sublist kept (rev ops) ∧ sublist old (_cmsg d)
    ∧ head kept = last ops
    ∧ (forallb is_send ops = true → kept = rev ops ∧ old = _cmsg d).
Proof.
  induction ops as [|op ops IH] using rev_ind.
  - exists [], (_cmsg d). simpl. unfold py_ret. destruct d; simpl. done.
  - destruct IH as (kept & old & Hrun & Hkept & Hold & _ & Hsends).
    rewrite py_for_snoc, Hrun.
    destruct (schedule_front op
      (mkDev (_claimed d) (map message_of kept ++ old) (_rmsg d) (calls d)))
      as (rest & -> & Hrest). simpl in Hrest. simpl.
    rewrite rev_app_distr, last_snoc. simpl.
    rewrite forallb_app. simpl. rewrite andb_true_r.
    destruct Hrest as [->|[Hop [x ->]]].
    + exists (op :: kept), old.
      split; [done|]. split; [by apply sublist_skip|]. split; [done|].
      split; [done|].
      intros [Hall _]%andb_prop. destruct (Hsends Hall) as [-> ->]. done.
    + destruct (list_remove_map_app message_of x kept old)
        as (kept' & old' & -> & Hk & Ho).
      exists (op :: kept'), old'.
      split; [done|]. split; [apply sublist_skip; by transitivity kept|].
      split; [by transitivity old|]. split; [done|].
      intros [_ Hop']%andb_prop. congruence.
Qed.

(** The first loop of [flush] on a handle whose writes succeed: it
    writes the whole of [todo], front to back, and leaves [_cmsg] empty. *)
Lemma flush_cmsg_writes henv todo d :
  writes_succeed henv →
  flush_cmsg henv todo d =
    (Returned tt,
     mkDev (_claimed d) (match todo with [] => _cmsg d | _ => [] end) (_rmsg d)
           (calls d ++ map ControlWrite todo)).
Proof.
  intros Hok. revert d. induction todo as [|msg rest IH]; intros d; simpl.
  - rewrite app_nil_r. by destruct d.
  - unfold set_cmsg, call. py_simpl.
    destruct (Hok (calls d) msg) as [r ->]. rewrite IH. simpl.
    rewrite <- app_assoc. simpl. by destruct rest.
Qed.

(** The second loop of [flush] only appends to the trace of the handle
    and never touches [_cmsg]. *)
Lemma flush_rmsg_appends henv todo d :
  ∃ tail, calls (snd (flush_rmsg henv todo d)) = calls d ++ tail
          ∧ _cmsg (snd (flush_rmsg henv todo d)) = _cmsg d
          ∧ (todo = [] → tail = [] ∧ fst (flush_rmsg henv todo d) = Returned tt).
Proof.
  revert d. induction todo as [|r rest IH]; intros d; simpl.
  - exists []. by rewrite app_nil_r.
  - unfold set_rmsg, call. py_simpl.
    destruct (henv (calls d) (ControlWrite (r_msg r))) as [w|e]; simpl;
      [|by eexists; repeat split].
    destruct (henv _ (ControlRead _ _ _ _ _)) as [resp|e]; simpl;
      [|by eexists; rewrite <- app_assoc; repeat split].
    destruct (henv _ (RequestCallback _ _)) as [u|e]; simpl;
      [|by eexists; rewrite <- !app_assoc; repeat split].
    match goal with
    | |- context [flush_rmsg henv rest ?d'] =>
        destruct (IH d') as (tail & Hc & Hq & _); rewrite Hc, Hq
    end. simpl.
    eexists. rewrite <- !app_assoc. by repeat split.
Qed.

(** [flush] on a handle whose writes succeed: first the control
    messages, from the back of [_cmsg] to its front, then whatever the
    requests cause. *)
Lemma flush_writes_queue_backwards henv d :
  writes_succeed henv →
  ∃ tail, calls (snd (flush henv d)) =
            calls d ++ map ControlWrite (rev (_cmsg d)) ++ tail
          ∧ _cmsg (snd (flush henv d)) = []
          ∧ (_rmsg d = [] → tail = [] ∧ fst (flush henv d) = Returned tt).
Proof.
  intros Hok. unfold flush. py_simpl. rewrite (flush_cmsg_writes _ _ _ Hok). simpl.
  match goal with
  | |- context [flush_rmsg henv ?todo ?d'] =>
      destruct (flush_rmsg_appends henv todo d') as (tail & Hc & Hq & Hnil)
  end.
  exists tail. rewrite Hc, Hq. simpl. rewrite <- app_assoc.
  split; [reflexivity|]. split.
  - destruct (rev (_cmsg d)) eqn:E; [|done].
    apply (f_equal (@rev _)) in E. by rewrite rev_involutive in E.
  - intros Hr. apply Hnil. by rewrite Hr.
Qed.

(** C5, as amended. After any sequence of [send_control] and
    [overwrite_control] calls, one [flush] on a handle that accepts the
    writes sends the queued control messages first in, first out: what was
    queued before the calls goes out oldest first, then the messages of the
    calls that were not superseded, in the order of the calls (all of them
    when every call is a [send_control]). The message scheduled last is
    written last, not first, and the queue is empty afterwards. *)
Theorem C5_flush_is_fifo (henv : HandleEnv) (d : USBDevice) (ops : list Op) :
  writes_succeed henv →
  let '(o1, d1) := py_for ops schedule d in
  let '(o2, d2) := flush henv d1 in
  o1 = Returned tt
  ∧ _cmsg d2 = []
  ∧ ∃ kept old tail,
      sublist kept ops ∧ last kept = last ops ∧ sublist old (_cmsg d)
      ∧ (forallb is_send ops = true → kept = ops ∧ old = _cmsg d)
      ∧ calls d2 = calls d ++ map ControlWrite (rev old ++ map message_of kept) ++ tail
      ∧ (_rmsg d = [] → tail = [] ∧ o2 = Returned tt).
Proof.
  intros Hok.
  destruct (schedule_all ops d) as (kept & old & -> & Hkept & Hold & Hhead & Hsends).
  match goal with
  | |- context [flush henv ?d1] =>
      destruct (flush_writes_queue_backwards henv d1 Hok) as (tail & Hc & Hq & Hnil);
      destruct (flush henv d1) as [o2 d2]
  end.
  simpl in *. split; [done|]. split; [done|].
  exists (rev kept), old, tail.
  split; [|split; [|split; [|split; [|split]]]].
  - rewrite <- (rev_involutive ops). by apply sublist_rev.
  - rewrite <- Hhead. clear. destruct kept as [|x kept]; simpl; [done|].
    by rewrite last_snoc.
  - done.
  - intros Hall. destruct (Hsends Hall) as [-> ->]. by rewrite rev_involutive.
  - by rewrite Hc, rev_app_distr, map_rev.
  - exact Hnil.
Qed.

Lemma C5_flush_is_fifo_witness :
  let d2 := snd (flush ok_handle
              (snd (py_for [Send 1 [Byte.x01]; Send 2 [Byte.x02]] schedule new_device))) in
  ∃ kept old tail,
    sublist kept [Send 1 [Byte.x01]; Send 2 [Byte.x02]]
    ∧ last kept = Some (Send 2 [Byte.x02])
    ∧ calls d2 = map ControlWrite (rev old ++ map message_of kept) ++ tail.
Proof.
  pose proof (C5_flush_is_fifo ok_handle new_device
                [Send 1 [Byte.x01]; Send 2 [Byte.x02]]
                (λ _ _, ex_intro _ [] eq_refl)) as H.
  destruct (py_for _ schedule new_device) as [o1 d1].
  simpl. destruct (flush ok_handle d1) as [o2 d2].
  destruct H as (_ & _ & kept & old & tail & H1 & H2 & _ & _ & H4 & _).
  exists kept, old, tail. repeat split; assumption.
Defined.

(** C5 as first stated does not hold: of two messages scheduled one
    after the other, [flush] writes the first one first. *)
Lemma C5_most_recent_is_not_written_first :
  let d1 := snd (py_for [Send 1 [Byte.x01]; Send 2 [Byte.x02]] schedule new_device) in
  writes (calls (snd (flush ok_handle d1)))
    = [message 1 [Byte.x01]; message 2 [Byte.x02]]
  ∧ head (writes (calls (snd (flush ok_handle d1)))) ≠ Some (message 2 [Byte.x02]).
Proof. vm_compute. split; [reflexivity | discriminate]. Qed.

(** With three bytes or more of data, the padded message has the same
    three leading bytes as the data. *)
Lemma same_slot_message index d1 d2 :
  (3 ≤ length d1)%nat → take 3 d1 = take 3 d2 →
  same_slot index d2 (message index d1) = true.
Proof.
  intros Hlen Hpre. unfold same_slot, message. simpl.
  rewrite bool_decide_eq_true_2 by reflexivity.
  rewrite take_app_le by exact Hlen.
  by rewrite bool_decide_eq_true_2.
Qed.

(** [list.remove] of a message that passes a filter commutes with the
    filter. *)
Lemma filter_list_remove (P : ControlMsg → Prop) `{∀ x, Decision (P x)}
    (x : ControlMsg) (l : list ControlMsg) :
  P x → filter P (list_remove x l) = list_remove x (filter P l).
Proof.
  intros Hx. induction l as [|y l IH]; [done|]. simpl.
  destruct (decide (y = x)) as [->|Hne].
  - rewrite filter_cons_True by exact Hx. simpl. by rewrite decide_True.
  - destruct (decide (P y)) as [Hy|Hy].
    + rewrite !filter_cons_True by exact Hy. simpl.
      rewrite decide_False by exact Hne. by rewrite IH.
    + rewrite !filter_cons_False by exact Hy. exact IH.
Qed.

Lemma list_remove_nil (x : ControlMsg) (l : list ControlMsg) :
  x ∈ l → list_remove x l = [] ↔ l = [x].
Proof.
  intros Hin. destruct l as [|y l]; [by apply elem_of_nil in Hin|]. simpl.
  destruct (decide (y = x)) as [->|Hne]; [|split; [done | congruence]].
  split; congruence.
Qed.

Lemma find_in_queue (P : ControlMsg → bool) (q : list ControlMsg) (x : ControlMsg) :
  List.find P q = Some x → x ∈ q ∧ P x = true.
Proof. intros [Hin HP]%List.find_some. by rewrite list_elem_of_In. Qed.

Lemma find_not_in_queue (P : ControlMsg → bool) (q : list ControlMsg) (x : ControlMsg) :
  List.find P q = None → x ∈ q → P x = false.
Proof.
  intros Hnone Hin. apply (List.find_none P q Hnone). by rewrite <- list_elem_of_In.
Qed.

(** C6, as amended. [overwrite_control(index, d1)] followed by
    [overwrite_control(index, d2)], where [d1] has at least three bytes and
    [d2] starts with the same three: the message of [d1] is removed before
    that of [d2] is pushed, so the queue ends up as the first call found it,
    without the first message of the same index and leading bytes, if there
    was one, and with the message of [d2] (padded to 64 bytes) in front.
    That message is then the only one queued for [index] exactly when the
    queue held no message for [index] before, or a single one, with these
    leading bytes. *)
Theorem C6_overwrite_supersedes
    (d : USBDevice) (index : Z) (d1 d2 : bytes) :
  (3 ≤ length d1)%nat →
  take 3 d1 = take 3 d2 →
  let '(o1, dev1) := overwrite_control index d1 d in
  let '(o2, dev2) := overwrite_control index d2 dev1 in
  o1 = Returned tt ∧ o2 = Returned tt
  ∧ _cmsg dev2
    = message index d2 ::
        match List.find (same_slot index d1) (_cmsg d) with
        | Some x => list_remove x (_cmsg d)
        | None => _cmsg d
        end
  ∧ (queued_for index dev2 = [message index d2]
     ↔ queued_for index d = []
       ∨ ∃ x, queued_for index d = [x] ∧ same_slot index d1 x = true).
Proof.
  intros Hlen Hpre.
  rewrite !overwrite_control_eq. cbn [_cmsg List.find].
  rewrite (same_slot_message _ _ _ Hlen Hpre). cbn [list_remove].
  rewrite decide_True by reflexivity.
  split; [done|]. split; [done|]. split; [done|].
  unfold queued_for. cbn [_cmsg]. rewrite filter_cons_True by reflexivity.
  set (P := λ x : ControlMsg, USB.index x = index).
  destruct (List.find (same_slot index d1) (_cmsg d)) as [x|] eqn:Hfind.
  - apply find_in_queue in Hfind as [Hin Hslot].
    assert (P x) as Hx.
    { unfold same_slot in Hslot. apply andb_prop in Hslot as [Hi _].
      by apply bool_decide_eq_true in Hi. }
    assert (x ∈ filter P (_cmsg d)) as Hin' by (by apply list_elem_of_filter).
    rewrite (filter_list_remove P x (_cmsg d) Hx).
    split.
    + intros [= Hnil]. apply (list_remove_nil x _ Hin') in Hnil.
      right. by exists x.
    + intros [Hnil | (y & Hy & _)].
      * rewrite Hnil in Hin'. by apply elem_of_nil in Hin'.
      * f_equal. apply (list_remove_nil x _ Hin'). rewrite Hy in Hin' |- *.
        apply list_elem_of_singleton in Hin'. by subst.
  - split.
    + intros [= Hnil]. by left.
    + intros [Hnil | (y & Hy & Hslot)]; [by rewrite Hnil|].
      assert (y ∈ _cmsg d) as Hin.
      { apply (list_elem_of_filter P (_cmsg d) y). rewrite Hy. by left. }
      by rewrite (find_not_in_queue _ _ _ Hfind Hin) in Hslot.
Qed.

Lemma C6_overwrite_supersedes_witness :
  let earlier := snd (overwrite_control 3 [Byte.x01; Byte.x02; Byte.x03; Byte.x09]
                        (snd (send_control 2 [Byte.x09] new_device))) in
  queued_for 3
    (snd (overwrite_control 3 [Byte.x01; Byte.x02; Byte.x03; Byte.x05]
       (snd (overwrite_control 3 [Byte.x01; Byte.x02; Byte.x03; Byte.x04] earlier))))
  = [message 3 [Byte.x01; Byte.x02; Byte.x03; Byte.x05]].
Proof.
  intros earlier.
  pose proof (C6_overwrite_supersedes earlier 3
    [Byte.x01; Byte.x02; Byte.x03; Byte.x04]
    [Byte.x01; Byte.x02; Byte.x03; Byte.x05]
    ltac:(simpl; lia) eq_refl) as H.
  destruct (overwrite_control 3 [Byte.x01; Byte.x02; Byte.x03; Byte.x04] _)
    as [o1 dev1].
  cbn [snd]. destruct (overwrite_control 3 [Byte.x01; Byte.x02; Byte.x03; Byte.x05] dev1)
    as [o2 dev2].
  destruct H as (_ & _ & _ & H). apply (proj2 H).
  right. eexists. split; reflexivity.
Defined.

(** C6 as first stated does not hold on every device and for all data.
    Two messages for index 3 stay queued (a) when two messages with the
    same leading bytes were already queued for that index, and (b) when
    the data is shorter than three bytes, because the padded bytes of the
    queued message are compared with the unpadded new data. *)
Lemma C6_two_messages_stay_queued :
  let queued := snd (py_for [Send 3 [Byte.x01; Byte.x02; Byte.x03; Byte.x04];
                             Send 3 [Byte.x01; Byte.x02; Byte.x03; Byte.x05]]
                       schedule new_device) in
  let a := snd (overwrite_control 3 [Byte.x01; Byte.x02; Byte.x03; Byte.x07]
             (snd (overwrite_control 3 [Byte.x01; Byte.x02; Byte.x03; Byte.x06]
                queued))) in
  let b := snd (overwrite_control 3 [Byte.x01]
             (snd (overwrite_control 3 [Byte.x01] new_device))) in
  queued_for 3 a = [message 3 [Byte.x01; Byte.x02; Byte.x03; Byte.x07];
                    message 3 [Byte.x01; Byte.x02; Byte.x03; Byte.x04]]
  ∧ queued_for 3 b = [message 3 [Byte.x01]; message 3 [Byte.x01]].
Proof. vm_compute. split; reflexivity. Qed.

(** C10. The wrapper that [set_input_interrupt] installs does nothing
    at all for a completion whose status is not [TRANSFER_COMPLETED] or
    whose length is not the expected size: no callback, no resubmission.
    For a completed transfer of the expected length it calls the user
    callback and then resubmits the transfer, logging whatever either of
    them raises; it never raises itself. *)
Theorem C10_interrupt_wrapper
    (ienv : InterruptEnv) (endpoint size : Z) (transfer : USBTransfer)
    (tr : list InterruptEvent) :
  callback_wrapper ienv endpoint size transfer tr =
    (Returned tt,
     tr ++
     if bool_decide (getStatus transfer = TRANSFER_COMPLETED
                     ∧ getActualLength transfer = size)
     then [UserCallback endpoint (getBuffer transfer)]
          ++ match user_callback ienv endpoint (getBuffer transfer) with
             | Raised e => [LogCallbackError e]
             | Returned _ => []
             end
          ++ [Submit]
          ++ match submit ienv with
             | Raised e => [LogSubmitFailed e]
             | Returned _ => []
             end
     else []).
Proof.
  unfold callback_wrapper.
  destruct (decide (getStatus transfer = TRANSFER_COMPLETED)) as [Hs|Hs];
    destruct (decide (getActualLength transfer = size)) as [Hl|Hl].
  - rewrite !bool_decide_eq_false_2 by (intros H; by apply H). simpl.
    rewrite bool_decide_eq_true_2 by done.
    unfold emit_i. py_simpl.
    destruct (user_callback ienv endpoint (getBuffer transfer)) as [u|e];
      destruct (submit ienv) as [v|e']; py_simpl;
      rewrite <- ?app_assoc; reflexivity.
  - rewrite (bool_decide_eq_true_2 (getActualLength transfer ≠ size)) by done.
    rewrite orb_true_r, bool_decide_eq_false_2 by (intros [_ ?]; done).
    by rewrite app_nil_r.
  - rewrite (bool_decide_eq_true_2 (getStatus transfer ≠ TRANSFER_COMPLETED)) by done.
    simpl. rewrite bool_decide_eq_false_2 by (intros [? _]; done).
    by rewrite app_nil_r.
  - rewrite (bool_decide_eq_true_2 (getStatus transfer ≠ TRANSFER_COMPLETED)) by done.
    simpl. rewrite bool_decide_eq_false_2 by (intros [? _]; done).
    by rewrite app_nil_r.
Qed.

End USBDeviceSpec.


(** ** USB driver: the retry queue *)
Module USBDriverSpec.
Import USB.

(** The calls of [handle_new_device] recorded in a trace. *)
Definition attempts (tr : list Event) : list RetryEntry :=
  omap (λ ev, match ev with
              | HandleNewDevice syspath vendor product => Some (Entry syspath (vendor, product))
              | _ => None
              end) tr.

(** What a method added to the trace of the driver. *)
Definition new_events (before after : USBDriver) : list Event :=
  drop (length (trace before)) (trace after).

(** The flush loop at the head of [mainloop] gets through without an
    exception other than the [USBErrorPipe] that it handles. *)
Definition flush_ok (env : Env) (d : USBDriver) : bool :=
  match fst (flush_devices env (_devices d)) with
  | Returned _ => true
  | Raised _ => false
  end.



(** What happens to a driver between two looks at it. *)
Inductive Step :=
  (** the device monitor reports a device: [handle_new_device] *)
  | Arrival (syspath : string) (vendor product : Z)
  (** one pass of [mainloop], with its two clock readings *)
  | Pass (t_check t_set : Q)
  (** [force_restart] on the device held under [k] *)
  | Restart (k : nat) (vendor product : Z).

Definition step (env : Env) (st : Step) (d : USBDriver) : USBDriver :=
  match st with
  | Arrival syspath vendor product => snd (handle_new_device env syspath vendor product d)
  | Pass t_check t_set => snd (mainloop env t_check t_set d)
  | Restart k vendor product => snd (USBHotplug.force_restart env k vendor product d)
  end.

Definition run (env : Env) (steps : list Step) (d : USBDriver) : USBDriver :=
  fold_left (λ d st, step env st d) steps d.


Lemma attempts_app tr1 tr2 : attempts (tr1 ++ tr2) = attempts tr1 ++ attempts tr2.
Proof. unfold attempts. apply omap_app. Qed.

Lemma new_events_app d tr d' :
  trace d' = trace d ++ tr → new_events d d' = tr.
Proof. intros H. unfold new_events. rewrite H. by rewrite drop_app_length. Qed.

(** One call of [handle_new_device], whatever comes of it: it is recorded
    once, it leaves the timer alone, and it queues at most its own entry. *)
Lemma handle_new_device_effects env syspath vendor product d :
  let d' := snd (handle_new_device env syspath vendor product d) in
  _retry_devices_timer d' = _retry_devices_timer d
  ∧ (∃ tail, trace d' = trace d ++ HandleNewDevice syspath vendor product :: tail
             ∧ attempts tail = [])
  ∧ (_retry_devices d' = _retry_devices d
     ∨ _retry_devices d' = _retry_devices d ++ [Entry syspath (vendor, product)]).
Proof.
  unfold handle_new_device, need_daemon, emit, set_retry_devices, set_devices,
    set_syspaths.
  py_simpl.
  repeat (py_case; py_simpl);
    (split; [reflexivity|]);
    (split; [eexists; rewrite <- ?app_assoc; simpl; split; reflexivity|]);
    auto.
Qed.

(** The body of the loop that replays a batch. *)
Definition replay_entry (env : Env) (entry : RetryEntry) : Py USBDriver unit :=
  match entry with
  | Entry syspath (vendor, product) =>
      handle_new_device env syspath vendor product;;
      mret tt
  | Bare _ => py_raise (OtherException "TypeError")
  end.

(** The loop that replays a batch: it calls [handle_new_device] for the
    entries of [lst] in their order, for all of them unless a call raises
    or an element cannot be unpacked, and never moves the timer. *)
Lemma batch_effects env lst d :
  let '(r, d') := py_for lst (replay_entry env) d in
  _retry_devices_timer d' = _retry_devices_timer d
  ∧ ∃ tail, trace d' = trace d ++ tail
            ∧ attempts tail `prefix_of` lst
            ∧ (r = Returned tt → attempts tail = lst).
Proof.
  revert d. induction lst as [|[syspath [vendor product]|tp] lst IH]; intros d; simpl.
  - split; [done|]. exists []. rewrite app_nil_r. by repeat split.
  - pose proof (handle_new_device_effects env syspath vendor product d) as Heff.
    unfold py_bind at 1. py_simpl.
    destruct (handle_new_device env syspath vendor product d) as [[o|e] d1];
      simpl in Heff; destruct Heff as (Ht & (tail1 & Htr & Hat) & _).
    + specialize (IH d1). py_simpl.
      destruct (py_for lst _ d1) as [r d'].
      destruct IH as (Ht' & tail & Htr' & Hpre & Hall).
      split; [congruence|].
      exists ((HandleNewDevice syspath vendor product :: tail1) ++ tail).
      rewrite Htr', Htr, <- app_assoc. split; [done|].
      rewrite attempts_app. change (attempts (HandleNewDevice syspath vendor product :: tail1))
        with (Entry syspath (vendor, product) :: attempts tail1).
      rewrite Hat. simpl. split.
      * by apply prefix_cons.
      * intros Hr. by rewrite (Hall Hr).
    + split; [done|]. exists (HandleNewDevice syspath vendor product :: tail1).
      split; [done|].
      change (attempts (HandleNewDevice syspath vendor product :: tail1))
        with (Entry syspath (vendor, product) :: attempts tail1).
      rewrite Hat. split; [|done].
      apply prefix_cons, prefix_nil.
  - py_simpl. split; [done|]. exists []. rewrite app_nil_r.
    split; [done|]. split; [apply prefix_nil | done].
Qed.








(** The driver after [set_daemon] and [register_hotplug_device] for
    28de:1142 without an [on_failure] callback. *)
Definition fresh_driver : USBDriver :=
  mkDrv true {[ (0x28de, 0x1142) := "sc_dongle" ]} ∅ [] ∅ [] 0%Q 0 [].



End USBDriverSpec.


(** ** Input mapper *)
Module MapperSpec.
Import Mapper.

(** No call to the outside raises. *)
Definition quiet (env : Env) : Prop := ∀ history c, env history c = None.

(** An environment in which nothing raises. *)
Definition quiet_env : Env := λ _ _, None.

(** A sample assignment of the constants: one bit per button and per
    controller flag, as on a Steam Controller. *)
Definition sample_constants : Constants :=
  {| LPAD := 2 ^ 25;
     LPADTOUCH := 2 ^ 27;
     RPADTOUCH := 2 ^ 28;
     CPADTOUCH := 2 ^ 2;
     STICKPRESS := 2 ^ 30;
     STICKTILT := 2 ^ 31;
     SEPARATE_STICK := 2 ^ 1;
     IS_DECK := 2 ^ 6;
     HAS_RSTICK := 2 ^ 0;
     HAS_CPAD := 2 ^ 3;
     HapticPos_value := λ p, match p with
                             | HapticPos.RIGHT => 0
                             | HapticPos.LEFT => 1
                             | HapticPos.BOTH => 2
                             end |}.

(** The mapper after further calls to the outside. *)
Definition record (m : t) (cs : list Call) : t :=
  mk (profile m) (controller m) (feedbacks m) (buttons m) (old_buttons m)
     (lpad_touched m) (state m) (old_state m) (force_event m) (_testing m)
     (trace m ++ cs).

(** The calls that a method added to the trace. *)
Definition new_calls (before after : t) : list Call :=
  drop (length (trace before)) (trace after).

Lemma record_nil m : record m [] = m.
Proof. destruct m. unfold record. simpl. by rewrite app_nil_r. Qed.

Lemma record_record m cs1 cs2 : record (record m cs1) cs2 = record m (cs1 ++ cs2).
Proof. unfold record. simpl. by rewrite app_assoc. Qed.

Lemma new_calls_record m m' cs : trace m' = trace m ++ cs → new_calls m m' = cs.
Proof. intros H. unfold new_calls. rewrite H. by rewrite drop_app_length. Qed.

Lemma buttons_record m cs : buttons (record m cs) = buttons m.
Proof. reflexivity. Qed.

Lemma old_buttons_record m cs : old_buttons (record m cs) = old_buttons m.
Proof. reflexivity. Qed.

Lemma profile_record m cs : profile (record m cs) = profile m.
Proof. reflexivity. Qed.

Lemma lpad_touched_record m cs : lpad_touched (record m cs) = lpad_touched m.
Proof. reflexivity. Qed.

Lemma call_quiet env c m : quiet env → call env c m = (Returned tt, record m [c]).
Proof. intros Hq. unfold call. by rewrite Hq. Qed.

Section Feedback.
Context `{K : Constants}.

(** C9, as amended. A haptic request for both sides fills the two feedback
    slots, one with the request repositioned to [LEFT] and one with it
    repositioned to [RIGHT], both with the amplitude of the request. On a
    mapper that has a controller, and provided [controller.feedback] does
    not raise, the next [generate_feedback] passes each of the two to
    [controller.feedback] and sets both slots back to [None]. *)
Theorem C9_feedback_both_sides
    (env : Env) (m : t) (h : HapticData) (c : Controller) :
  get_position h = HapticPos.BOTH →
  length (feedbacks m) = 2%nat →
  controller m = Some c →
  let left := with_position h HapticPos.LEFT in
  let right := with_position h HapticPos.RIGHT in
  let '(o1, m1) := send_feedback h m in
  let '(o2, m2) := generate_feedback env m1 in
  o1 = Returned tt
  ∧ feedbacks m1 = [Some left; Some right]
  ∧ position left = HapticPos.LEFT ∧ position right = HapticPos.RIGHT
  ∧ amplitude left = amplitude h ∧ amplitude right = amplitude h
  ∧ ((∀ history x, env history (controller_feedback x) = None) →
     o2 = Returned tt
     ∧ new_calls m m2 = [controller_feedback left; controller_feedback right]
     ∧ feedbacks m2 = [None; None]).
Proof.
  intros Hpos Hlen Hc left right.
  destruct m as [pr co fb b ob lt s os fe tst tr]. simpl in *. subst co.
  destruct fb as [|f0 [|f1 [|? ?]]]; try discriminate.
  unfold send_feedback. rewrite Hpos. rewrite bool_decide_eq_true_2 by done.
  unfold set_feedbacks, py_setitem. py_simpl.
  destruct (generate_feedback env _) as [o2 m2] eqn:Hgen.
  do 6 (split; [reflexivity|]). intros Hfb. revert Hgen.
  unfold generate_feedback, set_feedbacks. py_simpl.
  rewrite Hfb. py_simpl. rewrite Hfb. py_simpl.
  intros [= <- <-]. repeat split; try reflexivity.
  unfold new_calls. simpl. rewrite <- app_assoc. by rewrite drop_app_length.
Qed.

End Feedback.

(** A controller whose [feedback] method fails. *)
Definition failing_feedback : Env :=
  λ _ c, match c with controller_feedback _ => Some OSError | _ => None end.

Lemma C9_feedback_both_sides_witness :
  let h := mkHaptic HapticPos.BOTH (900 # 1) (6000 # 1) 5 in
  let m := snd (set_controller (Some {| flags := 0; get_gyro_enabled := false |})
                  (init {| p_buttons := []; p_triggers := [] |})) in
  let m1 := snd (@send_feedback sample_constants h m) in
  let m2 := snd (generate_feedback quiet_env m1) in
  feedbacks m1 = [Some (with_position h HapticPos.LEFT);
                  Some (with_position h HapticPos.RIGHT)]
  ∧ feedbacks m2 = [None; None].
Proof.
  intros h m m1 m2.
  pose proof (@C9_feedback_both_sides sample_constants quiet_env m h
                {| flags := 0; get_gyro_enabled := false |}
                eq_refl eq_refl eq_refl) as H.
  subst m2 m1.
  destruct (@send_feedback sample_constants h m) as [o1 m1']. cbn [snd].
  destruct (generate_feedback quiet_env m1') as [o2 m2'].
  destruct H as (_ & H2 & _ & _ & _ & _ & H7).
  destruct (H7 (λ _ _, eq_refl)) as (_ & _ & H9).
  split; [exact H2 | exact H9].
Defined.

(** C9 as first stated does not hold: when [controller.feedback] raises for
    the left request, [generate_feedback] raises with it; the left slot is
    not set back to [None], and the right request is neither passed on nor
    cleared. *)
Lemma C9_failed_feedback_keeps_both_slots :
  let h := mkHaptic HapticPos.BOTH (900 # 1) (6000 # 1) 5 in
  let left := with_position h HapticPos.LEFT in
  let right := with_position h HapticPos.RIGHT in
  let m := snd (set_controller (Some {| flags := 0; get_gyro_enabled := false |})
                  (init {| p_buttons := []; p_triggers := [] |})) in
  let m1 := snd (@send_feedback sample_constants h m) in
  let '(o2, m2) := generate_feedback failing_feedback m1 in
  feedbacks m1 = [Some left; Some right]
  ∧ o2 = Raised OSError
  ∧ new_calls m m2 = [controller_feedback left]
  ∧ feedbacks m2 = [Some left; Some right].
Proof. vm_compute. repeat split; reflexivity. Qed.

(** *** One cycle of [input] when nothing raises *)

Section Cycle.
Context `{K : Constants}.

(** [self.buttons] after the hardware-quirk rewrite at the head of
    [input]: a pad press without pad touch or stick tilt counts as a stick
    press. *)
Definition normalize (b : Z) : Z :=
  if truthy (Z.land b LPAD) && negb (truthy (Z.land b (Z.lor LPADTOUCH STICKTILT)))
  then Z.lor (Z.land b (Z.lnot LPAD)) STICKPRESS
  else b.

(** The mapper with another value of [lpad_touched]. *)
Definition with_lpad_touched (m : t) (b : bool) : t :=
  mk (profile m) (controller m) (feedbacks m) (buttons m) (old_buttons m)
     b (state m) (old_state m) (force_event m) (_testing m) (trace m).

Lemma record_with_lpad_touched m b cs :
  record (with_lpad_touched m b) cs = with_lpad_touched (record m cs) b.
Proof. reflexivity. Qed.

(** What each part of the [try] block calls when nothing raises. *)

Definition button_events (keys : list Z) (btn_add btn_rem : Z) : list Call :=
  omap (λ x, if truthy (Z.land x btn_add) then Some (button_press x)
             else if truthy (Z.land x btn_rem) then Some (button_release x)
             else None) keys.

Definition stick_events (self_flags b : Z) (old_st st : ControllerState)
    (fe : list ForceEvent) : list Call :=
  (if truthy (Z.land self_flags SEPARATE_STICK) then
     if forced fe FE_STICK || changed (stick_x old_st) (stick_x st)
        || changed (stick_y old_st) (stick_y st)
     then [stick_whole (stick_x st) (stick_y st) STICK] else []
   else if negb (truthy (Z.land b LPADTOUCH)) then
     if forced fe FE_STICK || changed (lpad_x old_st) (lpad_x st)
        || changed (lpad_y old_st) (lpad_y st)
     then [stick_whole (lpad_x st) (lpad_y st) STICK] else []
   else [])
  ++ (if truthy (Z.land self_flags IS_DECK) then
        if forced fe FE_STICK || changed (rstick_x old_st) (rstick_x st)
           || changed (rstick_y old_st) (rstick_y st)
        then [rstick_whole (rstick_x st) (rstick_y st) RSTICK] else []
      else []).

Definition gyro_events (ctrl : Controller) (st : ControllerState) : list Call :=
  if get_gyro_enabled ctrl
  then [gyro (gpitch st) (gyaw st) (groll st) (q1 st) (q2 st) (q3 st) (q4 st)]
  else [].

Definition trigger_events (p : Profile) (old_st st : ControllerState)
    (fe : list ForceEvent) : list Call :=
  (if (forced fe FE_TRIGGER || changed (ltrig st) (ltrig old_st))
      && bool_decide (LEFT ∈ p_triggers p)
   then [trigger LEFT (ltrig st) (ltrig old_st)] else [])
  ++ (if (forced fe FE_TRIGGER || changed (rtrig st) (rtrig old_st))
         && bool_decide (RIGHT ∈ p_triggers p)
      then [trigger RIGHT (rtrig st) (rtrig old_st)] else []).

Definition rpad_events (ctrl : Controller) (b : Z) (old_st st : ControllerState)
    (fe : list ForceEvent) (btn_rem : Z) : list Call :=
  if (if truthy (Z.land (flags ctrl) IS_DECK) || truthy (Z.land (flags ctrl) HAS_RSTICK)
      then forced fe FE_PAD || changed (rpad_x old_st) (rpad_x st)
           || changed (rpad_y old_st) (rpad_y st)
      else forced fe FE_PAD || truthy (Z.land b RPADTOUCH)
           || truthy (Z.land RPADTOUCH btn_rem))
  then [pad_whole RIGHT (rpad_x st) (rpad_y st) RIGHT] else [].

Definition dpad_events (ctrl : Controller) (old_st st : ControllerState)
    (fe : list ForceEvent) : list Call :=
  if truthy (Z.land (flags ctrl) IS_DECK)
     && (forced fe FE_PAD || changed (dpad_x old_st) (dpad_x st)
         || changed (dpad_y old_st) (dpad_y st))
  then [pad_whole DPAD (dpad_x st) (dpad_y st) DPAD] else [].

Definition lpad_events (self_flags b : Z) (touched : bool)
    (old_st st : ControllerState) (fe : list ForceEvent) : list Call :=
  if truthy (Z.land self_flags SEPARATE_STICK) then
    if forced fe FE_PAD || changed (lpad_x old_st) (lpad_x st)
       || changed (lpad_y old_st) (lpad_y st)
    then [pad_whole LEFT (lpad_x st) (lpad_y st) LEFT] else []
  else if truthy (Z.land b LPADTOUCH) then
    pad_whole LEFT (lpad_x st) (lpad_y st) LEFT ::
    (if truthy (Z.land (st_buttons old_st) STICKTILT)
        && negb (truthy (Z.land b STICKTILT))
     then [stick_whole 0 0 STICK] else [])
  else if negb (truthy (Z.land b STICKTILT)) && touched
  then [pad_whole LEFT 0 0 LEFT]
  else [].

(** [lpad_touched] after the "LPAD" part. *)
Definition lpad_touched_after (self_flags b : Z) (touched : bool) : bool :=
  if truthy (Z.land self_flags SEPARATE_STICK) then touched
  else if truthy (Z.land b LPADTOUCH) then true
  else if negb (truthy (Z.land b STICKTILT)) then false
  else touched.

Definition cpad_events (ctrl : Controller) (b old_b : Z)
    (old_st st : ControllerState) (fe : list ForceEvent) : list Call :=
  if truthy (Z.land (flags ctrl) HAS_CPAD)
     && (forced fe FE_PAD
         || changed (cpad_x old_st) (cpad_x st)
         || changed (cpad_y old_st) (cpad_y st)
         || (truthy (Z.land old_b CPADTOUCH) && negb (truthy (Z.land b CPADTOUCH))))
  then
    if truthy (Z.land b CPADTOUCH) then [pad_whole CPAD (cpad_x st) (cpad_y st) CPAD]
    else if truthy (Z.land old_b CPADTOUCH) then [pad_whole CPAD 0 0 CPAD]
    else []
  else [].

(** Everything that the [try] block calls after the buttons, on a mapper
    whose controller has the flags [self_flags]. *)
Definition axis_events (self_flags : Z) (ctrl : Controller) (m : t)
    (old_st st : ControllerState) (fe : list ForceEvent) (btn_rem : Z) : list Call :=
  stick_events self_flags (buttons m) old_st st fe
  ++ gyro_events ctrl st
  ++ trigger_events (profile m) old_st st fe
  ++ rpad_events ctrl (buttons m) old_st st fe btn_rem
  ++ dpad_events ctrl old_st st fe
  ++ lpad_events self_flags (buttons m) (lpad_touched m) old_st st fe
  ++ cpad_events ctrl (buttons m) (old_buttons m) old_st st fe.

Variable env : Env.
Hypothesis Hq : quiet env.

(** Finishes a goal that compares two mappers field by field. *)
Ltac same_mapper :=
  unfold record, with_lpad_touched; simpl;
  rewrite <- ?app_assoc, ?app_nil_r; reflexivity.

Ltac quiet_calls := repeat (progress (unfold call; rewrite ?Hq; py_simpl)).

Lemma button_loop_quiet keys btn_add btn_rem m :
  py_for keys (λ x,
    if truthy (Z.land x btn_add) then call env (button_press x)
    else if truthy (Z.land x btn_rem) then call env (button_release x)
    else mret tt) m
  = (Returned tt, record m (button_events keys btn_add btn_rem)).
Proof.
  revert m. induction keys as [|x keys IH]; intros m; simpl.
  - by rewrite record_nil.
  - unfold py_bind at 1. unfold button_events. simpl.
    destruct (truthy (Z.land x btn_add)); [|destruct (truthy (Z.land x btn_rem))].
    + rewrite call_quiet by exact Hq. rewrite IH, record_record. reflexivity.
    + rewrite call_quiet by exact Hq. rewrite IH, record_record. reflexivity.
    + py_simpl. by rewrite IH.
Qed.

Lemma button_events_none keys : button_events keys 0 0 = [].
Proof.
  induction keys as [|x keys IH]; [done|].
  unfold button_events in *. simpl. by rewrite !Z.land_0_r.
Qed.

Lemma check_buttons_quiet btn_add btn_rem m :
  check_buttons env btn_add btn_rem m
  = (Returned tt, record m (button_events (p_buttons (profile m)) btn_add btn_rem)).
Proof.
  unfold check_buttons. py_simpl.
  destruct (truthy btn_add) eqn:Ha; simpl; [apply button_loop_quiet|].
  destruct (truthy btn_rem) eqn:Hr; simpl; [apply button_loop_quiet|].
  unfold truthy in Ha, Hr.
  apply negb_false_iff, Z.eqb_eq in Ha, Hr. subst.
  by rewrite button_events_none, record_nil.
Qed.

Lemma check_sticks_quiet c old_st st fe m :
  controller m = Some c →
  check_sticks env old_st st fe m
  = (Returned tt, record m (stick_events (flags c) (buttons m) old_st st fe)).
Proof.
  intros Hc. destruct m. simpl in *. subst.
  unfold check_sticks, self_controller_flags, stick_events. py_simpl.
  repeat (py_case; quiet_calls); same_mapper.
Qed.

Lemma check_sticks_no_controller old_st st fe m :
  controller m = None →
  check_sticks env old_st st fe m = (Raised AttributeError, m).
Proof.
  intros Hc. unfold check_sticks, self_controller_flags. py_simpl. by rewrite Hc.
Qed.

Lemma check_gyro_quiet ctrl st m :
  check_gyro env ctrl st m = (Returned tt, record m (gyro_events ctrl st)).
Proof.
  destruct m. unfold check_gyro, gyro_events.
  repeat (py_case; quiet_calls); same_mapper.
Qed.

Lemma check_triggers_quiet old_st st fe m :
  check_triggers env old_st st fe m
  = (Returned tt, record m (trigger_events (profile m) old_st st fe)).
Proof.
  destruct m. unfold check_triggers, trigger_events. py_simpl.
  repeat (py_case; quiet_calls); same_mapper.
Qed.

Lemma check_rpad_quiet ctrl old_st st fe btn_rem m :
  check_rpad env ctrl old_st st fe btn_rem m
  = (Returned tt, record m (rpad_events ctrl (buttons m) old_st st fe btn_rem)).
Proof.
  destruct m. unfold check_rpad, rpad_events. py_simpl.
  repeat (py_case; quiet_calls); same_mapper.
Qed.

Lemma check_dpad_quiet ctrl old_st st fe m :
  check_dpad env ctrl old_st st fe m
  = (Returned tt, record m (dpad_events ctrl old_st st fe)).
Proof.
  destruct m. unfold check_dpad, dpad_events. py_simpl.
  repeat (py_case; quiet_calls); same_mapper.
Qed.

Lemma check_lpad_quiet c old_st st fe m :
  controller m = Some c →
  check_lpad env old_st st fe m
  = (Returned tt,
     with_lpad_touched
       (record m (lpad_events (flags c) (buttons m) (lpad_touched m) old_st st fe))
       (lpad_touched_after (flags c) (buttons m) (lpad_touched m))).
Proof.
  intros Hc. destruct m as [? ? ? ? ? touched ? ? ? ? ?]. simpl in *. subst.
  unfold check_lpad, self_controller_flags, lpad_events, lpad_touched_after,
    set_lpad_touched.
  destruct touched; py_simpl;
    repeat (py_case; quiet_calls); same_mapper.
Qed.

Lemma check_cpad_quiet ctrl old_st st fe m :
  check_cpad env ctrl old_st st fe m
  = (Returned tt,
     record m (cpad_events ctrl (buttons m) (old_buttons m) old_st st fe)).
Proof.
  destruct m. unfold check_cpad, cpad_events. py_simpl.
  repeat (py_case; quiet_calls); same_mapper.
Qed.

(** The [try] block as a whole, on a mapper with a controller. *)
Lemma dispatch_quiet c ctrl old_st st fe btn_add btn_rem m :
  controller m = Some c →
  dispatch env ctrl old_st st fe btn_add btn_rem m
  = (Returned tt,
     with_lpad_touched
       (record m (button_events (p_buttons (profile m)) btn_add btn_rem
                  ++ axis_events (flags c) ctrl m old_st st fe btn_rem))
       (lpad_touched_after (flags c) (buttons m) (lpad_touched m))).
Proof.
  intros Hc. unfold dispatch, mbind, Py_bind, py_bind.
  rewrite check_buttons_quiet. cbv beta iota.
  rewrite (check_sticks_quiet c) by exact Hc. cbv beta iota.
  rewrite record_record, buttons_record.
  rewrite check_gyro_quiet. cbv beta iota. rewrite record_record.
  rewrite check_triggers_quiet. cbv beta iota.
  rewrite record_record, profile_record.
  rewrite check_rpad_quiet. cbv beta iota.
  rewrite record_record, buttons_record.
  rewrite check_dpad_quiet. cbv beta iota. rewrite record_record.
  rewrite (check_lpad_quiet c) by exact Hc. cbv beta iota.
  rewrite record_record, buttons_record, lpad_touched_record.
  rewrite check_cpad_quiet.
  rewrite record_with_lpad_touched, record_record.
  change (buttons (with_lpad_touched ?x ?b)) with (buttons x).
  change (old_buttons (with_lpad_touched ?x ?b)) with (old_buttons x).
  rewrite buttons_record, old_buttons_record.
  unfold axis_events. rewrite <- !app_assoc. reflexivity.
Qed.

(** Without a controller the [try] block is left after the buttons, at
    the first [self.controller.flags]. *)
Lemma dispatch_no_controller ctrl old_st st fe btn_add btn_rem m :
  controller m = None →
  dispatch env ctrl old_st st fe btn_add btn_rem m
  = (Raised AttributeError,
     record m (button_events (p_buttons (profile m)) btn_add btn_rem)).
Proof.
  intros Hc. unfold dispatch, mbind, Py_bind, py_bind.
  rewrite check_buttons_quiet. cbv beta iota.
  rewrite check_sticks_no_controller by exact Hc. reflexivity.
Qed.

(** What [generate_feedback] calls goes to the controller. *)
Definition is_feedback (c : Call) : bool :=
  match c with controller_feedback _ => true | _ => false end.

Lemma generate_feedback_quiet m :
  ∃ o fbs fb,
    generate_feedback env m
    = (o, mk (profile m) (controller m) fbs (buttons m) (old_buttons m)
             (lpad_touched m) (state m) (old_state m) (force_event m) (_testing m)
             (trace m ++ fb))
    ∧ forallb is_feedback fb = true
    ∧ (controller m = None → fb = [] ∧ fbs = feedbacks m).
Proof.
  destruct m as [pr co fbs b ob lt s os fe tst tr].
  unfold generate_feedback, set_feedbacks. py_simpl.
  destruct co as [c|]; py_simpl.
  2:{ exists (Returned tt), fbs, []. by rewrite app_nil_r. }
  repeat (py_case; quiet_calls);
    first [ do 2 eexists; exists []; rewrite app_nil_r;
            split; [reflexivity|]; split; [reflexivity | discriminate]
          | do 3 eexists; rewrite <- ?app_assoc;
            split; [reflexivity|]; split; [reflexivity | discriminate] ].
Qed.

(** The mapper when [input] enters its [try] block: the states are
    stored, the quirk is rewritten and [force_event] is taken over. *)
Definition started (m : t) (old_st st : ControllerState) : t :=
  mk (profile m) (controller m) (feedbacks m) (normalize (st_buttons st)) (buttons m)
     (lpad_touched m) (Some st) (Some old_st) [] (_testing m) (trace m).

(** [btn_add] and [btn_rem] of a cycle. *)
Definition btn_add (m : t) (st : ControllerState) : Z :=
  Z.land (Z.lxor (buttons m) (normalize (st_buttons st))) (normalize (st_buttons st)).

Definition btn_rem (m : t) (st : ControllerState) : Z :=
  Z.land (Z.lxor (buttons m) (normalize (st_buttons st))) (buttons m).

#[local] Arguments dispatch : simpl never.
#[local] Arguments generate_feedback : simpl never.
#[local] Arguments call : simpl never.

Lemma input_head ctrl old_st st m :
  input env ctrl old_st st m
  = (py_try (dispatch env ctrl old_st st (force_event m) (btn_add m st) (btn_rem m st))
       (λ _, true)
       (λ e, m ← py_get;
             if _testing m then py_raise e
             else call env log_error;; call env log_error);;
     call env scheduler_run;;
     call env generate_events;;
     generate_feedback env) (started m old_st st).
Proof.
  unfold input, started, btn_add, btn_rem, normalize, store_states, set_buttons,
    set_force_event.
  py_simpl.
  destruct (truthy (Z.land (st_buttons st) LPAD)
            && negb (truthy (Z.land (st_buttons st) (Z.lor LPADTOUCH STICKTILT))));
    reflexivity.
Qed.

(** One cycle on a mapper with a controller, when nothing raises: the
    calls of the cycle in their order and the attributes afterwards. *)
Lemma input_quiet c ctrl old_st st m :
  controller m = Some c →
  ∃ o fbs fb,
    input env ctrl old_st st m
    = (o, mk (profile m) (Some c) fbs (normalize (st_buttons st)) (buttons m)
             (lpad_touched_after (flags c) (normalize (st_buttons st)) (lpad_touched m))
             (Some st) (Some old_st) [] (_testing m)
             (trace m
              ++ button_events (p_buttons (profile m)) (btn_add m st) (btn_rem m st)
              ++ axis_events (flags c) ctrl (started m old_st st) old_st st
                   (force_event m) (btn_rem m st)
              ++ [scheduler_run; generate_events] ++ fb))
    ∧ forallb is_feedback fb = true.
Proof.
  intros Hc. rewrite input_head.
  unfold mbind, Py_bind, py_bind, py_try.
  rewrite (dispatch_quiet c) by exact Hc. cbv beta iota.
  rewrite call_quiet by exact Hq. cbv beta iota.
  rewrite call_quiet by exact Hq. cbv beta iota.
  rewrite record_with_lpad_touched, !record_record.
  match goal with
  | |- context [generate_feedback env ?m1] =>
      destruct (generate_feedback_quiet m1) as (o & fbs & fb & -> & Hfb & _)
  end.
  exists o, fbs, fb. split; [|exact Hfb].
  unfold with_lpad_touched, record, started. simpl. rewrite Hc.
  rewrite <- !app_assoc. reflexivity.
Qed.

(** One cycle on a mapper without a controller: the buttons are
    dispatched, then the [AttributeError] of [self.controller.flags] ends
    the [try] block. *)
Lemma input_quiet_no_controller ctrl old_st st m :
  controller m = None →
  ∃ o,
    input env ctrl old_st st m
    = (o, mk (profile m) None (feedbacks m) (normalize (st_buttons st)) (buttons m)
             (lpad_touched m) (Some st) (Some old_st) [] (_testing m)
             (trace m
              ++ button_events (p_buttons (profile m)) (btn_add m st) (btn_rem m st)
              ++ if _testing m then []
                 else [log_error; log_error; scheduler_run; generate_events])).
Proof.
  intros Hc. rewrite input_head.
  unfold mbind, Py_bind, py_bind, py_try, py_get, py_raise.
  rewrite dispatch_no_controller by exact Hc. cbv beta iota.
  unfold record, started. cbn [_testing profile buttons trace].
  destruct (_testing m).
  - eexists. rewrite app_nil_r, Hc. reflexivity.
  - rewrite !call_quiet by exact Hq. cbv beta iota.
    rewrite !record_record.
    match goal with
    | |- context [generate_feedback env ?m1] =>
        destruct (generate_feedback_quiet m1) as (o & fbs & fb & -> & _ & Hnone)
    end.
    destruct (Hnone Hc) as [-> ->]. exists o. simpl.
    rewrite Hc, app_nil_r, <- !app_assoc. reflexivity.
Qed.

(** *** Which handler a call goes to *)

Definition is_button (c : Call) : bool :=
  match c with button_press _ | button_release _ => true | _ => false end.

(** Calls to [profile.pads[LEFT]]. *)
Definition is_left_pad (c : Call) : bool :=
  match c with pad_whole LEFT _ _ _ => true | _ => false end.

(** Calls to a stick, pad or trigger handler of the profile. *)
Definition is_axis (c : Call) : bool :=
  match c with
  | stick_whole _ _ _ | rstick_whole _ _ _ | pad_whole _ _ _ _ | trigger _ _ _ => true
  | _ => false
  end.

Lemma forallb_impl {A} (P Q : A → bool) (l : list A) :
  (∀ x, P x = true → Q x = true) → forallb P l = true → forallb Q l = true.
Proof.
  intros HPQ. induction l as [|x l IH]; simpl; [done|].
  intros [Hx Hl]%andb_prop. by rewrite (HPQ x Hx), IH.
Qed.

Lemma filter_none {A} (P : A → bool) (l : list A) :
  forallb (λ x, negb (P x)) l = true → List.filter P l = [].
Proof.
  induction l as [|x l IH]; simpl; [done|].
  intros [Hx Hl]%andb_prop. apply negb_true_iff in Hx. by rewrite Hx, IH.
Qed.

Lemma not_elem_of_forallb {A} (P : A → bool) (l : list A) (x : A) :
  forallb (λ y, negb (P y)) l = true → P x = true → x ∉ l.
Proof.
  intros Hall Hx Hin. rewrite forallb_forall in Hall.
  apply list_elem_of_In in Hin. specialize (Hall x Hin). by rewrite Hx in Hall.
Qed.

(** After the buttons, the [try] block calls no button handler. *)
Lemma axis_events_no_button self_flags ctrl m old_st st fe rem :
  forallb (λ c, negb (is_button c))
    (axis_events self_flags ctrl m old_st st fe rem) = true.
Proof.
  unfold axis_events. rewrite !forallb_app, !andb_true_iff.
  repeat split.
  - unfold stick_events. rewrite forallb_app. by repeat case_match.
  - unfold gyro_events. by repeat case_match.
  - unfold trigger_events. rewrite forallb_app. by repeat case_match.
  - unfold rpad_events. by repeat case_match.
  - unfold dpad_events. by repeat case_match.
  - unfold lpad_events. by repeat case_match.
  - unfold cpad_events. by repeat case_match.
Qed.

(** Bit arithmetic of the edge detection. *)

Lemma btn_add_spec (b1 b2 : Z) :
  Z.land (Z.lxor b1 b2) b2 = Z.land b2 (Z.lnot b1).
Proof.
  apply Z.bits_inj'. intros n Hn.
  rewrite !Z.land_spec, Z.lxor_spec, Z.lnot_spec by exact Hn.
  by destruct (Z.testbit b1 n), (Z.testbit b2 n).
Qed.

Lemma btn_rem_spec (b1 b2 : Z) :
  Z.land (Z.lxor b1 b2) b1 = Z.land b1 (Z.lnot b2).
Proof.
  apply Z.bits_inj'. intros n Hn.
  rewrite !Z.land_spec, Z.lxor_spec, Z.lnot_spec by exact Hn.
  by destruct (Z.testbit b1 n), (Z.testbit b2 n).
Qed.

(** A single-bit key meets a mask exactly when the mask has that bit. *)
Lemma truthy_bit (k a : Z) : 0 ≤ k → truthy (Z.land (2 ^ k) a) = Z.testbit a k.
Proof.
  intros Hk. unfold truthy.
  destruct (Z.testbit a k) eqn:Hbit.
  - apply negb_true_iff, Z.eqb_neq. intros H0.
    apply (f_equal (λ z, Z.testbit z k)) in H0.
    rewrite Z.land_spec, Z.pow2_bits_true, Hbit, Z.bits_0 in H0 by exact Hk.
    discriminate.
  - apply negb_false_iff, Z.eqb_eq, Z.bits_inj'. intros n Hn.
    rewrite Z.land_spec, Z.bits_0.
    destruct (decide (k = n)) as [->|Hne]; [by rewrite Hbit, andb_false_r|].
    by rewrite Z.pow2_bits_false.
Qed.

Lemma button_press_in_events x keys add rem :
  button_press x ∈ button_events keys add rem
  ↔ x ∈ keys ∧ truthy (Z.land x add) = true.
Proof.
  unfold button_events. rewrite list_elem_of_omap. split.
  - intros (y & Hy & Hf). repeat case_match; naive_solver.
  - intros [Hx Ha]. exists x. by rewrite Ha.
Qed.

Lemma button_release_in_events x keys add rem :
  button_release x ∈ button_events keys add rem
  ↔ x ∈ keys ∧ truthy (Z.land x add) = false ∧ truthy (Z.land x rem) = true.
Proof.
  unfold button_events. rewrite list_elem_of_omap. split.
  - intros (y & Hy & Hf). repeat case_match; naive_solver.
  - intros (Hx & Ha & Hr). exists x. by rewrite Ha, Hr.
Qed.

(** *** The left pad *)

Lemma button_events_buttons keys add rem :
  forallb is_button (button_events keys add rem) = true.
Proof.
  induction keys as [|x keys IH]; [done|].
  unfold button_events in *. simpl.
  destruct (truthy (Z.land x add)); [exact IH|].
  destruct (truthy (Z.land x rem)); exact IH.
Qed.

(** A run of cycles: each is a call of [input] with its controller, old
    state and new state. *)
Definition cycles (l : list (Controller * ControllerState * ControllerState))
    (m : t) : t :=
  fold_left (λ m '(ctrl, old_st, st), snd (input env ctrl old_st st m)) l m.

Lemma truthy_false (n : Z) : truthy n = false ↔ n = 0.
Proof. unfold truthy. by rewrite negb_false_iff, Z.eqb_eq. Qed.

(** The quirk rewrite sets no bit of a mask that is disjoint from
    [STICKPRESS]. *)
Lemma normalize_keeps_clear (b mask : Z) :
  Z.land STICKPRESS mask = 0 →
  Z.land b mask = 0 →
  Z.land (normalize b) mask = 0.
Proof.
  intros Hpress Hb. unfold normalize. case_match; [|exact Hb].
  apply Z.bits_inj'. intros n Hn.
  apply (f_equal (λ z, Z.testbit z n)) in Hpress, Hb.
  rewrite Z.land_spec, Z.bits_0 in Hpress, Hb.
  rewrite Z.land_spec, Z.lor_spec, Z.land_spec, Z.bits_0.
  destruct (Z.testbit b n), (Z.testbit mask n), (Z.testbit STICKPRESS n);
    simpl in *; first [discriminate | reflexivity | apply andb_false_r].
Qed.

(** *** A cycle that repeats the previous snapshot *)

Lemma changed_same (a : Z) : changed a a = false.
Proof. unfold changed. by rewrite Z.eqb_refl. Qed.

Lemma stick_events_same self_flags b S : stick_events self_flags b S S [] = [].
Proof. unfold stick_events. rewrite !changed_same. simpl. by repeat case_match. Qed.

Lemma trigger_events_same p S : trigger_events p S S [] = [].
Proof. unfold trigger_events. by rewrite !changed_same. Qed.

Lemma dpad_events_same ctrl S : dpad_events ctrl S S [] = [].
Proof. unfold dpad_events. rewrite !changed_same. simpl. by rewrite andb_false_r. Qed.

Lemma cpad_events_same ctrl b S : cpad_events ctrl b b S S [] = [].
Proof.
  unfold cpad_events. rewrite !changed_same. simpl.
  destruct (truthy (Z.land b CPADTOUCH)); simpl; by rewrite andb_false_r.
Qed.

Lemma rpad_events_same ctrl b S :
  rpad_events ctrl b S S [] 0
  = if negb (truthy (Z.land (flags ctrl) IS_DECK)
             || truthy (Z.land (flags ctrl) HAS_RSTICK))
       && truthy (Z.land b RPADTOUCH)
    then [pad_whole RIGHT (rpad_x S) (rpad_y S) RIGHT] else [].
Proof.
  unfold rpad_events. rewrite !changed_same, Z.land_0_r. simpl.
  destruct (truthy (Z.land (flags ctrl) IS_DECK) || truthy (Z.land (flags ctrl) HAS_RSTICK));
    simpl; [done|]. by rewrite orb_false_r.
Qed.

Lemma gyro_events_no_axis ctrl S : List.filter is_axis (gyro_events ctrl S) = [].
Proof. unfold gyro_events. by destruct (get_gyro_enabled ctrl). Qed.

(** The quirk rewrite never clears a tilt bit that the raw buttons have. *)
Lemma no_recenter_on_same_buttons (b : Z) :
  truthy (Z.land b STICKTILT) && negb (truthy (Z.land (normalize b) STICKTILT)) = false.
Proof.
  unfold normalize.
  destruct (truthy (Z.land b LPAD)
            && negb (truthy (Z.land b (Z.lor LPADTOUCH STICKTILT)))) eqn:Hquirk.
  - apply andb_prop in Hquirk as [_ Hnone].
    apply negb_true_iff, truthy_false in Hnone.
    assert (Z.land b STICKTILT = 0) as ->; [|done].
    apply Z.bits_inj'. intros n Hn.
    apply (f_equal (λ z, Z.testbit z n)) in Hnone.
    rewrite Z.land_spec, Z.lor_spec, Z.bits_0 in Hnone.
    rewrite Z.land_spec, Z.bits_0.
    destruct (Z.testbit b n), (Z.testbit STICKTILT n); try done.
    by rewrite orb_true_r in Hnone.
  - by destruct (truthy (Z.land b STICKTILT)).
Qed.

Lemma lpad_events_same self_flags touched S :
  let b := normalize (st_buttons S) in
  lpad_events self_flags b (lpad_touched_after self_flags b touched) S S []
  = if negb (truthy (Z.land self_flags SEPARATE_STICK)) && truthy (Z.land b LPADTOUCH)
    then [pad_whole LEFT (lpad_x S) (lpad_y S) LEFT] else [].
Proof.
  intros b. unfold lpad_events, lpad_touched_after. rewrite !changed_same. subst b.
  rewrite no_recenter_on_same_buttons. simpl.
  repeat case_match; simpl in *; congruence.
Qed.

(** C2, as amended. When [input] is called a second time with the same
    snapshot and buttons as in the call before, with no handler raising in
    either call, no force flag is pending and the second call reaches no
    stick and no trigger handler. Of the pad handlers it reaches only those
    of a pad that is touched: [pads[RIGHT].whole] with the right pad position
    while [RPADTOUCH] is set (controller with neither [IS_DECK] nor
    [HAS_RSTICK]) and [pads[LEFT].whole] with the left pad position while
    [LPADTOUCH] is set (controller without [SEPARATE_STICK]). A mapper
    without a controller reaches none of them. *)
Theorem C2_unchanged_snapshot
    (m0 : t) (ctrl : Controller) (old_st S : ControllerState) :
  let b := normalize (st_buttons S) in
  let m1 := snd (input env ctrl old_st S m0) in
  let m2 := snd (input env ctrl S S m1) in
  force_event m1 = []
  ∧ List.filter is_axis (new_calls m1 m2)
    = match controller m0 with
      | Some c =>
          (if negb (truthy (Z.land (flags ctrl) IS_DECK)
                    || truthy (Z.land (flags ctrl) HAS_RSTICK))
              && truthy (Z.land b RPADTOUCH)
           then [pad_whole RIGHT (rpad_x S) (rpad_y S) RIGHT] else [])
          ++ (if negb (truthy (Z.land (flags c) SEPARATE_STICK))
                 && truthy (Z.land b LPADTOUCH)
              then [pad_whole LEFT (lpad_x S) (lpad_y S) LEFT] else [])
      | None => []
      end.
Proof.
  intros b m1 m2. subst m2 m1.
  destruct (controller m0) as [c|] eqn:Hc.
  - destruct (input_quiet c ctrl old_st S m0 Hc) as (o1 & fbs1 & fb1 & -> & _).
    cbn [snd].
    match goal with
    | |- context [input env ctrl S S ?m] => set (m1 := m)
    end.
    split; [reflexivity|].
    destruct (input_quiet c ctrl S S m1 eq_refl) as (o2 & fbs2 & fb2 & -> & Hfb).
    cbn [snd]. erewrite new_calls_record by (cbn [trace]; reflexivity).
    unfold btn_add, btn_rem, axis_events, started.
    cbn [buttons old_buttons profile lpad_touched force_event m1].
    rewrite Z.lxor_nilpotent, !Z.land_0_l, button_events_none.
    rewrite stick_events_same, trigger_events_same, dpad_events_same,
      cpad_events_same, rpad_events_same.
    pose proof (lpad_events_same (flags c) (lpad_touched m0) S) as Hlpad.
    cbv zeta in Hlpad. rewrite Hlpad. fold b.
    rewrite !List.filter_app.
    rewrite gyro_events_no_axis.
    rewrite (filter_none is_axis fb2) by (revert Hfb; apply forallb_impl; by intros []).
    simpl. rewrite app_nil_r.
    by repeat case_match.
  - destruct (input_quiet_no_controller ctrl old_st S m0 Hc) as (o1 & ->).
    cbn [snd].
    match goal with
    | |- context [input env ctrl S S ?m] => set (m1 := m)
    end.
    split; [reflexivity|].
    destruct (input_quiet_no_controller ctrl S S m1 eq_refl) as (o2 & ->).
    cbn [snd]. erewrite new_calls_record by (cbn [trace]; reflexivity).
    unfold btn_add, btn_rem. cbn [buttons _testing m1].
    rewrite Z.lxor_nilpotent, !Z.land_0_l, button_events_none.
    by destruct (_testing m0).
Qed.

End Cycle.

(** *** One cycle of [input], whichever calls raise *)

(** Code that leaves a property of the mapper in place, whether it
    returns or raises. *)
Definition preserves {A} (I : t → Prop) (c : Py t A) : Prop :=
  ∀ m, I m → I (snd (c m)).

Lemma preserves_ret {A} (I : t → Prop) (a : A) : preserves I (mret a).
Proof. by intros m H. Qed.

Lemma preserves_raise {A} (I : t → Prop) (e : exn) : preserves I (@py_raise t A e).
Proof. by intros m H. Qed.

Lemma preserves_get (I : t → Prop) : preserves I py_get.
Proof. by intros m H. Qed.

Lemma preserves_bind {A B} (I : t → Prop) (f : Py t A) (g : A → Py t B) :
  preserves I f → (∀ a, preserves I (g a)) → preserves I (f ≫= g).
Proof.
  intros Hf Hg m Hm. unfold mbind, Py_bind, py_bind. specialize (Hf m Hm).
  destruct (f m) as [[a|e] m1]; simpl in *; [|exact Hf]. by apply Hg.
Qed.

Lemma preserves_try {A} (I : t → Prop) (body : Py t A) handles
    (handler : exn → Py t A) :
  preserves I body → (∀ e, preserves I (handler e)) →
  preserves I (py_try body handles handler).
Proof.
  intros Hb Hh m Hm. unfold py_try. specialize (Hb m Hm).
  destruct (body m) as [[a|e] m1]; simpl in *; [exact Hb|].
  destruct (handles e); [|exact Hb]. by apply Hh.
Qed.

Lemma preserves_for {A} (I : t → Prop) (xs : list A) (body : A → Py t unit) :
  (∀ x, preserves I (body x)) → preserves I (py_for xs body).
Proof.
  intros Hb. induction xs as [|x xs IH]; simpl; [apply (preserves_ret I tt)|].
  apply (preserves_bind I (body x) (λ _, py_for xs body)); [apply Hb | intros _; exact IH].
Qed.

(** A property of the attributes that neither a call to the outside nor a
    store into the feedback slots changes. *)
Definition stable (F : t → Prop) : Prop :=
  ∀ m fbs tr,
    F m →
    F (mk (profile m) (controller m) fbs (buttons m) (old_buttons m)
          (lpad_touched m) (state m) (old_state m) (force_event m) (_testing m) tr).

(** [F] holds, and of the calls made since [m0] those that satisfy [P]
    are [l]. *)
Definition since (P : Call → bool) (l : list Call) (F : t → Prop) (m0 m' : t)
    : Prop :=
  F m' ∧ ∃ tail, trace m' = trace m0 ++ tail ∧ List.filter P tail = l.

Lemma since_start P F m : F m → since P [] F m m.
Proof. intros HF. split; [exact HF|]. exists []. by rewrite app_nil_r. Qed.

Lemma since_call P l F m0 env c :
  stable F → P c = false → preserves (since P l F m0) (call env c).
Proof.
  intros HF Hc m [Hm (tail & Htr & Hl)]. unfold call. simpl. split.
  - by apply HF.
  - exists (tail ++ [c]). rewrite Htr, <- app_assoc. split; [done|].
    rewrite List.filter_app. simpl. by rewrite Hc, app_nil_r.
Qed.

Lemma since_set_feedbacks P l F m0 f :
  stable F → preserves (since P l F m0) (set_feedbacks f).
Proof.
  intros HF m [Hm (tail & Htr & Hl)]. unfold set_feedbacks. simpl. split.
  - by apply HF.
  - by exists tail.
Qed.

Lemma since_set_lpad_touched P l F m0 b :
  (∀ m, F m → F (with_lpad_touched m b)) →
  preserves (since P l F m0) (set_lpad_touched b).
Proof.
  intros HF m [Hm (tail & Htr & Hl)]. unfold set_lpad_touched. simpl. split.
  - by apply HF.
  - by exists tail.
Qed.

(** Takes a computation apart along its binds and branches. *)
Ltac preserves_tac :=
  repeat first
    [ apply since_call; [assumption | first [reflexivity | assumption]]
    | apply since_set_feedbacks; assumption
    | apply since_set_lpad_touched; assumption
    | apply preserves_get | apply preserves_ret | apply preserves_raise
    | apply preserves_for; intros ?
    | apply preserves_try; [|intros ?]
    | apply preserves_bind; [|intros ?]
    | match goal with
      | |- preserves _ (if ?c then _ else _) => destruct c
      | |- preserves _ (match ?x with _ => _ end) => destruct x
      end ].

Lemma filter_all {A} (P : A → bool) (l : list A) :
  forallb P l = true → List.filter P l = l.
Proof.
  induction l as [|x l IH]; simpl; [done|].
  intros [Hx Hl]%andb_prop. by rewrite Hx, IH.
Qed.

Lemma forallb_prefix {A} (P : A → bool) (l k : list A) :
  l `prefix_of` k → forallb P k = true → forallb P l = true.
Proof. intros [rest ->]. rewrite forallb_app. by intros [? _]%andb_prop. Qed.

Section AnyEnv.
Context `{K : Constants}.
Variable env : Env.

#[local] Arguments dispatch : simpl never.
#[local] Arguments generate_feedback : simpl never.
#[local] Arguments call : simpl never.

(** What follows the [try] block of [input]. *)
Definition after_try : Py t unit :=
  call env scheduler_run;;
  call env generate_events;;
  generate_feedback env.

(** The handler of the [try] block of [input]. *)
Definition on_error (e : exn) : Py t unit :=
  m ← py_get;
  if _testing m then py_raise e
  else call env log_error;; call env log_error.

Lemma input_parts ctrl old_st st m :
  input env ctrl old_st st m
  = (py_try (dispatch env ctrl old_st st (force_event m) (btn_add m st) (btn_rem m st))
       (λ _, true) on_error;; after_try) (started m old_st st).
Proof. apply input_head. Qed.

Lemma preserves_after_try P l F m0 :
  stable F →
  (∀ h, P (controller_feedback h) = false) →
  P scheduler_run = false → P generate_events = false →
  preserves (since P l F m0) after_try.
Proof.
  intros HF Hfb Hs Hg. unfold after_try, generate_feedback.
  apply preserves_bind; [by apply since_call|]. intros _.
  apply preserves_bind; [by apply since_call|]. intros _.
  apply preserves_bind; [apply preserves_get|]. intros m.
  destruct (controller m); [|apply preserves_ret].
  apply preserves_for. intros x.
  apply preserves_bind; [apply preserves_get|]. intros m'.
  destruct (feedbacks m' !! x) as [[h|]|];
    [|apply preserves_ret|apply preserves_raise].
  apply preserves_bind; [by apply since_call|]. intros _.
  by apply since_set_feedbacks.
Qed.

Lemma preserves_on_error P l F m0 e :
  stable F → P log_error = false → preserves (since P l F m0) (on_error e).
Proof. intros HF Hlog. unfold on_error. preserves_tac. Qed.

(** **** The buttons *)

(** The calls of the loop over [profile.buttons] are the first of those
    that are due; all of them, unless a handler raised. *)
Lemma button_loop_any keys btn_add btn_rem m :
  ∃ o done,
    py_for keys (λ x,
      if truthy (Z.land x btn_add) then call env (button_press x)
      else if truthy (Z.land x btn_rem) then call env (button_release x)
      else mret tt) m
    = (o, record m done)
    ∧ done `prefix_of` button_events keys btn_add btn_rem
    ∧ (o = Returned tt → done = button_events keys btn_add btn_rem).
Proof.
  revert m. induction keys as [|x keys IH]; intros m.
  - exists (Returned tt), []. simpl. by rewrite record_nil.
  - cbn [py_for]. unfold py_bind at 1. unfold button_events. cbn [omap list_omap].
    fold (button_events keys btn_add btn_rem).
    destruct (truthy (Z.land x btn_add)) eqn:Ha;
      [|destruct (truthy (Z.land x btn_rem)) eqn:Hr].
    + unfold call at 1.
      destruct (env (trace m) (button_press x)) as [e|] eqn:He.
      * exists (Raised e), [button_press x]. split; [reflexivity|]. split; [|done].
        by apply prefix_cons, prefix_nil.
      * destruct (IH (record m [button_press x])) as (o & done & Hrun & Hpre & Hall).
        exists o, (button_press x :: done). split; [|split].
        -- etransitivity; [exact Hrun|]. by rewrite record_record.
        -- by apply prefix_cons.
        -- intros Hq. by rewrite (Hall Hq).
    + unfold call at 1.
      destruct (env (trace m) (button_release x)) as [e|] eqn:He.
      * exists (Raised e), [button_release x]. split; [reflexivity|]. split; [|done].
        by apply prefix_cons, prefix_nil.
      * destruct (IH (record m [button_release x])) as (o & done & Hrun & Hpre & Hall).
        exists o, (button_release x :: done). split; [|split].
        -- etransitivity; [exact Hrun|]. by rewrite record_record.
        -- by apply prefix_cons.
        -- intros Hq. by rewrite (Hall Hq).
    + apply IH.
Qed.

Lemma check_buttons_any btn_add btn_rem m :
  ∃ o done,
    check_buttons env btn_add btn_rem m = (o, record m done)
    ∧ done `prefix_of` button_events (p_buttons (profile m)) btn_add btn_rem
    ∧ (o = Returned tt → done = button_events (p_buttons (profile m)) btn_add btn_rem).
Proof.
  unfold check_buttons. py_simpl.
  destruct (truthy btn_add) eqn:Ha; simpl; [apply button_loop_any|].
  destruct (truthy btn_rem) eqn:Hr; simpl; [apply button_loop_any|].
  apply truthy_false in Ha, Hr. subst.
  exists (Returned tt), []. rewrite button_events_none, record_nil. by repeat split.
Qed.

(** The "Check buttons" part of the cycle runs to its end: no button
    handler that the cycle calls raises. *)
Definition buttons_return (old_st st : ControllerState) (m : t) : Prop :=
  fst (check_buttons env (btn_add m st) (btn_rem m st) (started m old_st st))
  = Returned tt.

(** The [try] block after its "Check buttons" part. *)
Definition after_buttons (ctrl : Controller) (old_st st : ControllerState)
    (fe : list ForceEvent) (btn_rem : Z) : Py t unit :=
  check_sticks env old_st st fe;;
  check_gyro env ctrl st;;
  check_triggers env old_st st fe;;
  check_rpad env ctrl old_st st fe btn_rem;;
  check_dpad env ctrl old_st st fe;;
  check_lpad env old_st st fe;;
  check_cpad env ctrl old_st st fe.

Lemma after_buttons_no_button ctrl old_st st fe btn_rem l m0 :
  preserves (since is_button l (λ _, True) m0) (after_buttons ctrl old_st st fe btn_rem).
Proof.
  assert (stable (λ _, True)) as HF by done.
  assert (∀ m : t, True → True) as HF' by done.
  unfold after_buttons, check_sticks, check_gyro, check_triggers, check_rpad,
    check_dpad, check_lpad, check_cpad, self_controller_flags.
  preserves_tac.
Qed.

(** Of the calls of a cycle, those to a button handler are the first of
    those that are due, and all of them unless a button handler raised. *)
Lemma input_button_calls ctrl old_st st m :
  ∃ done,
    List.filter is_button (new_calls m (snd (input env ctrl old_st st m))) = done
    ∧ done `prefix_of` button_events (p_buttons (profile m)) (btn_add m st) (btn_rem m st)
    ∧ (buttons_return old_st st m →
       done = button_events (p_buttons (profile m)) (btn_add m st) (btn_rem m st)).
Proof.
  rewrite input_parts. unfold buttons_return.
  set (m0 := started m old_st st).
  destruct (check_buttons_any (btn_add m st) (btn_rem m st) m0)
    as (o & done & Hrun & Hpre & Hall).
  exists done. split; [|split; [exact Hpre | by rewrite Hrun]].
  assert (since is_button done (λ _, True) m0 (record m0 done)) as Hdone.
  { split; [done|]. exists done. split; [done|].
    apply filter_all. eapply (forallb_prefix is_button); [exact Hpre|].
    apply button_events_buttons. }
  assert (stable (λ _, True)) as HF by done.
  enough (since is_button done (λ _, True) m0
            (snd ((py_try (dispatch env ctrl old_st st (force_event m) (btn_add m st)
                             (btn_rem m st)) (λ _, true) on_error;; after_try) m0)))
    as [_ (tail & Htr & Hl)].
  { rewrite (new_calls_record m _ tail); [exact Hl|]. exact Htr. }
  change (dispatch env ctrl old_st st (force_event m) (btn_add m st) (btn_rem m st))
    with (check_buttons env (btn_add m st) (btn_rem m st);;
          after_buttons ctrl old_st st (force_event m) (btn_rem m st)).
  unfold mbind, Py_bind, py_bind, py_try. rewrite Hrun.
  pose proof (after_buttons_no_button ctrl old_st st (force_event m) (btn_rem m st)
                done m0 _ Hdone) as Hrest.
  pose proof (preserves_after_try is_button done (λ _, True) m0 HF
                (λ _, eq_refl) eq_refl eq_refl) as Hafter.
  destruct o as [[]|e].
  - destruct (after_buttons _ _ _ _ _ _) as [[[]|e] m1]; cbn [snd] in Hrest.
    + by apply Hafter.
    + pose proof (preserves_on_error is_button done (λ _, True) m0 e HF eq_refl
                    _ Hrest) as Hh.
      destruct (on_error e m1) as [[[]|e'] m2]; cbn [snd] in Hh; [|exact Hh].
      by apply Hafter.
  - pose proof (preserves_on_error is_button done (λ _, True) m0 e HF eq_refl
                  _ Hdone) as Hh.
    destruct (on_error e (record m0 done)) as [[[]|e'] m2]; cbn [snd] in Hh; [|exact Hh].
    by apply Hafter.
Qed.

(** C1, as amended. In one cycle of [input], with [B1] the buttons of the
    previous cycle and [B2] the new buttons after the hardware-quirk
    rewrite: whichever handlers raise, [button_press] only goes to entries
    of [profile.buttons] with a bit in [B2 & ~B1], [button_release] only to
    entries with a bit in [B1 & ~B2], and the entry bound to one bit never
    gets both. When no button handler raises in the cycle, the entry bound
    to a bit gets [button_press] whenever the bit is set in [B2 & ~B1] and
    [button_release] whenever it is set in [B1 & ~B2]. *)
Theorem C1_button_edges
    (m : t) (ctrl : Controller) (old_st st : ControllerState) (k : Z) :
  0 ≤ k →
  2 ^ k ∈ p_buttons (profile m) →
  let B1 := buttons m in
  let B2 := normalize (st_buttons st) in
  let calls := new_calls m (snd (input env ctrl old_st st m)) in
  (button_press (2 ^ k) ∈ calls → Z.testbit (Z.land B2 (Z.lnot B1)) k = true)
  ∧ (button_release (2 ^ k) ∈ calls → Z.testbit (Z.land B1 (Z.lnot B2)) k = true)
  ∧ ¬ (button_press (2 ^ k) ∈ calls ∧ button_release (2 ^ k) ∈ calls)
  ∧ (∀ x, button_press x ∈ calls →
          x ∈ p_buttons (profile m) ∧ Z.land x (Z.land B2 (Z.lnot B1)) ≠ 0)
  ∧ (∀ x, button_release x ∈ calls →
          x ∈ p_buttons (profile m) ∧ Z.land x (Z.land B1 (Z.lnot B2)) ≠ 0)
  ∧ (buttons_return old_st st m →
     (Z.testbit (Z.land B2 (Z.lnot B1)) k = true → button_press (2 ^ k) ∈ calls)
     ∧ (Z.testbit (Z.land B1 (Z.lnot B2)) k = true → button_release (2 ^ k) ∈ calls)).
Proof.
  intros Hk Hkey B1 B2 calls.
  destruct (input_button_calls ctrl old_st st m) as (done & Hcalls & Hpre & Hall).
  fold calls in Hcalls. revert Hpre Hall.
  unfold btn_add, btn_rem. fold B1 B2. rewrite btn_add_spec, btn_rem_spec.
  set (add := Z.land B2 (Z.lnot B1)). set (rem := Z.land B1 (Z.lnot B2)).
  set (due := button_events (p_buttons (profile m)) add rem).
  intros Hpre Hall.
  assert (Hin : ∀ c, is_button c = true → c ∈ calls ↔ c ∈ done).
  { intros c Hc. rewrite <- Hcalls, !list_elem_of_In, List.filter_In. tauto. }
  assert (Hinp : ∀ x, button_press x ∈ calls ↔ button_press x ∈ done)
    by (intros x; by apply Hin).
  assert (Hinr : ∀ x, button_release x ∈ calls ↔ button_release x ∈ done)
    by (intros x; by apply Hin).
  assert (Hdue : ∀ c, c ∈ done → c ∈ due).
  { intros c Hc. destruct Hpre as [rest ->]. apply elem_of_app. by left. }
  assert (Hpress : ∀ x, button_press x ∈ calls →
                        x ∈ p_buttons (profile m) ∧ truthy (Z.land x add) = true).
  { intros x Hx. apply Hinp, Hdue in Hx.
    by apply button_press_in_events in Hx. }
  assert (Hrelease : ∀ x, button_release x ∈ calls →
                          x ∈ p_buttons (profile m)
                          ∧ truthy (Z.land x add) = false
                          ∧ truthy (Z.land x rem) = true).
  { intros x Hx. apply Hinr, Hdue in Hx.
    by apply button_release_in_events in Hx. }
  assert (Hdisjoint : Z.testbit add k = true → Z.testbit rem k = true → False).
  { unfold add, rem. rewrite !Z.land_spec, !Z.lnot_spec by exact Hk.
    destruct (Z.testbit B1 k), (Z.testbit B2 k); simpl; congruence. }
  split; [|split; [|split; [|split; [|split]]]].
  - intros [_ Ha]%Hpress. by rewrite truthy_bit in Ha.
  - intros (_ & _ & Hr)%Hrelease. by rewrite truthy_bit in Hr.
  - intros [[_ Ha]%Hpress (_ & Ha' & _)%Hrelease]. congruence.
  - intros x [Hx Ha]%Hpress. split; [exact Hx|].
    unfold truthy in Ha. by apply negb_true_iff, Z.eqb_neq in Ha.
  - intros x (Hx & _ & Hr)%Hrelease. split; [exact Hx|].
    unfold truthy in Hr. by apply negb_true_iff, Z.eqb_neq in Hr.
  - intros Hq. rewrite (Hall Hq) in Hinp, Hinr. split.
    + intros Ha. apply Hinp, button_press_in_events.
      by rewrite truthy_bit.
    + intros Hr. apply Hinr, button_release_in_events.
      rewrite !truthy_bit by exact Hk. split; [exact Hkey|]. split; [|exact Hr].
      destruct (Z.testbit add k) eqn:Ha; [|done]. by destruct (Hdisjoint eq_refl Hr).
Qed.

(** **** The left pad *)

(** The left pad is not touched: [buttons] has no touch bit, on the
    controller [c], with the touch mark [touched]. *)
Definition released (c : Controller) (touched : bool) (m : t) : Prop :=
  controller m = Some c ∧ lpad_touched m = touched
  ∧ Z.land (buttons m) LPADTOUCH = 0.

(** The same, with the stick at rest. *)
Definition at_rest (c : Controller) (touched : bool) (m : t) : Prop :=
  released c touched m ∧ Z.land (buttons m) STICKTILT = 0.

Lemma released_stable c touched : stable (released c touched).
Proof. by intros m fbs tr H. Qed.

Lemma at_rest_stable c touched : stable (at_rest c touched).
Proof. by intros m fbs tr H. Qed.

(** The "LPAD" part on a pad that is neither touched nor marked: nothing
    happens. *)
Lemma check_lpad_idle c old_st st fe m :
  Z.land (flags c) SEPARATE_STICK = 0 →
  released c false m →
  check_lpad env old_st st fe m = (Returned tt, m).
Proof.
  intros Hsep (Hc & Hlt & Htouch).
  unfold check_lpad, self_controller_flags. py_simpl. rewrite Hc. py_simpl.
  rewrite Hsep, Htouch, Hlt. simpl.
  by destruct (truthy (Z.land (buttons m) STICKTILT)).
Qed.

(** The "LPAD" part on a pad that is marked touched and touched no more,
    with the stick at rest: the mark is cleared and the release is passed
    on. *)
Lemma check_lpad_release c old_st st fe m :
  Z.land (flags c) SEPARATE_STICK = 0 →
  at_rest c true m →
  check_lpad env old_st st fe m
  = call env (pad_whole LEFT 0 0 LEFT) (with_lpad_touched m false).
Proof.
  intros Hsep [(Hc & Hlt & Htouch) Htilt].
  unfold check_lpad, self_controller_flags, set_lpad_touched. py_simpl.
  rewrite Hc. py_simpl. rewrite Hsep, Htouch, Htilt, Hlt. reflexivity.
Qed.

(** The [try] block up to its "LPAD" part. *)
Definition before_lpad (ctrl : Controller) (old_st st : ControllerState)
    (fe : list ForceEvent) (btn_add btn_rem : Z) : Py t unit :=
  check_buttons env btn_add btn_rem;;
  check_sticks env old_st st fe;;
  check_gyro env ctrl st;;
  check_triggers env old_st st fe;;
  check_rpad env ctrl old_st st fe btn_rem;;
  check_dpad env ctrl old_st st fe.

Lemma dispatch_split ctrl old_st st fe add rem m :
  dispatch env ctrl old_st st fe add rem m
  = (before_lpad ctrl old_st st fe add rem;;
     check_lpad env old_st st fe;;
     check_cpad env ctrl old_st st fe) m.
Proof.
  unfold dispatch, before_lpad, mbind, Py_bind, py_bind.
  destruct (check_buttons env add rem m) as [[[]|?] m1]; [|reflexivity].
  destruct (check_sticks env old_st st fe m1) as [[[]|?] m2]; [|reflexivity].
  destruct (check_gyro env ctrl st m2) as [[[]|?] m3]; [|reflexivity].
  destruct (check_triggers env old_st st fe m3) as [[[]|?] m4]; [|reflexivity].
  destruct (check_rpad env ctrl old_st st fe rem m4) as [[[]|?] m5]; [|reflexivity].
  destruct (check_dpad env ctrl old_st st fe m5) as [[[]|?] m6]; reflexivity.
Qed.

(** Up to its "LPAD" part the [try] block calls [profile.pads[LEFT]] for
    nothing and leaves the pad as it finds it. *)
Lemma before_lpad_preserves F l ctrl old_st st fe add rem m0 :
  stable F →
  preserves (since is_left_pad l F m0) (before_lpad ctrl old_st st fe add rem).
Proof.
  intros HF.
  unfold before_lpad, check_buttons, check_sticks, check_gyro, check_triggers,
    check_rpad, check_dpad, self_controller_flags.
  preserves_tac.
Qed.

Lemma check_cpad_preserves F l ctrl old_st st fe m0 :
  stable F →
  preserves (since is_left_pad l F m0) (check_cpad env ctrl old_st st fe).
Proof. intros HF. unfold check_cpad. preserves_tac. Qed.

(** What comes after the [try] block, and the handler of the block,
    call [profile.pads[LEFT]] for nothing. *)
Lemma input_tail_preserves (I : t → Prop) (body : Py t unit) m0 :
  preserves I after_try →
  (∀ e, preserves I (on_error e)) →
  I (snd (body m0)) →
  I (snd ((py_try body (λ _, true) on_error;; after_try) m0)).
Proof.
  intros Hafter Herr Hbody. unfold mbind, Py_bind, py_bind, py_try.
  destruct (body m0) as [[[]|e] m1]; cbn [snd] in Hbody.
  - by apply Hafter.
  - specialize (Herr e m1 Hbody).
    destruct (on_error e m1) as [[[]|e'] m2]; cbn [snd] in Herr; [|exact Herr].
    by apply Hafter.
Qed.

(** The [try] block of a cycle that starts on a pad that is marked touched
    and touched no more, if it gets to its "LPAD" part, calls
    [profile.pads[LEFT]] once, for the release, whether or not that call or
    a later one raises. *)
Lemma dispatch_release c ctrl old_st st fe add rem m0 :
  Z.land (flags c) SEPARATE_STICK = 0 →
  at_rest c true m0 →
  fst (before_lpad ctrl old_st st fe add rem m0) = Returned tt →
  since is_left_pad [pad_whole LEFT 0 0 LEFT] (released c false) m0
    (snd (dispatch env ctrl old_st st fe add rem m0)).
Proof.
  intros Hsep H0 Hret. rewrite dispatch_split.
  pose proof (before_lpad_preserves (at_rest c true) [] ctrl old_st st fe add rem m0
                (at_rest_stable c true) m0 (since_start _ _ _ H0)) as Hpre.
  unfold mbind, Py_bind, py_bind.
  destruct (before_lpad ctrl old_st st fe add rem m0) as [[[]|e] m1];
    [|discriminate]. cbn [snd] in Hpre.
  destruct Hpre as [Hm1 (tail & Htr & Hl)].
  rewrite (check_lpad_release c) by done.
  assert (since is_left_pad [pad_whole LEFT 0 0 LEFT] (released c false) m0
            (record (with_lpad_touched m1 false) [pad_whole LEFT 0 0 LEFT])) as Hpost.
  { destruct Hm1 as [(Hc & Hlt & Htouch) Htilt]. split; [done|].
    exists (tail ++ [pad_whole LEFT 0 0 LEFT]). cbn [trace record with_lpad_touched].
    rewrite Htr, <- app_assoc. split; [done|].
    rewrite List.filter_app, Hl. reflexivity. }
  unfold call at 1.
  destruct (env (trace (with_lpad_touched m1 false)) (pad_whole LEFT 0 0 LEFT));
    [exact Hpost|].
  by apply (check_cpad_preserves _ _ _ _ _ _ _ (released_stable c false)).
Qed.

(** A cycle that starts on a pad that is neither touched nor marked calls
    [profile.pads[LEFT]] for nothing and leaves the pad unmarked. *)
Lemma dispatch_idle c ctrl old_st st fe add rem l m0 :
  Z.land (flags c) SEPARATE_STICK = 0 →
  preserves (since is_left_pad l (released c false) m0)
    (dispatch env ctrl old_st st fe add rem).
Proof.
  intros Hsep m Hm. rewrite dispatch_split. revert m Hm.
  apply preserves_bind; [by apply before_lpad_preserves, released_stable|]. intros _.
  apply preserves_bind;
    [|intros _; by apply check_cpad_preserves, released_stable].
  intros m Hm. by rewrite (check_lpad_idle c) by apply Hsep || apply Hm.
Qed.

Lemma input_idle c ctrl old_st st m :
  Z.land (flags c) SEPARATE_STICK = 0 →
  Z.land STICKPRESS LPADTOUCH = 0 →
  Z.land (st_buttons st) LPADTOUCH = 0 →
  controller m = Some c →
  lpad_touched m = false →
  let m' := snd (input env ctrl old_st st m) in
  controller m' = Some c ∧ lpad_touched m' = false
  ∧ ∃ tail, trace m' = trace m ++ tail ∧ List.filter is_left_pad tail = [].
Proof.
  intros Hsep Hpress Hst Hc Hlt m'. subst m'. rewrite input_parts.
  set (m0 := started m old_st st).
  pose proof (released_stable c false) as HF.
  assert (since is_left_pad [] (released c false) m0
            (snd ((py_try (dispatch env ctrl old_st st (force_event m) (btn_add m st)
                             (btn_rem m st)) (λ _, true) on_error;; after_try) m0)))
    as [(Hc' & Hlt' & _) Htail]; [|done].
  apply input_tail_preserves.
  - by apply preserves_after_try.
  - intros e. by apply preserves_on_error.
  - apply dispatch_idle; [exact Hsep|]. apply since_start.
    repeat split; try done. by apply normalize_keeps_clear.
Qed.

(** While the pad is not marked touched and the touch bit stays clear,
    cycles call [profile.pads[LEFT]] for nothing, whatever raises. *)
Lemma untouched_cycles_no_left_pad c later m :
  controller m = Some c →
  Z.land (flags c) SEPARATE_STICK = 0 →
  Z.land STICKPRESS LPADTOUCH = 0 →
  lpad_touched m = false →
  Forall (λ '(_, _, st), Z.land (st_buttons st) LPADTOUCH = 0) later →
  List.filter is_left_pad (new_calls m (cycles env later m)) = [].
Proof.
  intros Hc Hsep Hpress Htouched Hlater.
  enough (∃ calls, trace (cycles env later m) = trace m ++ calls
                   ∧ List.filter is_left_pad calls = []) as (calls & Htr & Hnone).
  { by rewrite (new_calls_record _ _ _ Htr). }
  revert m Hc Htouched.
  induction Hlater as [|[[ctrl old_st] st] later Hst _ IH]; intros m Hc Htouched.
  - exists []. by rewrite app_nil_r.
  - simpl.
    destruct (input_idle c ctrl old_st st m Hsep Hpress Hst Hc Htouched)
      as (Hc' & Hlt' & calls & Htr & Hcalls).
    destruct (IH _ Hc' Hlt') as (calls' & Htr' & Hcalls').
    exists (calls ++ calls'). rewrite Htr', Htr, <- app_assoc. split; [done|].
    by rewrite List.filter_app, Hcalls, Hcalls'.
Qed.

(** The [try] block of the cycle gets to its "LPAD" part: none of the
    handlers that it calls before (of the buttons, the sticks, the gyro, the
    triggers, the right pad and the d-pad) raises. *)
Definition reaches_lpad (ctrl : Controller) (old_st st : ControllerState)
    (m : t) : Prop :=
  fst (before_lpad ctrl old_st st (force_event m) (btn_add m st) (btn_rem m st)
         (started m old_st st)) = Returned tt.

(** C8, as amended. On a controller without a separate stick whose left
    pad is marked touched, a cycle in which neither the touch bit nor the
    tilt bit is set, and in which no handler raises before the [try] block
    gets to its "LPAD" part, calls [pads[LEFT].whole(mapper, 0, 0, LEFT)]
    once and [profile.pads[LEFT]] for nothing else; in later cycles, for as
    long as the touch bit stays clear and whatever raises in them,
    [profile.pads[LEFT]] is not called again ([STICKPRESS] is assumed to be
    a bit of its own, apart from the touch and tilt bits). *)
Theorem C8_left_pad_release
    (m : t) (c ctrl : Controller) (old_st st : ControllerState)
    (later : list (Controller * ControllerState * ControllerState)) :
  controller m = Some c →
  Z.land (flags c) SEPARATE_STICK = 0 →
  Z.land STICKPRESS LPADTOUCH = 0 →
  Z.land STICKPRESS STICKTILT = 0 →
  lpad_touched m = true →
  Z.land (st_buttons st) LPADTOUCH = 0 →
  Z.land (st_buttons st) STICKTILT = 0 →
  Forall (λ '(_, _, st'), Z.land (st_buttons st') LPADTOUCH = 0) later →
  reaches_lpad ctrl old_st st m →
  let m1 := snd (input env ctrl old_st st m) in
  List.filter is_left_pad (new_calls m m1) = [pad_whole LEFT 0 0 LEFT]
  ∧ lpad_touched m1 = false
  ∧ List.filter is_left_pad (new_calls m1 (cycles env later m1)) = [].
Proof.
  intros Hc Hsep Hpt Hps Htouched Htouch Htilt Hlater Hret m1.
  set (m0 := started m old_st st).
  assert (at_rest c true m0) as H0.
  { repeat split; try done; by apply normalize_keeps_clear. }
  pose proof (released_stable c false) as HF.
  assert (since is_left_pad [pad_whole LEFT 0 0 LEFT] (released c false) m0 m1) as H1.
  { subst m1. rewrite input_parts. apply input_tail_preserves.
    - by apply preserves_after_try.
    - intros e. by apply preserves_on_error.
    - by apply (dispatch_release c). }
  destruct H1 as [(Hc1 & Hlt1 & _) (tail & Htr & Hl)].
  split; [|split; [exact Hlt1|]].
  - by rewrite (new_calls_record m m1 tail).
  - by apply (untouched_cycles_no_left_pad c).
Qed.

End AnyEnv.

(** *** Sample cycles *)

(** A snapshot with the given buttons and pad positions, everything else
    at rest. *)
Definition snapshot (b lx ly rx ry : Z) : ControllerState :=
  {| st_buttons := b; ltrig := 0; rtrig := 0; stick_x := 0; stick_y := 0;
     lpad_x := lx; lpad_y := ly; rpad_x := rx; rpad_y := ry;
     cpad_x := 0; cpad_y := 0; dpad_x := 0; dpad_y := 0;
     rstick_x := 0; rstick_y := 0; gpitch := 0; gyaw := 0; groll := 0;
     q1 := 0; q2 := 0; q3 := 0; q4 := 0 |}.

(** A controller without flags: pads and stick share their axes. *)
Definition steam : Controller := {| flags := 0; get_gyro_enabled := false |}.

(** A profile with actions on three buttons and on both triggers. *)
Definition sample_profile : Profile :=
  {| p_buttons := [2 ^ 15; 2 ^ 14; 2 ^ 27]; p_triggers := [LEFT; RIGHT] |}.

(** A mapper of [steam] in the middle of a session, with the given
    buttons and touch mark left by the cycle before. *)
Definition sample_mapper (b : Z) (touched : bool) : t :=
  mk sample_profile (Some steam) [None; None] b 0 touched None None [] false [].

Lemma C2_unchanged_snapshot_witness :
  let m0 := sample_mapper 0 false in
  let S := snapshot (2 ^ 27) 50 60 0 0 in
  let m1 := snd (@input sample_constants quiet_env steam (snapshot 0 0 0 0 0) S m0) in
  let m2 := snd (@input sample_constants quiet_env steam S S m1) in
  List.filter is_axis (new_calls m1 m2) = [pad_whole LEFT 50 60 LEFT].
Proof.
  intros m0 S m1 m2.
  pose proof (@C2_unchanged_snapshot sample_constants quiet_env (λ _ _, eq_refl)
                m0 steam (snapshot 0 0 0 0 0) S) as H.
  destruct H as [_ H]. exact H.
Defined.

(** C2 as first stated does not hold: with the right pad touched at
    (100, -200), a second call with the same snapshot and buttons, and no
    force flag pending, calls [pads[RIGHT].whole] again. *)
Lemma C2_touched_pad_is_dispatched_again :
  let m0 := sample_mapper 0 false in
  let S := snapshot (2 ^ 28) 0 0 100 (-200) in
  let m1 := snd (@input sample_constants quiet_env steam (snapshot 0 0 0 0 0) S m0) in
  let m2 := snd (@input sample_constants quiet_env steam S S m1) in
  force_event m1 = []
  ∧ List.filter is_axis (new_calls m1 m2) = [pad_whole RIGHT 100 (-200) RIGHT].
Proof. vm_compute. split; reflexivity. Qed.

(** The action bound to the stick is broken: every call of it raises. *)
Definition failing_stick : Env :=
  λ _ c, match c with stick_whole _ _ _ => Some KeyError | _ => None end.

(** The action bound to one button is broken: pressing it raises. *)
Definition failing_press (key : Z) : Env :=
  λ _ c, match c with
         | button_press x => if x =? key then Some KeyError else None
         | _ => None
         end.

Lemma C1_button_edges_witness :
  let m := sample_mapper (2 ^ 15) false in
  let st := snapshot (2 ^ 14) 50 60 0 0 in
  button_press (2 ^ 14)
    ∈ new_calls m (snd (@input sample_constants failing_stick steam
                          (snapshot (2 ^ 15) 0 0 0 0) st m)).
Proof.
  intros m st.
  pose proof (@C1_button_edges sample_constants failing_stick
                m steam (snapshot (2 ^ 15) 0 0 0 0) st 14
                ltac:(lia) ltac:(repeat constructor)) as H.
  destruct H as (_ & _ & _ & _ & _ & H).
  apply (proj1 (H ltac:(vm_compute; reflexivity))). reflexivity.
Defined.

(** C1 as first stated does not hold: the action of the first button
    raises when pressed, and the second button, pressed in the same cycle,
    is not passed to its action. *)
Lemma C1_raising_handler_skips_later_buttons :
  let m := sample_mapper 0 false in
  let st := snapshot (Z.lor (2 ^ 15) (2 ^ 14)) 0 0 0 0 in
  let calls := new_calls m (snd (@input sample_constants (failing_press (2 ^ 15)) steam
                                   (snapshot 0 0 0 0 0) st m)) in
  2 ^ 14 ∈ p_buttons (profile m)
  ∧ Z.testbit (Z.land (@normalize sample_constants (st_buttons st))
                 (Z.lnot (buttons m))) 14 = true
  ∧ calls = [button_press (2 ^ 15); log_error; log_error; scheduler_run;
             generate_events]
  ∧ button_press (2 ^ 14) ∉ calls.
Proof.
  intros m st calls.
  assert (calls = [button_press (2 ^ 15); log_error; log_error; scheduler_run;
                   generate_events]) as Hcalls by (vm_compute; reflexivity).
  split; [repeat constructor|]. split; [reflexivity|]. split; [exact Hcalls|].
  rewrite Hcalls. intros H.
  repeat (apply elem_of_cons in H as [H|H]; [discriminate H|]).
  by apply elem_of_nil in H.
Qed.

Lemma C8_left_pad_release_witness :
  let m := sample_mapper (2 ^ 27) true in
  let idle := snapshot 0 0 0 0 0 in
  let pressed := snapshot (2 ^ 15) 0 0 0 0 in
  let env := failing_press (2 ^ 15) in
  let m1 := snd (@input sample_constants env steam (snapshot (2 ^ 27) 50 60 0 0) idle m) in
  List.filter is_left_pad (new_calls m m1) = [pad_whole LEFT 0 0 LEFT]
  ∧ List.filter is_left_pad
      (new_calls m1 (@cycles sample_constants env
                       [(steam, idle, pressed); (steam, pressed, idle)] m1)) = [].
Proof.
  intros m idle pressed env m1.
  pose proof (@C8_left_pad_release sample_constants env
                m steam steam (snapshot (2 ^ 27) 50 60 0 0) idle
                [(steam, idle, pressed); (steam, pressed, idle)]
                eq_refl eq_refl eq_refl eq_refl eq_refl eq_refl eq_refl
                ltac:(repeat constructor) ltac:(vm_compute; reflexivity)) as H.
  destruct H as (H1 & _ & H3). split; [exact H1 | exact H3].
Defined.

(** C8 as first stated does not hold: the stick action raises in the cycle
    in which the pad is released, the rest of the [try] block is skipped
    and the pad stays marked; [pads[LEFT].whole(mapper, 0, 0, LEFT)] is not
    called in that cycle but in the next one. *)
Lemma C8_release_is_late_after_a_raise :
  let m := sample_mapper (2 ^ 27) true in
  let idle := snapshot 0 0 0 0 0 in
  let m1 := snd (@input sample_constants failing_stick steam
                   (snapshot (2 ^ 27) 50 60 0 0) idle m) in
  let m2 := snd (@input sample_constants failing_stick steam idle idle m1) in
  List.filter is_left_pad (new_calls m m1) = []
  ∧ lpad_touched m1 = true
  ∧ List.filter is_left_pad (new_calls m1 m2) = [pad_whole LEFT 0 0 LEFT].
Proof. vm_compute. repeat split; reflexivity. Qed.

End MapperSpec.


(** * Further properties of the three files *)

(** ** USB devices: requests, failed writes, release *)
Module USBDeviceLifecycle.
Import USB.

(** A handle that answers every call, with a response that depends on the
    call only. *)
Definition answers (henv : HandleEnv) (resp : HandleCall → bytes) : Prop :=
  ∀ history c, henv history c = Returned (resp c).

(** The entry that [make_request(index, callback, data, size)] queues. *)
Definition request_of (a : Z * callable * bytes * Z) : Request :=
  let '(index, callback, data, size) := a in
  mkReq (mkMsg 0x21 0x09 0x0300 index data 0) index size callback.

(** What serving one request does to the handle: the write, the read of
    [size] bytes at the request's index, and the callback with what was
    read. *)
Definition request_calls (resp : HandleCall → bytes) (r : Request) : list HandleCall :=
  let read := ControlRead 0xA1 0x01 0x0300 (r_index r) (r_size r) in
  [ControlWrite (r_msg r); read; RequestCallback (r_callback r) (resp read)].

(** The interfaces that the calls in [cs] release. *)
Definition releases (cs : list HandleCall) : list Z :=
  omap (λ c, match c with ReleaseInterface n => Some n | _ => None end) cs.

(** A handle whose device may be gone: a call succeeds or raises
    [USBErrorNoDevice]. *)
Definition gone_or_ok (henv : HandleEnv) : Prop :=
  ∀ history c, (∃ r, henv history c = Returned r)
               ∨ henv history c = Raised USBErrorNoDevice.

Definition is_release_or_attach (c : HandleCall) : bool :=
  match c with ReleaseInterface _ | AttachKernelDriver _ => true | _ => false end.

Lemma make_requests_eq (new : list (Z * callable * bytes * Z)) d :
  py_for new (λ '(index, callback, data, size),
                make_request index callback data size) d =
    (Returned tt, mkDev (_claimed d) (_cmsg d) (_rmsg d ++ map request_of new) (calls d)).
Proof.
  revert d. induction new as [|[[[index callback] data] size] new IH]; intros d; simpl.
  - rewrite app_nil_r. by destruct d.
  - unfold py_bind, make_request, set_rmsg, py_modify. rewrite IH. simpl.
    by rewrite <- app_assoc.
Qed.

Lemma flush_rmsg_serves henv resp todo d :
  answers henv resp →
  flush_rmsg henv todo d =
    (Returned tt,
     mkDev (_claimed d) (_cmsg d) (match todo with [] => _rmsg d | _ => [] end)
           (calls d ++ concat (map (request_calls resp) todo))).
Proof.
  intros Hok. revert d. induction todo as [|r rest IH]; intros d; simpl.
  - rewrite app_nil_r. by destruct d.
  - unfold set_rmsg, call. py_simpl. rewrite !Hok. simpl. rewrite IH. simpl.
    rewrite <- !app_assoc. simpl. by destruct rest.
Qed.

Lemma rev_eq_nil {A} (l : list A) : rev l = [] → l = [].
Proof.
  intros E. apply (f_equal (@rev _)) in E. by rewrite rev_involutive in E.
Qed.

(** X1. On a handle that answers every call, [flush] after a series of
    [make_request] calls writes the queued control messages oldest first and
    then serves the requests newest first: the request made last is written,
    read and answered before the ones made earlier. Each callback gets the
    bytes that the read at its index returned, and both queues are empty
    afterwards. *)
Theorem flush_serves_requests_newest_first
    (henv : HandleEnv) (resp : HandleCall → bytes) (d : USBDevice)
    (new : list (Z * callable * bytes * Z)) :
  answers henv resp →
  let d1 := snd (py_for new (λ '(index, callback, data, size),
                               make_request index callback data size) d) in
  flush henv d1 =
    (Returned tt,
     mkDev (_claimed d) [] []
       (calls d ++ map ControlWrite (rev (_cmsg d))
          ++ concat (map (request_calls resp)
                       (rev (map request_of new) ++ rev (_rmsg d))))).
Proof.
  intros Hok d1. subst d1. rewrite make_requests_eq. simpl.
  unfold flush. py_simpl.
  rewrite USBDeviceSpec.flush_cmsg_writes by (intros h m; eexists; apply Hok).
  simpl. rewrite (flush_rmsg_serves _ resp) by exact Hok. simpl.
  rewrite rev_app_distr, <- app_assoc. f_equal. f_equal.
  - destruct (rev (_cmsg d)) eqn:E; [by apply rev_eq_nil in E | done].
  - destruct (rev (map request_of new) ++ rev (_rmsg d)) eqn:E; [|done].
    apply app_eq_nil in E as [E1 E2]. apply rev_eq_nil in E1, E2.
    by rewrite E1, E2.
Qed.

Lemma flush_serves_requests_newest_first_witness :
  calls (snd (flush (λ _ _, Returned [])
     (snd (py_for [(1, "first", [Byte.x01], 64); (2, "second", [Byte.x02], 64)]
             (λ '(index, callback, data, size),
                make_request index callback data size) new_device))))
  = request_calls (λ _, []) (request_of (2, "second", [Byte.x02], 64))
    ++ request_calls (λ _, []) (request_of (1, "first", [Byte.x01], 64)).
Proof.
  exact (f_equal (λ p, calls (snd p))
           (flush_serves_requests_newest_first (λ _ _, Returned []) (λ _, [])
              new_device
              [(1, "first", [Byte.x01], 64); (2, "second", [Byte.x02], 64)]
              (λ _ _, eq_refl))).
Defined.

(** X2. A control message whose write fails is lost: [flush] has taken it out
    of [_cmsg] before the write, so the exception leaves the newer messages
    queued and the failed one is not written again by a later [flush]. The
    requests are not reached. *)
Theorem flush_drops_message_whose_write_failed
    (henv : HandleEnv) (d : USBDevice) (newer : list ControlMsg)
    (oldest : ControlMsg) (e : exn) :
  _cmsg d = newer ++ [oldest] →
  henv (calls d) (ControlWrite oldest) = Raised e →
  flush henv d =
    (Raised e,
     mkDev (_claimed d) newer (_rmsg d) (calls d ++ [ControlWrite oldest])).
Proof.
  intros Hq Hfail. unfold flush. py_simpl. rewrite Hq, rev_app_distr. simpl.
  unfold set_cmsg, call. py_simpl. rewrite Hfail. by rewrite rev_involutive.
Qed.

Lemma flush_drops_message_whose_write_failed_witness :
  let d := snd (send_control 2 [Byte.x02] (snd (send_control 1 [Byte.x01] new_device))) in
  let '(o, d') := flush (λ _ _, Raised USBErrorPipe) d in
  o = Raised USBErrorPipe
  ∧ _cmsg d' = [USBDeviceSpec.message 2 [Byte.x02]].
Proof.
  intros d.
  rewrite (flush_drops_message_whose_write_failed (λ _ _, Raised USBErrorPipe) d
             [USBDeviceSpec.message 2 [Byte.x02]]
             (USBDeviceSpec.message 1 [Byte.x01]) USBErrorPipe eq_refl eq_refl).
  split; reflexivity.
Defined.

(** The loop of [unclaim] on a handle whose device may be gone. *)
Lemma unclaim_loop henv (l : list Z) d :
  gone_or_ok henv →
  ∃ tail,
    py_for l (λ number,
      py_try
        (call henv (ReleaseInterface number);;
         call henv (AttachKernelDriver number);;
         mret tt)
        (λ e, match e with USBErrorNoDevice => true | _ => false end)
        (λ _, mret tt)) d
    = (Returned tt, mkDev (_claimed d) (_cmsg d) (_rmsg d) (calls d ++ tail))
    ∧ releases tail = l
    ∧ forallb is_release_or_attach tail = true.
Proof.
  intros Hok. revert d. induction l as [|n l IH]; intros d; simpl.
  - exists []. rewrite app_nil_r. by destruct d.
  - unfold call. py_simpl.
    destruct (Hok (calls d) (ReleaseInterface n)) as [[r ->]| ->]; simpl.
    + destruct (Hok (calls d ++ [ReleaseInterface n]) (AttachKernelDriver n))
        as [[r' ->]| ->]; simpl.
      all: match goal with
           | |- context [py_for ?xs ?body ?d'] =>
               destruct (IH d') as (tail & -> & Hrel & Hall)
           end; simpl.
      all: exists (ReleaseInterface n :: AttachKernelDriver n :: tail).
      all: rewrite <- !app_assoc; simpl; rewrite Hrel, Hall; done.
    + match goal with
      | |- context [py_for ?xs ?body ?d'] =>
          destruct (IH d') as (tail & -> & Hrel & Hall)
      end; simpl.
      exists (ReleaseInterface n :: tail).
      rewrite <- !app_assoc; simpl; rewrite Hrel, Hall; done.
Qed.

(** X3. [unclaim] on a device that may have been unplugged: it returns, it
    attempts to release every claimed interface exactly once, in the order
    of the claims, it calls nothing but [releaseInterface] and
    [attachKernelDriver], and it forgets all claims. *)
Theorem unclaim_releases_every_interface (henv : HandleEnv) (d : USBDevice) :
  gone_or_ok henv →
  ∃ tail,
    unclaim henv d = (Returned tt, mkDev [] (_cmsg d) (_rmsg d) (calls d ++ tail))
    ∧ releases tail = _claimed d
    ∧ forallb is_release_or_attach tail = true.
Proof.
  intros Hok. unfold unclaim. py_simpl.
  destruct (unclaim_loop henv (_claimed d) d Hok) as (tail & Hrun & Hrel & Hall).
  py_simpl. rewrite Hrun. exists tail. done.
Qed.

Lemma unclaim_releases_every_interface_witness :
  ∃ tail,
    unclaim (λ _ _, Raised USBErrorNoDevice) (mkDev [0; 2] [] [] [])
      = (Returned tt, mkDev [] [] [] tail)
    ∧ releases tail = [0; 2].
Proof.
  destruct (unclaim_releases_every_interface (λ _ _, Raised USBErrorNoDevice)
              (mkDev [0; 2] [] [] []) (λ _ _, or_intror eq_refl))
    as (tail & H1 & H2 & _).
  exists tail. split; [exact H1 | exact H2].
Defined.

(** The loop of [unclaim], whatever the handle does: it leaves the
    claims and the two message queues alone and calls nothing but
    [releaseInterface] and [attachKernelDriver]. *)
Lemma unclaim_loop_frame henv (l : list Z) d :
  ∃ o tail,
    py_for l (λ number,
      py_try
        (call henv (ReleaseInterface number);;
         call henv (AttachKernelDriver number);;
         mret tt)
        (λ e, match e with USBErrorNoDevice => true | _ => false end)
        (λ _, mret tt)) d
    = (o, mkDev (_claimed d) (_cmsg d) (_rmsg d) (calls d ++ tail))
    ∧ forallb is_release_or_attach tail = true.
Proof.
  revert d. induction l as [|n l IH]; intros d; simpl.
  - exists (Returned tt), []. rewrite app_nil_r. by destruct d.
  - unfold call. py_simpl.
    destruct (henv (calls d) (ReleaseInterface n)) as [r|e]; simpl.
    + destruct (henv _ (AttachKernelDriver n)) as [r'|e']; simpl.
      * match goal with
        | |- context [py_for ?xs ?body ?d'] =>
            destruct (IH d') as (o & tail & -> & Hall)
        end. simpl.
        exists o, (ReleaseInterface n :: AttachKernelDriver n :: tail).
        rewrite <- !app_assoc. by simpl.
      * destruct e'; simpl;
          try (eexists _, [ReleaseInterface n; AttachKernelDriver n];
               rewrite <- !app_assoc; by simpl).
        match goal with
        | |- context [py_for ?xs ?body ?d'] =>
            destruct (IH d') as (o & tail & -> & Hall)
        end. simpl.
        exists o, (ReleaseInterface n :: AttachKernelDriver n :: tail).
        rewrite <- !app_assoc. by simpl.
    + destruct e; simpl;
        try (eexists _, [ReleaseInterface n]; by simpl).
      match goal with
      | |- context [py_for ?xs ?body ?d'] =>
          destruct (IH d') as (o & tail & -> & Hall)
      end. simpl.
      exists o, (ReleaseInterface n :: tail).
      rewrite <- !app_assoc. by simpl.
Qed.

(** [unclaim], whatever the handle does. *)
Lemma unclaim_frame henv d :
  ∃ tail,
    _cmsg (snd (unclaim henv d)) = _cmsg d
    ∧ _rmsg (snd (unclaim henv d)) = _rmsg d
    ∧ calls (snd (unclaim henv d)) = calls d ++ tail
    ∧ forallb is_release_or_attach tail = true.
Proof.
  unfold unclaim. py_simpl.
  destruct (unclaim_loop_frame henv (_claimed d) d) as (o & tail & Hrun & Hall).
  py_simpl. rewrite Hrun. exists tail. destruct o as [[]|e]; done.
Qed.

(** [close] in closed form. *)
Lemma close_eq (henv : HandleEnv) (d : USBDevice) :
  let d1 := snd (unclaim henv d) in
  close henv d =
    (Returned tt,
     mkDev (_claimed d1) (_cmsg d) (_rmsg d)
       (calls d1 ++ ResetDevice ::
          match henv (calls d1) ResetDevice with
          | Returned _ => [CloseHandle]
          | Raised _ => []
          end)).
Proof.
  intros d1. subst d1. unfold close.
  destruct (unclaim_frame henv d) as (tail & Hc & Hr & _).
  unfold call. py_simpl.
  destruct (unclaim henv d) as [[[]|e] d1]; simpl in *; rewrite <- Hc, <- Hr.
  all: destruct (henv (calls d1) ResetDevice) as [r|e']; simpl;
    [destruct (henv _ CloseHandle); simpl; by rewrite <- app_assoc | done].
Qed.

(** X4. [close] never raises, whatever the handle does. It first runs
    [unclaim], whose calls are [releaseInterface] and [attachKernelDriver]
    and nothing else; then, whether or not [unclaim] got through, it resets
    the device exactly once, and it closes the handle exactly when the reset
    did not raise. The message queues are not touched, and the claims are
    as [unclaim] left them. *)
Theorem close_never_raises (henv : HandleEnv) (d : USBDevice) :
  ∃ released,
    calls (snd (unclaim henv d)) = calls d ++ released
    ∧ forallb is_release_or_attach released = true
    ∧ close henv d =
        (Returned tt,
         mkDev (_claimed (snd (unclaim henv d))) (_cmsg d) (_rmsg d)
           (calls d ++ released ++ ResetDevice ::
              match henv (calls d ++ released) ResetDevice with
              | Returned _ => [CloseHandle]
              | Raised _ => []
              end)).
Proof.
  destruct (unclaim_frame henv d) as (tail & _ & _ & Hcalls & Hall).
  exists tail. split; [exact Hcalls|]. split; [exact Hall|].
  rewrite close_eq. cbv zeta. rewrite Hcalls, <- app_assoc. done.
Qed.

(** Interfaces claimed one after the other on a handle that answers every
    call are released, each followed by [attachKernelDriver], in the order
    in which they were claimed when the device is closed; then the device
    is reset and the handle closed, and no claim is left. *)
Lemma close_releases_what_was_claimed
    (henv : HandleEnv) (resp : HandleCall → bytes) (d : USBDevice) (numbers : list Z) :
  answers henv resp →
  _claimed d = [] →
  let '(o1, d1) := py_for numbers (claim henv) d in
  o1 = Returned tt
  ∧ _claimed d1 = numbers
  ∧ close henv d1 =
      (Returned tt,
       mkDev [] (_cmsg d) (_rmsg d)
         (calls d ++ map ClaimInterface numbers
            ++ concat (map (λ n, [ReleaseInterface n; AttachKernelDriver n]) numbers)
            ++ [ResetDevice; CloseHandle])).
Proof.
  intros Hok Hnone.
  assert (∀ l d0, py_for l (claim henv) d0 =
            (Returned tt, mkDev (_claimed d0 ++ l) (_cmsg d0) (_rmsg d0)
                            (calls d0 ++ map ClaimInterface l))) as Hclaims.
  { induction l as [|n l IH]; intros d0; simpl.
    - rewrite !app_nil_r. by destruct d0.
    - assert (claim henv n d0 =
                (Returned tt, mkDev (_claimed d0 ++ [n]) (_cmsg d0) (_rmsg d0)
                                (calls d0 ++ [ClaimInterface n]))) as Hone.
      { unfold claim, call, set_claimed. py_simpl. by rewrite Hok. }
      unfold py_bind. rewrite Hone, IH. simpl. by rewrite <- !app_assoc. }
  rewrite Hclaims, Hnone. simpl. split; [done|]. split; [done|].
  rewrite close_eq.
  assert (∀ l d0, py_for l (λ number,
      py_try
        (call henv (ReleaseInterface number);;
         call henv (AttachKernelDriver number);;
         mret tt)
        (λ e, match e with USBErrorNoDevice => true | _ => false end)
        (λ _, mret tt)) d0
    = (Returned tt, mkDev (_claimed d0) (_cmsg d0) (_rmsg d0)
         (calls d0 ++ concat (map (λ n, [ReleaseInterface n; AttachKernelDriver n]) l))))
    as Hloop.
  { induction l as [|n l IH]; intros d0; simpl.
    - rewrite app_nil_r. by destruct d0.
    - unfold call. py_simpl. rewrite !Hok. simpl. rewrite IH. simpl.
      by rewrite <- !app_assoc. }
  unfold unclaim. py_simpl. rewrite Hloop. simpl. rewrite Hok.
  by rewrite <- !app_assoc.
Qed.

Lemma close_releases_what_was_claimed_witness :
  calls (snd (close (λ _ _, Returned [])
                (snd (py_for [0; 2] (claim (λ _ _, Returned [])) new_device))))
  = [ClaimInterface 0; ClaimInterface 2;
     ReleaseInterface 0; AttachKernelDriver 0;
     ReleaseInterface 2; AttachKernelDriver 2;
     ResetDevice; CloseHandle].
Proof.
  pose proof (close_releases_what_was_claimed (λ _ _, Returned []) (λ _, [])
                new_device [0; 2] (λ _ _, eq_refl) eq_refl) as H.
  destruct (py_for [0; 2] (claim (λ _ _, Returned [])) new_device) as [o1 d1].
  destruct H as (_ & _ & H). simpl. rewrite H. reflexivity.
Defined.

End USBDeviceLifecycle.


(** ** USB driver: arrival, removal, registration, shutdown *)
Module USBHotplugSpec.
Import USB USBHotplug.

Lemma dict_del_set {V} (k : nat) (v : V) (d : list (nat * V)) :
  dict_get k d = None → dict_del k (dict_set k v d) = d.
Proof.
  induction d as [|[k' v'] d IH]; simpl; intros Hfree.
  - by rewrite decide_True.
  - destruct (decide (k' = k)) as [->|Hne]; [done|]. simpl.
    rewrite decide_False by done. by rewrite IH.
Qed.

Lemma dict_get_set {V} (k : nat) (v : V) (d : list (nat * V)) :
  dict_get k (dict_set k v d) = Some v.
Proof.
  induction d as [|[k' v'] d IH]; simpl.
  - by rewrite decide_True.
  - destruct (decide (k' = k)) as [->|Hne]; simpl.
    + by rewrite decide_True.
    + by rewrite decide_False.
Qed.

(** What [handle_new_device] does to the two tables of devices. *)
Lemma handle_new_device_tables
    (env : Env) (syspath : string) (vendor product : Z) (d : USBDriver) :
  let o := fst (handle_new_device env syspath vendor product d) in
  let d1 := snd (handle_new_device env syspath vendor product d) in
  (_devices d1 = _devices d ∧ _syspaths d1 = _syspaths d)
  ∨ (∃ dev handled_device,
       o = Returned (Some true)
       ∧ _devices d1 = dict_set dev handled_device (_devices d)
       ∧ _syspaths d1 = <[syspath := dev]> (_syspaths d)
       ∧ last (trace d1) = Some (RemoveError vendor product)).
Proof.
  unfold handle_new_device, need_daemon, emit, set_retry_devices, set_devices,
    set_syspaths.
  py_simpl.
  repeat (py_case; py_simpl);
    first [ by left
          | right; do 2 eexists; rewrite ?last_snoc; by repeat split
          | congruence ].
Qed.



(** X6. What [handle_removed_device] does to a device that [handle_new_device]
    stored under a bus path that was free: it takes the device out of both
    tables again, which are then as they were before the arrival, closes the
    handled device and then the low-level device, and tolerates that the
    latter is already gone. *)
Theorem removal_undoes_arrival
    (env : Env) (lowlevel_close : list Event → nat → Outcome unit)
    (syspath : string) (vendor product : Z) (d : USBDriver) (dev : nat) :
  _syspaths d !! syspath = None →
  dict_get dev (_devices d) = None →
  let d1 := snd (handle_new_device env syspath vendor product d) in
  _syspaths d1 !! syspath = Some dev →
  (∀ history, lowlevel_close history dev = Returned tt
              ∨ lowlevel_close history dev = Raised USBErrorNoDevice) →
  ∃ handled_device,
    dict_get dev (_devices d1) = Some handled_device
    ∧ handle_removed_device env lowlevel_close syspath vendor product d1 =
        (Returned (Some (snd (close (handle_of env dev) handled_device))),
         mkDrv (daemon d1) (_known_ids d1) (_fail_cbs d1) (_devices d)
               (_syspaths d) (_retry_devices d1) (_retry_devices_timer d1)
               (_changed d1) (trace d1 ++ [DeviceClose dev])).
Proof.
  intros Hpath Hdev d1 Hstored Hclose.
  pose proof (handle_new_device_tables env syspath vendor product d)
    as Hstores.
  cbv zeta in Hstores. subst d1.
  set (d1 := snd (handle_new_device env syspath vendor product d)) in *.
  destruct Hstores as [[_ Hsame]|(dev' & hd & _ & Hds & Hsp & _)].
  { rewrite Hsame in Hstored. congruence. }
  assert (dev' = dev) as ->.
  { rewrite Hsp in Hstored. rewrite lookup_insert_eq in Hstored. congruence. }
  exists hd. split; [rewrite Hds; apply dict_get_set|].
  unfold handle_removed_device. py_simpl. rewrite Hstored, Hds, dict_get_set.
  unfold set_syspaths, set_devices, emit. py_simpl.
  rewrite USBDeviceLifecycle.close_eq. py_simpl.
  rewrite Hds, Hsp, dict_del_set by exact Hdev.
  rewrite delete_insert_id by exact Hpath.
  destruct (Hclose (trace d1)) as [-> | ->]; reflexivity.
Qed.

(** A driver callback that takes every device it is offered. *)
Definition accepting_usb : Env :=
  {| get_usb_address := λ _, Returned (1, 7);
     getDeviceIterator := λ _, [ {| dev_id := 0; getBusNumber := 1;
                                    getDeviceAddress := 7 |} ];
     device_open := λ _ _, Returned tt;
     driver_callback := λ _ _ _, Returned (Some new_device);
     fail_callback := λ _ _, Returned tt;
     handle_of := λ _ _ _, Returned [] |}.

Lemma removal_undoes_arrival_witness :
  let d1 := snd (handle_new_device accepting_usb "/sys/devices/usb1/1-2"
                   0x28de 0x1142 USBDriverSpec.fresh_driver) in
  let d2 := snd (handle_removed_device accepting_usb (λ _ _, Raised USBErrorNoDevice)
                   "/sys/devices/usb1/1-2" 0x28de 0x1142 d1) in
  _syspaths d1 !! "/sys/devices/usb1/1-2" = Some 0%nat
  ∧ _devices d2 = [] ∧ _syspaths d2 = ∅.
Proof.
  intros d1 d2.
  destruct (removal_undoes_arrival accepting_usb (λ _ _, Raised USBErrorNoDevice)
              "/sys/devices/usb1/1-2" 0x28de 0x1142 USBDriverSpec.fresh_driver 0%nat
              eq_refl eq_refl eq_refl (λ _, or_intror eq_refl))
    as (hd & _ & H).
  split; [reflexivity|]. unfold d2, d1. rewrite H. split; reflexivity.
Defined.

Lemma close_all_eq env ds :
  close_all env ds =
    (Returned tt, map (λ kd, (fst kd, snd (close (handle_of env (fst kd)) (snd kd)))) ds).
Proof.
  induction ds as [|[k d] ds IH]; [done|].
  pose proof (USBDeviceLifecycle.close_eq (handle_of env k) d) as Hc.
  cbv zeta in Hc. cbn [close_all map fst snd].
  destruct (close (handle_of env k) d) as [o d'].
  injection Hc as -> ->. by rewrite IH.
Qed.

(** X7. [on_exit] never raises. It closes every handled device, each of
    which is reset in the course of that, and the driver is left without
    devices and, if it had any, without bus paths; the retry queue and the
    registrations stay. *)
Theorem on_exit_releases_every_device (env : Env) (d : USBDriver) :
  let released :=
    map (λ kd, (fst kd, snd (close (handle_of env (fst kd)) (snd kd)))) (_devices d) in
  on_exit env d =
    (Returned released,
     mkDrv (daemon d) (_known_ids d) (_fail_cbs d) []
           (if bool_decide (_devices d ≠ []) then ∅ else _syspaths d)
           (_retry_devices d) (_retry_devices_timer d) (_changed d) (trace d))
  ∧ length released = length (_devices d)
  ∧ Forall (λ kd, ResetDevice ∈ calls (snd kd)) released.
Proof.
  intros released. subst released. split; [|split].
  - unfold on_exit, set_devices, set_syspaths. py_simpl.
    destruct (_devices d) as [|kd ds] eqn:E.
    + rewrite bool_decide_eq_false_2 by (intros H; by apply H).
      destruct d; simpl in *. by rewrite E.
    + rewrite bool_decide_eq_true_2 by done. rewrite close_all_eq. py_simpl.
      reflexivity.
  - by rewrite length_map.
  - apply Forall_map, Forall_forall. intros [k dev] _. simpl.
    rewrite USBDeviceLifecycle.close_eq. simpl.
    apply elem_of_app. right. apply elem_of_cons. by left.
Qed.

Lemma register_hotplug_device_eq callback vendor_id product_id on_failure
    (d : USBDriver) (mon : DeviceMonitor.t) :
  let d' := mkDrv (daemon d) (<[(vendor_id, product_id) := callback]> (_known_ids d))
              (match on_failure with
               | Some f => <[(vendor_id, product_id) := f]> (_fail_cbs d)
               | None => _fail_cbs d
               end)
              (_devices d) (_syspaths d) (_retry_devices d) (_retry_devices_timer d)
              (_changed d) (trace d) in
  register_hotplug_device callback vendor_id product_id on_failure (d, mon) =
    if daemon d then
      (fst (DeviceMonitor.add_callback "usb" (Some vendor_id) (Some product_id)
              "handle_new_device" (Some "handle_removed_device") mon),
       (d', snd (DeviceMonitor.add_callback "usb" (Some vendor_id) (Some product_id)
                   "handle_new_device" (Some "handle_removed_device") mon)))
    else (Raised AttributeError, (d', mon)).
Proof.
  intros d'. subst d'.
  unfold register_hotplug_device, on_driver, on_monitor, set_known_ids, set_fail_cbs,
    need_daemon.
  destruct on_failure as [f|]; py_simpl; destruct (daemon d); py_simpl;
    try reflexivity;
    destruct (DeviceMonitor.add_callback _ _ _ _ _ mon) as [o m']; reflexivity.
Qed.

Lemma unregister_keeps_rest callback vendor_id product_id d :
  fst (unregister_hotplug_device callback vendor_id product_id d) = Returned tt
  ∧ daemon (snd (unregister_hotplug_device callback vendor_id product_id d)) = daemon d.
Proof.
  unfold unregister_hotplug_device, set_known_ids, set_fail_cbs. py_simpl.
  repeat (py_case; py_simpl); done.
Qed.

(** X8. Registration reaches the monitor once per pair of ids, and
    unregistering does not take it back: after a first
    [register_hotplug_device] that returned, and whatever has been
    unregistered since, a second registration of the same ids raises
    [AssertionError] out of [DeviceMonitor.add_callback]. By then the driver
    has already recorded the new callback (and the new [on_failure], if one
    was given), while the monitor still holds the first registration with
    the driver's two methods. *)
Theorem second_registration_raises_after_recording
    (cb1 cb cb2 : callable) (vendor_id product_id : Z)
    (f1 f2 : option callable) (w : World) :
  let r1 := register_hotplug_device cb1 vendor_id product_id f1 w in
  fst r1 = Returned tt →
  let d2 := snd (unregister_hotplug_device cb vendor_id product_id (fst (snd r1))) in
  let r3 := register_hotplug_device cb2 vendor_id product_id f2 (d2, snd (snd r1)) in
  fst r3 = Raised AssertionError
  ∧ snd (snd r3) = snd (snd r1)
  ∧ DeviceMonitorSpec.registered (snd (snd r3)) "usb" (Some vendor_id) (Some product_id)
      "handle_new_device"
  ∧ DeviceMonitorSpec.removal_cb (snd (snd r3)) "usb" (Some vendor_id) (Some product_id)
      = Some "handle_removed_device"
  ∧ _known_ids (fst (snd r3)) !! (vendor_id, product_id) = Some cb2
  ∧ (∀ f, f2 = Some f → _fail_cbs (fst (snd r3)) !! (vendor_id, product_id) = Some f).
Proof.
  destruct w as [d mon]. intros r1 Hfirst d2 r3. subst r3 d2 r1.
  rewrite (register_hotplug_device_eq cb1 _ _ f1 d mon) in *.
  destruct (daemon d) eqn:Hdaemon; [|discriminate]. simpl in *.
  destruct (DeviceMonitor.add_callback "usb" (Some vendor_id) (Some product_id)
              "handle_new_device" (Some "handle_removed_device") mon)
    as [o1 mon1] eqn:Hadd.
  simpl in Hfirst. subst o1.
  pose proof (DeviceMonitorSpec.add_callback_returns _ _ _ _ _ _ _ Hadd) as Hfree.
  rewrite (DeviceMonitorSpec.add_callback_fresh _ _ _ _ _ _ Hfree) in Hadd.
  injection Hadd as <-. simpl.
  rewrite (register_hotplug_device_eq cb2).
  destruct (unregister_keeps_rest cb vendor_id product_id
              (mkDrv true (<[(vendor_id, product_id) := cb1]> (_known_ids d))
                 (match f1 with
                  | Some f => <[(vendor_id, product_id) := f]> (_fail_cbs d)
                  | None => _fail_cbs d
                  end)
                 (_devices d) (_syspaths d) (_retry_devices d)
                 (_retry_devices_timer d) (_changed d) (trace d))) as [_ ->].
  simpl.
  rewrite (DeviceMonitorSpec.add_callback_taken _ _ _ _ "handle_new_device")
    by apply lookup_insert_eq.
  simpl. split; [done|]. split; [done|].
  split; [apply lookup_insert_eq|].
  split; [unfold DeviceMonitorSpec.removal_cb; simpl; by rewrite lookup_insert_eq|].
  split; [apply lookup_insert_eq|].
  intros f ->. apply lookup_insert_eq.
Qed.

Lemma second_registration_raises_after_recording_witness :
  let w1 := snd (register_hotplug_device "sc_dongle" 0x28de 0x1142 None
                   (mkDrv true ∅ ∅ [] ∅ [] 0%Q 0 [], DeviceMonitor.init)) in
  let d2 := snd (unregister_hotplug_device "sc_dongle" 0x28de 0x1142 (fst w1)) in
  let r3 := register_hotplug_device "sc_by_cable" 0x28de 0x1142 None (d2, snd w1) in
  _known_ids d2 !! (0x28de, 0x1142) = None
  ∧ fst r3 = Raised AssertionError
  ∧ _known_ids (fst (snd r3)) !! (0x28de, 0x1142) = Some "sc_by_cable".
Proof.
  intros w1 d2 r3.
  pose proof (second_registration_raises_after_recording
                "sc_dongle" "sc_dongle" "sc_by_cable" 0x28de 0x1142 None None
                (mkDrv true ∅ ∅ [] ∅ [] 0%Q 0 [], DeviceMonitor.init) eq_refl) as H.
  cbv zeta in H. destruct H as (H1 & _ & _ & _ & H5 & _).
  split; [reflexivity|]. split; [exact H1 | exact H5].
Defined.

(** X9. The flush loop of [mainloop] at a device whose [flush] raises
    [USBErrorPipe]: the devices before it have been flushed, this one is
    closed, and the loop ends there without an exception, so that the
    devices after it are not flushed in this pass. The closed device is not
    taken out of [_devices]. *)
Theorem flush_loop_stops_at_pipe_error
    (env : Env) (before after : list (nat * USBDevice)) (k : nat) (d : USBDevice) :
  Forall (λ kd, fst (flush (handle_of env (fst kd)) (snd kd)) = Returned tt) before →
  fst (flush (handle_of env k) d) = Raised USBErrorPipe →
  flush_devices env (before ++ (k, d) :: after) =
    (Returned tt,
     map (λ kd, (fst kd, snd (flush (handle_of env (fst kd)) (snd kd)))) before
       ++ (k, snd (close (handle_of env k) (snd (flush (handle_of env k) d)))) :: after).
Proof.
  intros Hbefore Hpipe. induction Hbefore as [|[k' d'] before Hok _ IH]; simpl.
  - destruct (flush (handle_of env k) d) as [o dd]. simpl in Hpipe. subst o.
    pose proof (USBDeviceLifecycle.close_eq (handle_of env k) dd) as Hc.
    cbv zeta in Hc. cbn [fst snd].
    destruct (close (handle_of env k) dd) as [o d'].
    by injection Hc as -> ->.
  - simpl in Hok. destruct (flush (handle_of env k') d') as [o dd]. simpl in *.
    subst o. by rewrite IH.
Qed.

(** A low-level device 0 that was unplugged: every call on its handle
    raises [USBErrorPipe]; the handles of the other devices work. *)
Definition unplugged_usb : Env :=
  {| get_usb_address := λ _, Returned (1, 7);
     getDeviceIterator := λ _, [];
     device_open := λ _ _, Returned tt;
     driver_callback := λ _ _ _, Returned None;
     fail_callback := λ _ _, Returned tt;
     handle_of := λ k _ _, match k with O => Raised USBErrorPipe | _ => Returned [] end |}.

Lemma flush_loop_stops_at_pipe_error_witness :
  let queued := snd (send_control 1 [Byte.x01] new_device) in
  let '(o, ds) := flush_devices unplugged_usb
                    [(1%nat, queued); (0%nat, queued); (2%nat, queued)] in
  o = Returned tt
  ∧ map (λ kd, length (_cmsg (snd kd))) ds = [0; 0; 1]%nat.
Proof.
  intros queued.
  pose proof (flush_loop_stops_at_pipe_error unplugged_usb [(1%nat, queued)]
                [(2%nat, queued)] 0%nat queued
                ltac:(repeat constructor) eq_refl) as H.
  cbn [app] in H. rewrite H. split; reflexivity.
Defined.

(** An element of the retry queue that the replay loop can unpack. *)
Definition is_entry (x : RetryEntry) : bool :=
  match x with Entry _ _ => true | Bare _ => false end.

Lemma attempts_are_entries tr : forallb is_entry (USBDriverSpec.attempts tr) = true.
Proof.
  induction tr as [|ev tr IH]; [done|].
  unfold USBDriverSpec.attempts in *. by destruct ev.
Qed.

(** A run of unpackable elements at the head of a queue that ends in a
    bare pair of ids lies before that pair. *)
Lemma entries_before_bare (l old : list RetryEntry) tp :
  forallb is_entry l = true → l `prefix_of` old ++ [Bare tp] → l `prefix_of` old.
Proof.
  revert old. induction l as [|x l IH]; intros old Hall Hpre; [apply prefix_nil|].
  simpl in Hall. apply andb_prop in Hall as [Hx Hl].
  destruct Hpre as [rest Hrest]. destruct old as [|y old]; simpl in Hrest.
  - injection Hrest as <- _. discriminate.
  - injection Hrest as <- Hrest. apply prefix_cons, IH; [exact Hl|]. by exists rest.
Qed.

(** The replay loop puts back nothing but what [handle_new_device]
    queues. *)
Lemma replay_requeues_entries env lst d :
  forallb is_entry (_retry_devices d) = true →
  forallb is_entry
    (_retry_devices (snd (py_for lst (USBDriverSpec.replay_entry env) d))) = true.
Proof.
  revert d. induction lst as [|[syspath [vendor product]|tp] lst IH]; intros d Hd;
    simpl; [done| |done].
  pose proof (USBDriverSpec.handle_new_device_effects env syspath vendor product d)
    as Heff.
  unfold py_bind at 1. py_simpl.
  destruct (handle_new_device env syspath vendor product d) as [[o|e] d1];
    simpl in Heff; destruct Heff as (_ & _ & Hq).
  - py_simpl. apply IH. destruct Hq as [-> | ->]; [done|].
    by rewrite forallb_app, Hd.
  - simpl. destruct Hq as [-> | ->]; [done|]. by rewrite forallb_app, Hd.
Qed.

(** A pass of [mainloop] that replays: the loop over the queue starts
    from an empty queue, and nothing before it calls
    [handle_new_device]. *)
Lemma mainloop_replay_eq env t_check t_set d :
  USBDriverSpec.flush_ok env d = true →
  _retry_devices d ≠ [] →
  (_retry_devices_timer d < t_check)%Q →
  ∃ d0 before,
    _retry_devices d0 = []
    ∧ trace d0 = trace d ++ before
    ∧ USBDriverSpec.attempts before = []
    ∧ mainloop env t_check t_set d
      = py_for (_retry_devices d) (USBDriverSpec.replay_entry env) d0.
Proof.
  intros Hflush Hqueue Htimer. unfold USBDriverSpec.flush_ok in Hflush.
  unfold mainloop.
  unfold emit, set_changed, set_devices, set_retry_devices, set_retry_devices_timer.
  py_simpl.
  destruct (flush_devices env (_devices d)) as [[[]|e] ds] eqn:Hfl; [|discriminate].
  destruct (bool_decide (_changed d > 0)); py_simpl; rewrite Hfl; py_simpl.
  all: rewrite bool_decide_eq_true_2 by done; py_simpl.
  all: destruct (Qlt_le_dec (_retry_devices_timer d) t_check); [|lra]; py_simpl.
  all: eexists _, _; split; [|split; [|split; [|reflexivity]]];
    [reflexivity | cbn [trace]; rewrite <- ?app_assoc; reflexivity | reflexivity].
Qed.

Lemma force_restart_eq env k vendor product d :
  ∃ ds,
    force_restart env k vendor product d
    = (Returned tt,
       mkDrv (daemon d) (_known_ids d) (_fail_cbs d) ds (_syspaths d)
             (_retry_devices d ++ [Bare (vendor, product)]) (_retry_devices_timer d)
             (_changed d) (trace d))
    ∧ ds = match dict_get k (_devices d) with
           | Some dev => dict_set k (snd (close (handle_of env k) dev)) (_devices d)
           | None => _devices d
           end.
Proof.
  unfold force_restart, set_devices, set_retry_devices. py_simpl.
  destruct (dict_get k (_devices d)) as [dev|]; py_simpl.
  - pose proof (USBDeviceLifecycle.close_eq (handle_of env k) dev) as Hc.
    cbv zeta in Hc. destruct (close (handle_of env k) dev) as [o closed].
    injection Hc as -> _. py_simpl. by eexists.
  - eexists. split; [|reflexivity]. by destruct d.
Qed.

(** X10. [force_restart] closes the device and queues the bare pair of its
    ids, which the replay loop of [mainloop] cannot unpack. The next pass
    that replays the queue therefore does not return: it calls
    [handle_new_device] for entries that were queued before the restart, at
    most, and then raises, with [TypeError] when nothing else was queued.
    For the restarted device [handle_new_device] is not called, and since the
    pass has emptied the queue, what is queued afterwards was put there by
    [handle_new_device]: the pair of ids is gone, and the device, which
    stays closed in [_devices], is not opened again by a later pass
    either. *)
Theorem restarted_device_is_never_retried
    (env : Env) (k : nat) (vendor product : Z) (d : USBDriver) (t_check t_set : Q) :
  let d1 := snd (force_restart env k vendor product d) in
  USBDriverSpec.flush_ok env d1 = true →
  (_retry_devices_timer d < t_check)%Q →
  let '(r, d2) := mainloop env t_check t_set d1 in
  fst (force_restart env k vendor product d) = Returned tt
  ∧ _retry_devices d1 = _retry_devices d ++ [Bare (vendor, product)]
  ∧ _devices d1 = match dict_get k (_devices d) with
                  | Some dev => dict_set k (snd (close (handle_of env k) dev)) (_devices d)
                  | None => _devices d
                  end
  ∧ r ≠ Returned tt
  ∧ (_retry_devices d = [] → r = Raised (OtherException "TypeError"))
  ∧ USBDriverSpec.attempts (USBDriverSpec.new_events d1 d2) `prefix_of` _retry_devices d
  ∧ forallb is_entry (_retry_devices d2) = true.
Proof.
  intros d1. subst d1.
  destruct (force_restart_eq env k vendor product d) as (ds & -> & Hds).
  cbn [fst snd]. set (d1 := mkDrv _ _ _ _ _ _ _ _ _).
  intros Hflush Htimer.
  destruct (mainloop_replay_eq env t_check t_set d1 Hflush)
    as (d0 & before & Hq0 & Htr0 & Hat0 & Hrun).
  { cbn [_retry_devices d1]. by destruct (_retry_devices d). }
  { exact Htimer. }
  rewrite Hrun. cbn [_retry_devices d1].
  pose proof (USBDriverSpec.batch_effects env
                (_retry_devices d ++ [Bare (vendor, product)]) d0) as Hb.
  pose proof (replay_requeues_entries env
                (_retry_devices d ++ [Bare (vendor, product)]) d0) as Hback.
  rewrite Hq0 in Hback. specialize (Hback eq_refl).
  assert (_retry_devices d = [] →
          fst (py_for (_retry_devices d ++ [Bare (vendor, product)])
                 (USBDriverSpec.replay_entry env) d0)
          = Raised (OtherException "TypeError")) as Hempty.
  { intros ->. reflexivity. }
  destruct (py_for (_retry_devices d ++ [Bare (vendor, product)])
              (USBDriverSpec.replay_entry env) d0) as [r d2].
  destruct Hb as (_ & tail & Htr & Hpre & Hall). cbn [fst snd] in *.
  assert (USBDriverSpec.attempts (USBDriverSpec.new_events d1 d2)
          = USBDriverSpec.attempts tail) as Hnew.
  { rewrite (USBDriverSpec.new_events_app d1 (before ++ tail) d2).
    - by rewrite USBDriverSpec.attempts_app, Hat0.
    - rewrite Htr, Htr0. by rewrite app_assoc. }
  split; [done|]. split; [done|]. split; [exact Hds|]. split; [|split; [|split]].
  - intros Hr. specialize (Hall Hr).
    pose proof (attempts_are_entries tail) as He. rewrite Hall in He.
    rewrite forallb_app in He. simpl in He. by rewrite andb_false_r in He.
  - exact Hempty.
  - rewrite Hnew. apply (entries_before_bare _ _ (vendor, product)); [|exact Hpre].
    apply attempts_are_entries.
  - exact Hback.
Qed.

Lemma restarted_device_is_never_retried_witness :
  let held := snd (handle_new_device accepting_usb "/sys/devices/usb1/1-2"
                     0x28de 0x1142 USBDriverSpec.fresh_driver) in
  let d1 := snd (force_restart accepting_usb 0 0x28de 0x1142 held) in
  let '(r, d2) := mainloop accepting_usb 10 10 d1 in
  _retry_devices d1 = [Bare (0x28de, 0x1142)]
  ∧ r = Raised (OtherException "TypeError")
  ∧ USBDriverSpec.attempts (USBDriverSpec.new_events d1 d2) = [].
Proof.
  intros held d1.
  pose proof (restarted_device_is_never_retried accepting_usb 0 0x28de 0x1142 held
                10 10 eq_refl ltac:(reflexivity)) as H.
  cbv zeta in H. fold d1 in H.
  destruct (mainloop accepting_usb 10 10 d1) as [r d2].
  destruct H as (_ & H2 & _ & _ & H5 & H6 & _).
  split; [exact H2|]. split; [exact (H5 eq_refl)|].
  apply prefix_nil_inv. exact H6.
Defined.

End USBHotplugSpec.


(** ** Device monitor: the life of a device between arrival and removal *)
Module DeviceMonitorEventsSpec.
Import DeviceMonitor DeviceMonitorEvents.

(** The monitor with another [known_devs]. *)
Definition with_known (s : t) (k : gmap string KnownDev) : t :=
  mk (DeviceMonitor.mk (dev_added_cbs (monitor s)) (dev_removed_cbs (monitor s)) k
        (trace (monitor s)))
     (calls s).

Definition is_arrival (ev : DeviceEvent) : Prop :=
  action ev = "bind" ∨ action ev = "add".

Definition is_removal (ev : DeviceEvent) : Prop :=
  action ev = "remove" ∨ action ev = "unbind".

Lemma known_true (s : t) (path : string) (e : KnownDev) :
  known_devs (monitor s) !! path = Some e →
  bool_decide (is_Some (known_devs (monitor s) !! path)) = true.
Proof. intros H. apply bool_decide_eq_true_2. by rewrite H. Qed.

Lemma known_false (s : t) (path : string) :
  known_devs (monitor s) !! path = None →
  bool_decide (is_Some (known_devs (monitor s) !! path)) = false.
Proof.
  intros H. apply bool_decide_eq_false_2. rewrite H. by intros [? ?].
Qed.

(** An arrival event for a path that is known does nothing. *)
Lemma arrival_of_known_is_ignored env ev s :
  is_arrival ev →
  is_Some (known_devs (monitor s) !! syspath ev) →
  on_data_ready env (Some ev) s = (Returned tt, s).
Proof.
  intros Harr [e Hknown]. unfold on_data_ready. py_simpl.
  rewrite (known_true _ _ _ Hknown). simpl.
  destruct ev as [act ini sub path]; unfold is_arrival, is_removal in *; simpl in *.
  destruct Harr as [-> | ->]; destruct ini; simpl;
    repeat (py_case; py_simpl); done.
Qed.

(** A removal event for a known path, in closed form. *)
Lemma on_data_ready_removal env ev s vendor product cb :
  is_removal ev →
  known_devs (monitor s) !! syspath ev = Some (vendor, product, cb) →
  on_data_ready env (Some ev) s =
    match cb with
    | Some cb =>
        (call_removal env (calls s) cb (syspath ev) vendor product,
         mk (monitor (with_known s (delete (syspath ev) (known_devs (monitor s)))))
            (calls s ++ [RemovalCalled cb (syspath ev) vendor product]))
    | None =>
        (Returned tt, with_known s (delete (syspath ev) (known_devs (monitor s))))
    end.
Proof.
  intros Hrem Hknown. unfold on_data_ready. py_simpl.
  rewrite (known_true _ _ _ Hknown), Hknown. simpl.
  destruct ev as [act ini sub path]; unfold is_arrival, is_removal in *; simpl in *.
  unfold on_monitor, set_known_devs, call, with_known.
  destruct Hrem as [-> | ->]; destruct ini; simpl; py_simpl;
    destruct cb as [cb|]; py_simpl; try reflexivity;
    destruct (call_removal env (calls s) cb path vendor product) as [[]|e];
    reflexivity.
Qed.

(** X11. The monitor ignores: an arrival event for a path it knows, an
    arrival event that is not initialized, an "add" event for a subsystem
    other than "input" and "bluetooth", a removal event for a path it does
    not know, an event with any other action, and no event at all. None of
    them changes the monitor or calls anything. *)
Theorem ignored_events_change_nothing (env : Env) (ev : DeviceEvent) (s : t) :
  (is_arrival ev ∧ is_Some (known_devs (monitor s) !! syspath ev))
  ∨ (is_arrival ev ∧ initialized ev = false)
  ∨ (action ev = "add" ∧ subsystem ev ≠ "input" ∧ subsystem ev ≠ "bluetooth")
  ∨ (is_removal ev ∧ known_devs (monitor s) !! syspath ev = None)
  ∨ (¬ is_arrival ev ∧ ¬ is_removal ev) →
  on_data_ready env (Some ev) s = (Returned tt, s)
  ∧ on_data_ready env None s = (Returned tt, s).
Proof.
  intros Hcase. split; [|reflexivity].
  destruct Hcase as [[Harr Hknown]|[[Harr Hini]|[(Hadd & Hin & Hbt)|[[Hrem Hun]|[Hna Hnr]]]]].
  - by apply arrival_of_known_is_ignored.
  - unfold on_data_ready. py_simpl. rewrite Hini.
    destruct ev as [act ini sub path]; unfold is_arrival, is_removal in *; simpl in *.
    destruct Harr as [-> | ->]; simpl; reflexivity.
  - unfold on_data_ready. py_simpl. rewrite Hadd.
    rewrite (bool_decide_eq_false_2 (subsystem ev = "input")) by done.
    rewrite (bool_decide_eq_false_2 (subsystem ev = "bluetooth")) by done.
    simpl. by rewrite andb_false_r.
  - unfold on_data_ready. py_simpl. rewrite (known_false _ _ Hun), andb_false_r.
    destruct ev as [act ini sub path]; unfold is_arrival, is_removal in *; simpl in *.
    destruct Hrem as [-> | ->]; simpl; reflexivity.
  - unfold on_data_ready, is_arrival, is_removal in *. py_simpl.
    rewrite (bool_decide_eq_false_2 (action ev = "bind")) by tauto.
    rewrite (bool_decide_eq_false_2 (action ev = "add")) by tauto.
    rewrite (bool_decide_eq_false_2 (action ev = "remove")) by tauto.
    rewrite (bool_decide_eq_false_2 (action ev = "unbind")) by tauto.
    reflexivity.
Qed.

(** A world in which sysfs reports the ids 28de:1142, the USB driver
    turns the device down, and removal callbacks fail. *)
Definition sample_env : Env :=
  {| base := DeviceMonitorSpec.rejecting_env;
     get_hci_addresses := λ _, Returned tt;
     call_removal := λ _ _ _ _ _, Raised KeyError;
     enumerate := ["/sys/devices/usb1/1-2"];
     get_subsystem := λ _, Returned "usb" |}.

Lemma ignored_events_change_nothing_witness :
  let s := mk (DeviceMonitor.mk ∅ ∅ {[ "/sys/devices/usb1/1-2" := (None, None, None) ]} [])
              [] in
  on_data_ready sample_env
    (Some {| action := "bind"; initialized := true; subsystem := "usb";
             syspath := "/sys/devices/usb1/1-2" |}) s
  = (Returned tt, s).
Proof.
  intros s.
  refine (proj1 (ignored_events_change_nothing sample_env
           {| action := "bind"; initialized := true; subsystem := "usb";
              syspath := "/sys/devices/usb1/1-2" |} s _)).
  left. split; [by left|]. by eexists.
Defined.

(** X12. A removal event ("remove" or "unbind", initialized or not) for a
    path that the monitor knows: the path is forgotten first, then the
    stored removal callback, if there is one, is called with the path and
    the ids that were stored at the arrival. What the callback raises leaves
    [on_data_ready], and the path stays forgotten. The callback tables are
    not touched. *)
Theorem removal_event_forgets_then_calls_back
    (env : Env) (ev : DeviceEvent) (s : t)
    (vendor product : option Z) (cb : option callable) :
  is_removal ev →
  known_devs (monitor s) !! syspath ev = Some (vendor, product, cb) →
  let '(o, s') := on_data_ready env (Some ev) s in
  known_devs (monitor s') = delete (syspath ev) (known_devs (monitor s))
  ∧ dev_added_cbs (monitor s') = dev_added_cbs (monitor s)
  ∧ dev_removed_cbs (monitor s') = dev_removed_cbs (monitor s)
  ∧ trace (monitor s') = trace (monitor s)
  ∧ match cb with
    | Some cb =>
        o = call_removal env (calls s) cb (syspath ev) vendor product
        ∧ calls s' = calls s ++ [RemovalCalled cb (syspath ev) vendor product]
    | None => o = Returned tt ∧ calls s' = calls s
    end.
Proof.
  intros Hrem Hknown.
  rewrite (on_data_ready_removal env ev s vendor product cb Hrem Hknown).
  destruct cb as [cb|]; simpl; done.
Qed.

Lemma removal_event_forgets_then_calls_back_witness :
  let s := mk (DeviceMonitor.mk ∅ ∅
                 {[ "/sys/devices/usb1/1-2" :=
                      (Some 0x28de, Some 0x1142, Some "handle_removed_device") ]} [])
              [] in
  let '(o, s') :=
    on_data_ready sample_env
      (Some {| action := "remove"; initialized := false; subsystem := "usb";
               syspath := "/sys/devices/usb1/1-2" |}) s in
  o = Raised KeyError
  ∧ calls s' = [RemovalCalled "handle_removed_device" "/sys/devices/usb1/1-2"
                  (Some 0x28de) (Some 0x1142)].
Proof.
  intros s.
  pose proof (removal_event_forgets_then_calls_back sample_env
    {| action := "remove"; initialized := false; subsystem := "usb";
       syspath := "/sys/devices/usb1/1-2" |} s
    (Some 0x28de) (Some 0x1142) (Some "handle_removed_device")
    (or_introl eq_refl) eq_refl) as H.
  destruct (on_data_ready _ _ s) as [o s'].
  destruct H as (_ & _ & _ & _ & H1 & H2). split; [exact H1 | exact H2].
Defined.

#[local] Arguments on_data_ready : simpl never.

(** An event that hands a path to [_on_new_syspath] without further ado:
    an initialized "bind", or an initialized "add" in the "input"
    subsystem. *)
Definition delivers (ev : DeviceEvent) : Prop :=
  initialized ev = true
  ∧ (action ev = "bind" ∨ (action ev = "add" ∧ subsystem ev = "input")).

Lemma on_data_ready_delivers env ev s :
  delivers ev →
  known_devs (monitor s) !! syspath ev = None →
  on_data_ready env (Some ev) s =
    on_monitor (_on_new_syspath (base env) (subsystem ev) (syspath ev)) s.
Proof.
  intros [Hini Hact] Hun. unfold on_data_ready. py_simpl.
  rewrite (known_false _ _ Hun), Hini.
  destruct ev as [act ini sub path]; simpl in *.
  destruct Hact as [-> | [-> ->]]; simpl; [reflexivity|].
  destruct (on_monitor _ s) as [[[]|e] s']; reflexivity.
Qed.

(** The arrival callbacks that a trace records, with the path each was
    called for. *)
Definition arrivals (tr : list Event) : list (callable * string) :=
  omap (λ e, match e with
             | ArrivalCalled cb path _ _ _ => Some (cb, path)
             | _ => None
             end) tr.

Lemma arrivals_app tr1 tr2 : arrivals (tr1 ++ tr2) = arrivals tr1 ++ arrivals tr2.
Proof. unfold arrivals. apply omap_app. Qed.

Lemma arrivals_called cb path vendor product registered tr :
  arrivals (ArrivalCalled cb path vendor product registered :: tr)
  = (cb, path) :: arrivals tr.
Proof. reflexivity. Qed.

Lemma insert_then_delete (k : gmap string KnownDev) (path : string) (e : KnownDev) :
  k !! path = None → delete path (<[path := e]> k) = k.
Proof. intros H. by apply delete_insert_id. Qed.

(** X13. The life of a device that the arrival callback took (it returned
    [True] or [False]): the path is known from then on, every further
    arrival event for it is ignored, and a removal event restores
    [known_devs] to what it was before the arrival and calls the removal
    callback registered for the device's key, if any, with the same path
    and ids that the arrival callback got. *)
Theorem accepted_device_lifecycle
    (env env' : Env) (ev : DeviceEvent) (s : t)
    (vendor product : option Z) (cb : callable) (b : bool) :
  delivers ev →
  known_devs (monitor s) !! syspath ev = None →
  read_ids (base env) (subsystem ev) (syspath ev) = Returned (vendor, product) →
  DeviceMonitorSpec.registered (monitor s) (subsystem ev) vendor product cb →
  let e := DeviceMonitorSpec.entry (monitor s) (subsystem ev) vendor product in
  call_arrival (base env) cb (<[syspath ev := e]> (known_devs (monitor s)))
    (syspath ev) vendor product = Returned (Some b) →
  let s1 := snd (on_data_ready env (Some ev) s) in
  known_devs (monitor s1) !! syspath ev = Some e
  ∧ arrivals (trace (monitor s1)) = arrivals (trace (monitor s)) ++ [(cb, syspath ev)]
  ∧ (∀ again, syspath again = syspath ev → is_arrival again →
       on_data_ready env' (Some again) s1 = (Returned tt, s1))
  ∧ (∀ gone, syspath gone = syspath ev → is_removal gone →
       let s2 := snd (on_data_ready env' (Some gone) s1) in
       known_devs (monitor s2) = known_devs (monitor s)
       ∧ calls s2 = calls s ++
           match DeviceMonitorSpec.removal_cb (monitor s) (subsystem ev) vendor product with
           | Some rcb => [RemovalCalled rcb (syspath ev) vendor product]
           | None => []
           end).
Proof.
  intros Hdel Hun Hids Hreg e Hres s1. subst s1.
  rewrite (on_data_ready_delivers env ev s Hdel Hun). unfold on_monitor.
  rewrite (DeviceMonitorSpec.on_new_syspath_accepted (base env) (monitor s)
             (subsystem ev) (syspath ev) vendor product cb Hids Hreg).
  cbv zeta. fold e. rewrite Hres. simpl.
  assert (Hknown : (<[syspath ev := e]> (known_devs (monitor s)) : gmap string KnownDev)
                   !! syspath ev = Some e) by apply lookup_insert_eq.
  split; [exact Hknown|]. split.
  { unfold arrivals. by rewrite omap_app. }
  split.
  - intros again Hpath Harr. apply arrival_of_known_is_ignored; [exact Harr|].
    rewrite Hpath. simpl. by rewrite Hknown.
  - intros gone Hpath Hrem. cbv zeta.
    rewrite (on_data_ready_removal env' gone _ vendor product
               (DeviceMonitorSpec.removal_cb (monitor s) (subsystem ev) vendor product)
               Hrem)
      by (simpl; rewrite Hpath; exact Hknown).
    rewrite Hpath. simpl.
    destruct (DeviceMonitorSpec.removal_cb (monitor s) (subsystem ev) vendor product);
      simpl; rewrite insert_then_delete by exact Hun; rewrite ?app_nil_r; done.
Qed.

(** A monitor on which the USB driver registered the ids 28de:1142. *)
Definition sample_state : t := mk DeviceMonitorSpec.sample_monitor [].

Definition plugged_in : DeviceEvent :=
  {| action := "bind"; initialized := true; subsystem := "usb";
     syspath := "/sys/devices/usb1/1-2" |}.

Definition unplugged : DeviceEvent :=
  {| action := "remove"; initialized := true; subsystem := "usb";
     syspath := "/sys/devices/usb1/1-2" |}.

Lemma accepted_device_lifecycle_witness :
  let s1 := snd (on_data_ready sample_env (Some plugged_in) sample_state) in
  let s2 := snd (on_data_ready sample_env (Some unplugged) s1) in
  on_data_ready sample_env (Some plugged_in) s1 = (Returned tt, s1)
  ∧ known_devs (monitor s2) = ∅
  ∧ calls s2 = [RemovalCalled "handle_removed_device" "/sys/devices/usb1/1-2"
                  (Some 0x28de) (Some 0x1142)].
Proof.
  intros s1 s2.
  pose proof (accepted_device_lifecycle sample_env sample_env plugged_in sample_state
                (Some 0x28de) (Some 0x1142) "handle_new_device" false
                (conj eq_refl (or_introl eq_refl)) eq_refl eq_refl eq_refl eq_refl)
    as H.
  cbv zeta in H. destruct H as (_ & _ & Hagain & Hgone).
  split; [exact (Hagain plugged_in eq_refl (or_introl eq_refl))|].
  exact (Hgone unplugged eq_refl (or_introl eq_refl)).
Defined.

(** X14. A device that the arrival callback did not take (it returned [None]
    or raised) is offered again: the first delivery leaves [known_devs]
    exactly as it was, so that a second delivery of the event calls the
    arrival callback a second time. *)
Theorem turned_down_device_is_offered_again
    (env env' : Env) (ev : DeviceEvent) (s : t)
    (vendor product : option Z) (cb : callable) :
  delivers ev →
  known_devs (monitor s) !! syspath ev = None →
  read_ids (base env) (subsystem ev) (syspath ev) = Returned (vendor, product) →
  read_ids (base env') (subsystem ev) (syspath ev) = Returned (vendor, product) →
  DeviceMonitorSpec.registered (monitor s) (subsystem ev) vendor product cb →
  let e := DeviceMonitorSpec.entry (monitor s) (subsystem ev) vendor product in
  (∀ b, call_arrival (base env) cb (<[syspath ev := e]> (known_devs (monitor s)))
          (syspath ev) vendor product ≠ Returned (Some b)) →
  let '(o1, s1) := on_data_ready env (Some ev) s in
  let '(o2, s2) := on_data_ready env' (Some ev) s1 in
  o1 = Returned tt ∧ o2 = Returned tt
  ∧ known_devs (monitor s1) = known_devs (monitor s)
  ∧ arrivals (trace (monitor s2))
      = arrivals (trace (monitor s)) ++ [(cb, syspath ev); (cb, syspath ev)].
Proof.
  intros Hdel Hun Hids Hids' Hreg e Hres.
  rewrite (on_data_ready_delivers env ev s Hdel Hun). unfold on_monitor.
  rewrite (DeviceMonitorSpec.on_new_syspath_accepted (base env) (monitor s)
             (subsystem ev) (syspath ev) vendor product cb Hids Hreg).
  cbv zeta. fold e.
  assert (Hdelete : delete (syspath ev) (known_devs (monitor s)) = known_devs (monitor s))
    by (by apply delete_id).
  rewrite Hdelete.
  set (called := ArrivalCalled cb (syspath ev) vendor product (Some e)).
  assert (∃ tail, arrivals tail = []
          ∧ match call_arrival (base env) cb (<[syspath ev := e]> (known_devs (monitor s)))
                    (syspath ev) vendor product with
            | Returned None =>
                DeviceMonitor.mk (dev_added_cbs (monitor s)) (dev_removed_cbs (monitor s))
                  (known_devs (monitor s)) (trace (monitor s) ++ [called])
            | Returned (Some _) =>
                DeviceMonitor.mk (dev_added_cbs (monitor s)) (dev_removed_cbs (monitor s))
                  (<[syspath ev := e]> (known_devs (monitor s)))
                  (trace (monitor s) ++ [called])
            | Raised exc =>
                DeviceMonitor.mk (dev_added_cbs (monitor s)) (dev_removed_cbs (monitor s))
                  (known_devs (monitor s))
                  ((trace (monitor s) ++ [called]) ++ [LogException exc])
            end
            = DeviceMonitor.mk (dev_added_cbs (monitor s)) (dev_removed_cbs (monitor s))
                (known_devs (monitor s)) (trace (monitor s) ++ called :: tail))
    as (tail & Htail & ->).
  { destruct (call_arrival (base env) cb _ (syspath ev) vendor product) as [[b|]|exc].
    - by destruct (Hres b).
    - by exists [].
    - exists [LogException exc]. by rewrite <- app_assoc. }
  set (s1 := mk _ (calls s)).
  rewrite (on_data_ready_delivers env' ev s1 Hdel Hun). unfold on_monitor.
  rewrite (DeviceMonitorSpec.on_new_syspath_accepted (base env') (monitor s1)
             (subsystem ev) (syspath ev) vendor product cb Hids' Hreg).
  cbv zeta. split; [done|]. split; [done|]. split; [done|].
  subst called.
  destruct (call_arrival (base env') cb _ (syspath ev) vendor product) as [[b|]|exc];
    cbn [monitor trace snd fst s1];
    rewrite ?arrivals_app, ?arrivals_called, ?Htail, <- ?app_assoc; reflexivity.
Qed.

(** The USB driver does not know the ids: [handle_new_device] returns
    [None]. *)
Definition declining_env : Env :=
  {| base := {| get_vendor_product := λ _ _, Returned (0x28de, 0x1142);
                call_arrival := λ _ _,
                  DeviceMonitorSpec.usb_arrival DeviceMonitorSpec.rejecting_usb
                    USB.new_driver |};
     get_hci_addresses := λ _, Returned tt;
     call_removal := λ _ _ _ _ _, Returned tt;
     enumerate := [];
     get_subsystem := λ _, Raised OSError |}.

Lemma turned_down_device_is_offered_again_witness :
  let s2 := snd (on_data_ready declining_env (Some plugged_in)
                   (snd (on_data_ready declining_env (Some plugged_in) sample_state))) in
  arrivals (trace (monitor s2))
    = [("handle_new_device", "/sys/devices/usb1/1-2");
       ("handle_new_device", "/sys/devices/usb1/1-2")].
Proof.
  pose proof (turned_down_device_is_offered_again declining_env declining_env
                plugged_in sample_state (Some 0x28de) (Some 0x1142) "handle_new_device"
                (conj eq_refl (or_introl eq_refl)) eq_refl eq_refl eq_refl eq_refl
                ltac:(intros b; vm_compute; discriminate)) as H.
  destruct (on_data_ready declining_env (Some plugged_in) sample_state) as [o1 s1].
  simpl. destruct (on_data_ready declining_env (Some plugged_in) s1) as [o2 s2].
  destruct H as (_ & _ & _ & H). exact H.
Defined.

Lemma add_remove_callback_known path cb (m : DeviceMonitor.t) vendor product old :
  known_devs m !! path = Some (vendor, product, old) →
  add_remove_callback path cb m =
    (Returned tt,
     DeviceMonitor.mk (dev_added_cbs m) (dev_removed_cbs m)
       (<[path := ((vendor, product, cb) : KnownDev)]> (known_devs m)) (trace m)).
Proof.
  intros Hknown. unfold add_remove_callback, set_known_devs. py_simpl.
  rewrite Hknown. py_simpl. do 2 f_equal.
  apply (insert_delete_eq (known_devs m)).
Qed.

(** X15. [add_remove_callback] replaces the removal callback of a known path
    and keeps the ids stored with it: the removal event then calls the new
    callback, and only that one, with the stored ids. For a path that is not
    known the call does nothing at all. *)
Theorem replaced_removal_callback_is_called
    (env : Env) (ev : DeviceEvent) (s : t)
    (vendor product : option Z) (old new : option callable) :
  is_removal ev →
  known_devs (monitor s) !! syspath ev = Some (vendor, product, old) →
  let '(o1, m1) := add_remove_callback (syspath ev) new (monitor s) in
  let '(o2, s2) := on_data_ready env (Some ev) (mk m1 (calls s)) in
  o1 = Returned tt
  ∧ known_devs m1 !! syspath ev = Some (vendor, product, new)
  ∧ (∀ other, other ≠ syspath ev → known_devs m1 !! other = known_devs (monitor s) !! other)
  ∧ known_devs (monitor s2) = delete (syspath ev) (known_devs (monitor s))
  ∧ calls s2 = calls s ++ match new with
                          | Some cb => [RemovalCalled cb (syspath ev) vendor product]
                          | None => []
                          end
  ∧ (∀ unknown m, known_devs m !! unknown = None →
       add_remove_callback unknown new m = (Returned tt, m)).
Proof.
  intros Hrem Hknown.
  rewrite (add_remove_callback_known _ new _ vendor product old Hknown).
  set (m1 := DeviceMonitor.mk _ _ _ _).
  assert (Hnew : known_devs m1 !! syspath ev = Some (vendor, product, new))
    by apply (lookup_insert_eq (known_devs (monitor s))).
  rewrite (on_data_ready_removal env ev (mk m1 (calls s)) vendor product new Hrem Hnew).
  assert (Hdel : delete (syspath ev) (known_devs m1)
                 = delete (syspath ev) (known_devs (monitor s)))
    by apply (delete_insert_eq (known_devs (monitor s))).
  assert (Hunknown : ∀ unknown m, known_devs m !! unknown = None →
            add_remove_callback unknown new m = (Returned tt, m)).
  { intros unknown m Hun. unfold add_remove_callback. py_simpl.
    destruct (known_devs m !! unknown) as [[[v p] c]|]; [discriminate Hun | reflexivity]. }
  assert (Hother : ∀ other, other ≠ syspath ev →
            known_devs m1 !! other = known_devs (monitor s) !! other).
  { intros other Hne. apply (lookup_insert_ne (known_devs (monitor s))). done. }
  destruct new as [cb|]; simpl; rewrite ?Hdel, ?app_nil_r; done.
Qed.

Lemma replaced_removal_callback_is_called_witness :
  let s := mk (DeviceMonitor.mk ∅ ∅
                 {[ "/sys/devices/usb1/1-2" :=
                      (Some 0x28de, Some 0x1142, Some "handle_removed_device") ]} [])
              [] in
  let '(o1, m1) := add_remove_callback (syspath unplugged) (Some "on_lost") (monitor s) in
  let '(o2, s2) := on_data_ready sample_env (Some unplugged) (mk m1 (calls s)) in
  calls s2 = [RemovalCalled "on_lost" "/sys/devices/usb1/1-2" (Some 0x28de) (Some 0x1142)].
Proof.
  intros s.
  pose proof (replaced_removal_callback_is_called sample_env unplugged s
                (Some 0x28de) (Some 0x1142) (Some "handle_removed_device")
                (Some "on_lost") (or_introl eq_refl) eq_refl) as H.
  destruct (add_remove_callback (syspath unplugged) (Some "on_lost") (monitor s))
    as [o1 m1].
  destruct (on_data_ready sample_env (Some unplugged) (mk m1 (calls s))) as [o2 s2].
  destruct H as (_ & _ & _ & _ & H & _). exact H.
Defined.

(** No arrival callback is registered for a subsystem that is not
    watched. *)
Lemma unwatched_has_no_callback (m : DeviceMonitor.t) subsystem vendor product :
  watched m subsystem = false →
  dev_added_cbs m !! ((subsystem, vendor, product) : Key) = None.
Proof.
  intros Hw. destruct (dev_added_cbs m !! ((subsystem, vendor, product) : Key))
    as [cb|] eqn:E; [|done].
  apply elem_of_map_to_list in E.
  assert (watched m subsystem = true) as Ht; [|congruence].
  unfold watched. apply existsb_exists.
  exists ((subsystem, vendor, product), cb). split.
  - by apply list_elem_of_In.
  - simpl. by apply bool_decide_eq_true_2.
Qed.

(** [_on_new_syspath] does nothing for a subsystem that is not watched,
    provided that reading the ids fails with [OSError] only. *)
Lemma on_new_syspath_unwatched env subsystem path (m : DeviceMonitor.t) :
  (∀ e, get_vendor_product env path subsystem = Raised e → e = OSError) →
  watched m subsystem = false →
  _on_new_syspath env subsystem path m = (Returned tt, m).
Proof.
  intros Hos Hw. unfold _on_new_syspath, read_ids.
  destruct (bool_decide (subsystem = "input")).
  - by rewrite (unwatched_has_no_callback m subsystem None None Hw).
  - destruct (get_vendor_product env path subsystem) as [[v p]|e] eqn:E.
    + by rewrite (unwatched_has_no_callback m subsystem (Some v) (Some p) Hw).
    + by rewrite (Hos e eq_refl).
Qed.

(** The "bind" event that [rescan] stands in for. *)
Definition bind_event (subsystem path : string) : DeviceEvent :=
  {| action := "bind"; initialized := true; subsystem := subsystem; syspath := path |}.

(** What [rescan] does with one enumerated path, told as an event. *)
Definition replay (env : Env) (path : string) : Py t unit :=
  match get_subsystem env path with
  | Returned subsystem => on_data_ready env (Some (bind_event subsystem path))
  | Raised _ => mret tt
  end.

Lemma on_new_syspath_keeps_added env subsystem path (s : t) :
  dev_added_cbs (monitor (snd (on_monitor (_on_new_syspath env subsystem path) s)))
  = dev_added_cbs (monitor s).
Proof.
  unfold on_monitor.
  pose proof (DeviceMonitorSpec.on_new_syspath_keeps_callbacks env subsystem path
                (monitor s)) as [H _].
  destruct (_on_new_syspath env subsystem path (monitor s)) as [o m']. exact H.
Qed.

Lemma replay_keeps_added env path s :
  dev_added_cbs (monitor (snd (replay env path s))) = dev_added_cbs (monitor s).
Proof.
  unfold replay. destruct (get_subsystem env path) as [sub|e]; [|done].
  destruct (known_devs (monitor s) !! path) as [e|] eqn:E.
  - rewrite arrival_of_known_is_ignored; [done | by left | simpl; by rewrite E].
  - rewrite on_data_ready_delivers; [|split; [done | by left] | exact E].
    apply on_new_syspath_keeps_added.
Qed.

(** X16. [rescan] treats the devices that are already connected as if each
    had just been bound: after refreshing the bluetooth addresses, it does
    for every enumerated path whose subsystem can be read exactly what
    [on_data_ready] does for an initialized "bind" event of that path and
    subsystem, in the order of the enumeration, and stops at the first
    exception. (Reading sysfs is assumed to fail with [OSError] only.) *)
Theorem rescan_replays_bind_events (env : Env) (s : t) :
  (∀ path subsystem e,
     get_vendor_product (base env) path subsystem = Raised e → e = OSError) →
  (∀ path e, get_subsystem env path = Raised e → e = OSError) →
  rescan env s =
    (call GetHciAddresses (get_hci_addresses env);;
     py_for (enumerate env) (replay env)) s.
Proof.
  intros Hvp Hsub. unfold rescan. py_simpl. unfold call.
  destruct (get_hci_addresses env (calls s)) as [[]|e]; [|reflexivity].
  set (s0 := mk (monitor s) (calls s ++ [GetHciAddresses])).
  assert (Hinv : dev_added_cbs (monitor s0) = dev_added_cbs (monitor s)) by done.
  clearbody s0. revert s0 Hinv.
  induction (enumerate env) as [|path paths IH]; intros s0 Hinv; [reflexivity|].
  cbn [py_for]. unfold py_bind.
  assert (Hstep :
    (if bool_decide (is_Some (known_devs (monitor s0) !! path))
     then λ s2 : t, (Returned (), s2)
     else match get_subsystem env path with
          | Returned subsystem =>
              if watched (monitor s) subsystem
              then on_monitor (_on_new_syspath (base env) subsystem path)
              else λ s2 : t, (Returned (), s2)
          | Raised OSError => λ s2 : t, (Returned (), s2)
          | Raised e => λ s2 : t, (Raised e, s2)
          end) s0 = replay env path s0).
  { unfold replay.
    destruct (bool_decide (is_Some (_ !! path))) eqn:Hb.
    - apply bool_decide_eq_true_1 in Hb.
      destruct (get_subsystem env path) as [sub|e'] eqn:Es; [|reflexivity].
      rewrite arrival_of_known_is_ignored; [done | by left | exact Hb].
    - apply bool_decide_eq_false_1 in Hb.
      assert (E : known_devs (monitor s0) !! path = None).
      { destruct (known_devs (monitor s0) !! path) eqn:E'; [|done].
        exfalso. apply Hb. by eexists. }
      destruct (get_subsystem env path) as [sub|e'] eqn:Es.
      + rewrite on_data_ready_delivers; [|split; [done | by left] | exact E].
        simpl. destruct (watched (monitor s) sub) eqn:Ew; [reflexivity|].
        unfold on_monitor.
        rewrite on_new_syspath_unwatched;
          [by destruct s0 | by apply Hvp |].
        unfold watched in *. by rewrite Hinv.
      + by rewrite (Hsub path e' Es). }
  match goal with
  | |- match ?step with _ => _ end = _ =>
      replace step with (replay env path s0) by (symmetry; exact Hstep)
  end.
  pose proof (replay_keeps_added env path s0) as Hkeep.
  destruct (replay env path s0) as [[[]|e] s1]; [|reflexivity].
  apply IH. simpl in Hkeep. congruence.
Qed.

Lemma rescan_replays_bind_events_witness :
  arrivals (trace (monitor (snd (rescan sample_env sample_state))))
  = [("handle_new_device", "/sys/devices/usb1/1-2")]
  ∧ rescan sample_env sample_state =
      (call GetHciAddresses (get_hci_addresses sample_env);;
       py_for (enumerate sample_env) (replay sample_env)) sample_state.
Proof.
  split; [reflexivity|].
  apply rescan_replays_bind_events.
  - intros path subsystem e H. discriminate H.
  - intros path e H. discriminate H.
Defined.

End DeviceMonitorEventsSpec.


(** ** Device monitor: how ids and addresses are read *)
Module DeviceIdsSpec.
Import Stdlib.Strings.Ascii.
Import DeviceIds.

(** The digit of value [n] in upper case: ["0123456789ABCDEF"[n]]. *)
Definition HEX (n : Z) : ascii :=
  if n <? 10 then ascii_of_nat (48 + Z.to_nat n) else ascii_of_nat (55 + Z.to_nat n).

(** A byte as two upper-case hexadecimal digits ([%02X]). *)
Definition HEX2 (x : Z) : string :=
  String (HEX (x / 16)) (String (HEX (x mod 16)) EmptyString).

(** A 16-bit number as four upper-case hexadecimal digits ([%04X]). *)
Definition HEX4 (v : Z) : string :=
  String (HEX (v / 16 / 16 / 16 mod 16))
    (String (HEX (v / 16 / 16 mod 16))
       (String (HEX (v / 16 mod 16)) (String (HEX (v mod 16)) EmptyString))).

Lemma format_byte_all :
  forallb (λ n, bool_decide (format_byte (Z.of_nat n) = HEX2 (Z.of_nat n))) (seq 0 256)
  = true.
Proof. vm_compute. reflexivity. Qed.

Lemma format_byte_eq (x : Z) : 0 ≤ x < 256 → format_byte x = HEX2 x.
Proof.
  intros Hx. pose proof format_byte_all as H.
  rewrite forallb_forall in H.
  assert (In (Z.to_nat x) (seq 0 256)) as Hin by (apply in_seq; lia).
  specialize (H _ Hin). simpl in H. rewrite Z2Nat.id in H by lia.
  by apply bool_decide_eq_true_1 in H.
Qed.

(** X17. A bluetooth address is printed as the bytes of [bdaddr] from the last
    to the first, each as exactly two upper-case hexadecimal digits, joined
    by colons. Stripping the characters "0" and "x" from the left of
    [hex(x)] eats the only digit of 0 and nothing else of any other byte,
    and [zfill] restores what is missing. *)
Theorem bluetooth_address_format (address : list Z) :
  Forall (λ x, 0 ≤ x < 256) address →
  format_address address = String.concat ":" (map HEX2 (rev address))
  ∧ Forall (λ x, String.length (format_byte x) = 2%nat) address.
Proof.
  intros Hbytes. split.
  - unfold format_address. f_equal. apply map_ext_in. intros x Hx.
    apply format_byte_eq. rewrite Forall_forall in Hbytes.
    apply Hbytes. apply list_elem_of_In. by apply in_rev.
  - eapply Forall_impl; [exact Hbytes|]. intros x Hx. simpl.
    by rewrite format_byte_eq.
Qed.

Lemma bluetooth_address_format_witness :
  format_address [0x17; 0x82; 0x87; 0x5d; 0x5a; 0xa0] = "A0:5A:5D:87:82:17"
  ∧ format_address [0; 1; 10; 16; 255; 9] = "09:FF:10:0A:01:00".
Proof.
  split.
  - rewrite (proj1 (bluetooth_address_format [0x17; 0x82; 0x87; 0x5d; 0x5a; 0xa0]
                      ltac:(repeat constructor; lia))).
    reflexivity.
  - rewrite (proj1 (bluetooth_address_format [0; 1; 10; 16; 255; 9]
                      ltac:(repeat constructor; lia))).
    reflexivity.
Defined.

(** [_get_hci_addresses] leaves [bt_addresses] alone and returns when
    libbluetooth is missing, when [hci_get_route] reports its error value
    -1, or when the ioctl returns non-zero. The error value is caught by
    the comparison with 65534 alone: stored into the [c_uint16] field it
    reads back as 65535, and no device id read from that field is
    negative. *)
Lemma no_bluetooth_no_addresses (env : HciEnv) (bt : gmap string string) :
  HAVE_BLUETOOTH_LIB env = false
  ∨ hci_get_route env = -1
  ∨ (∃ r, ioctl env = Returned r ∧ r ≠ 0) →
  _get_hci_addresses env bt = (Returned tt, bt)
  ∧ (∀ n, (c_uint16 n <? 0) = false).
Proof.
  intros Hcase. split.
  - unfold _get_hci_addresses.
    destruct (HAVE_BLUETOOTH_LIB env) eqn:Hlib; simpl; [|reflexivity].
    destruct Hcase as [Hno|[Hroute|(r & Hio & Hr)]]; [discriminate| |].
    + rewrite Hroute. reflexivity.
    + destruct ((c_uint16 (hci_get_route env) <? 0)
                || (c_uint16 (hci_get_route env) >? 65534)); [reflexivity|].
      rewrite Hio. py_simpl.
      destruct (r =? 0) eqn:E; [apply Z.eqb_eq in E; congruence | reflexivity].
  - intros n. apply Z.ltb_ge. unfold c_uint16.
    apply Z.mod_pos_bound. lia.
Qed.

Lemma no_bluetooth_no_addresses_witness :
  _get_hci_addresses {| HAVE_BLUETOOTH_LIB := true; hci_get_route := -1;
                        ioctl := Raised OSError; conn_info := [] |} ∅
  = (Returned tt, ∅).
Proof.
  exact (proj1 (no_bluetooth_no_addresses
                  {| HAVE_BLUETOOTH_LIB := true; hci_get_route := -1;
                     ioctl := Raised OSError; conn_info := [] |} ∅
                  (or_intror (or_introl eq_refl)))).
Defined.

Lemma HEX_is_hex_upper (n : Z) : 0 ≤ n < 16 → is_hex_upper (HEX n) = true.
Proof.
  intros Hn.
  assert (n = 0 ∨ n = 1 ∨ n = 2 ∨ n = 3 ∨ n = 4 ∨ n = 5 ∨ n = 6 ∨ n = 7 ∨ n = 8
          ∨ n = 9 ∨ n = 10 ∨ n = 11 ∨ n = 12 ∨ n = 13 ∨ n = 14 ∨ n = 15) as H by lia.
  repeat (destruct H as [->|H]; [reflexivity|]). by subst.
Qed.

Lemma HEX_value (n : Z) : 0 ≤ n < 16 → hex_value (HEX n) = Some n.
Proof.
  intros Hn.
  assert (n = 0 ∨ n = 1 ∨ n = 2 ∨ n = 3 ∨ n = 4 ∨ n = 5 ∨ n = 6 ∨ n = 7 ∨ n = 8
          ∨ n = 9 ∨ n = 10 ∨ n = 11 ∨ n = 12 ∨ n = 13 ∨ n = 14 ∨ n = 15) as H by lia.
  repeat (destruct H as [->|H]; [reflexivity|]). by subst.
Qed.

Lemma int16_HEX4 (v : Z) : 0 ≤ v < 65536 → int16 (HEX4 v) = Returned v.
Proof.
  intros Hv. unfold int16, HEX4. simpl.
  rewrite !HEX_value by (apply Z.mod_pos_bound; lia). simpl.
  f_equal. Z.to_euclidean_division_equations. lia.
Qed.

(** A name as the kernel gives it to a HID node: bus, vendor and product
    as four upper-case hexadecimal digits each, then anything. *)
Definition node_name (bus : list ascii) (vendor product : Z) (rest : string) : string :=
  String.string_of_list_ascii bus +:+ ":" +:+ HEX4 vendor +:+ ":" +:+ HEX4 product +:+ rest.

Lemma match_node_name b1 b2 b3 b4 vendor product rest :
  forallb is_hex_upper [b1; b2; b3; b4] = true →
  0 ≤ vendor < 65536 → 0 ≤ product < 65536 →
  RE_BT_NUMBERS_match (node_name [b1; b2; b3; b4] vendor product rest)
  = Some (HEX4 vendor, HEX4 product).
Proof.
  intros Hbus Hv Hp. unfold RE_BT_NUMBERS_match, node_name, HEX4. simpl.
  simpl in Hbus. rewrite !andb_true_r in Hbus.
  apply andb_prop in Hbus as [H1 Hbus]. apply andb_prop in Hbus as [H2 Hbus].
  apply andb_prop in Hbus as [H3 H4].
  rewrite H1, H2, H3, H4.
  rewrite !HEX_is_hex_upper by (apply Z.mod_pos_bound; lia).
  reflexivity.
Qed.

(** The sysfs reader that a monitor uses, as an environment of
    [_on_new_syspath]. *)
Definition monitor_env (fs : SysFs)
    (arrival : DeviceMonitor.callable → gmap string DeviceMonitor.KnownDev → string →
               option Z → option Z → Outcome (option bool)) : DeviceMonitor.Env :=
  {| DeviceMonitor.get_vendor_product :=
       λ syspath subsystem, fst (get_vendor_product fs syspath (Some subsystem) []);
     DeviceMonitor.call_arrival := arrival |}.

(** X18. A bluetooth device without [idVendor] file gets its ids from the
    first entry of its sysfs directory whose name starts like a HID node
    name (four upper-case hexadecimal digits, three times, separated by
    colons): the second and third group, read as hexadecimal numbers. This
    happens without the one-second sleep, and [_on_new_syspath] then calls
    the arrival callback registered for these ids with them. *)
Theorem bluetooth_ids_come_from_node_name
    (fs : SysFs) (syspath : string) (skipped later : list string)
    (b1 b2 b3 b4 : ascii) (vendor product : Z) (rest : string)
    (tr : list FsEvent) :
  path_exists fs (path_join syspath "idVendor") = false →
  isdir fs syspath = true →
  listdir fs syspath
    = Returned (skipped ++ node_name [b1; b2; b3; b4] vendor product rest :: later) →
  Forall (λ name, RE_BT_NUMBERS_match name = None) skipped →
  forallb is_hex_upper [b1; b2; b3; b4] = true →
  0 ≤ vendor < 65536 → 0 ≤ product < 65536 →
  get_vendor_product fs syspath (Some "bluetooth") tr = (Returned (vendor, product), tr)
  ∧ ∀ arrival,
      DeviceMonitor.read_ids (monitor_env fs arrival) "bluetooth" syspath
      = Returned (Some vendor, Some product).
Proof.
  intros Hno Hdir Hlist Hskip Hbus Hv Hp.
  assert (Hget : ∀ tr', get_vendor_product fs syspath (Some "bluetooth") tr'
                        = (Returned (vendor, product), tr')).
  { intros tr'. unfold get_vendor_product. rewrite Hno. py_simpl.
    unfold bluetooth_ids. py_simpl. rewrite Hlist. py_simpl. rewrite Hdir.
    rewrite List.filter_app.
    assert (List.filter (λ name, true && bool_decide (is_Some (RE_BT_NUMBERS_match name)))
              skipped = []) as ->.
    { clear -Hskip. induction Hskip as [|name l Hn _ IH]; simpl; [done|].
      rewrite Hn. rewrite bool_decide_eq_false_2 by (by intros [? ?]). exact IH. }
    cbn [app List.filter].
    rewrite (match_node_name b1 b2 b3 b4 vendor product rest Hbus Hv Hp).
    rewrite bool_decide_eq_true_2 by (by eexists). cbn [andb]. cbv beta iota.
    rewrite (match_node_name b1 b2 b3 b4 vendor product rest Hbus Hv Hp).
    unfold ids_of_groups. cbn [fst snd].
    rewrite !int16_HEX4 by assumption. reflexivity. }
  split; [apply Hget|].
  intros arrival. unfold DeviceMonitor.read_ids.
  rewrite bool_decide_eq_false_2 by discriminate.
  cbn [monitor_env DeviceMonitor.get_vendor_product]. by rewrite Hget.
Qed.

(** The sysfs directory of a bluetooth connection with one HID node. *)
Definition sample_sysfs : SysFs :=
  {| path_exists := λ _, false;
     read_id := λ _, Raised OSError;
     listdir := λ _, Returned ["power"; "0005:28DE:1102.0001"; "uevent"];
     isdir := λ _, true;
     get_subsystem := λ _, Returned "bluetooth";
     _dev_for_hci := λ _, Returned None |}.

Lemma bluetooth_ids_come_from_node_name_witness :
  get_vendor_product sample_sysfs "/sys/devices/virtual/bluetooth/hci0/hci0:256"
    (Some "bluetooth") []
  = (Returned (0x28de, 0x1102), []).
Proof.
  exact (proj1 (bluetooth_ids_come_from_node_name sample_sysfs
                  "/sys/devices/virtual/bluetooth/hci0/hci0:256"
                  ["power"] ["uevent"] "0" "0" "0" "5" 0x28de 0x1102 ".0001" []
                  eq_refl eq_refl eq_refl ltac:(repeat constructor) eq_refl
                  ltac:(lia) ltac:(lia))).
Defined.

End DeviceIdsSpec.


(** ** Input mapper: the quirk rewrite, and handlers that raise *)
Module MapperRobustness.
Import Mapper MapperSpec.

#[local] Arguments dispatch : simpl never.
#[local] Arguments generate_feedback : simpl never.
#[local] Arguments call : simpl never.

(** What the code of [input] itself leaves of a mapper where it only
    calls out and moves [lpad_touched] or the contents of the feedback
    slots. *)
Definition kept (m m' : t) : Prop :=
  profile m' = profile m ∧ controller m' = controller m
  ∧ length (feedbacks m') = length (feedbacks m)
  ∧ buttons m' = buttons m ∧ old_buttons m' = old_buttons m
  ∧ state m' = state m ∧ old_state m' = old_state m
  ∧ force_event m' = force_event m ∧ _testing m' = _testing m
  ∧ trace m `prefix_of` trace m'.

Definition keeps {A} (c : Py t A) : Prop := ∀ m, kept m (snd (c m)).

Lemma kept_refl m : kept m m.
Proof. unfold kept. by repeat split. Qed.

Lemma kept_trans m1 m2 m3 : kept m1 m2 → kept m2 m3 → kept m1 m3.
Proof.
  unfold kept. intros (?&?&?&?&?&?&?&?&?&?) (?&?&?&?&?&?&?&?&?&?).
  repeat split; try congruence. by etransitivity.
Qed.

Lemma keeps_ret {A} (a : A) : keeps (mret a).
Proof. intros m. apply kept_refl. Qed.

Lemma keeps_raise {A} (e : exn) : keeps (@py_raise t A e).
Proof. intros m. apply kept_refl. Qed.

Lemma keeps_get : keeps py_get.
Proof. intros m. apply kept_refl. Qed.

Lemma keeps_bind {A B} (f : Py t A) (g : A → Py t B) :
  keeps f → (∀ a, keeps (g a)) → keeps (f ≫= g).
Proof.
  intros Hf Hg m. unfold mbind, Py_bind, py_bind. specialize (Hf m).
  destruct (f m) as [[a|e] m1]; simpl in *; [|exact Hf].
  eapply kept_trans; [exact Hf | apply Hg].
Qed.

Lemma keeps_try {A} (body : Py t A) handles (handler : exn → Py t A) :
  keeps body → (∀ e, keeps (handler e)) → keeps (py_try body handles handler).
Proof.
  intros Hb Hh m. unfold py_try. specialize (Hb m).
  destruct (body m) as [[a|e] m1]; simpl in *; [exact Hb|].
  destruct (handles e); [|exact Hb].
  eapply kept_trans; [exact Hb | apply Hh].
Qed.

Lemma keeps_for {A} (xs : list A) (body : A → Py t unit) :
  (∀ x, keeps (body x)) → keeps (py_for xs body).
Proof.
  intros Hb. induction xs as [|x xs IH]; simpl; [apply (keeps_ret tt)|].
  apply (keeps_bind (body x) (λ _, py_for xs body)); [apply Hb | intros _; exact IH].
Qed.

Lemma keeps_call env c : keeps (call env c).
Proof.
  intros m. unfold call, kept. simpl. repeat split; try done. by apply prefix_app_r.
Qed.

Lemma keeps_set_lpad_touched b : keeps (set_lpad_touched b).
Proof. intros m. unfold set_lpad_touched, kept. simpl. by repeat split. Qed.

Lemma keeps_set_feedbacks i v : keeps (set_feedbacks <[i := v]>).
Proof.
  intros m. unfold set_feedbacks, kept. simpl.
  repeat split; rewrite ?length_insert; done.
Qed.

(** Takes a computation apart along its binds and branches. *)
Ltac keeps_tac :=
  repeat first
    [ apply keeps_call | apply keeps_set_lpad_touched | apply keeps_set_feedbacks
    | apply keeps_get | apply keeps_ret | apply keeps_raise
    | apply keeps_for; intros ?
    | apply keeps_try; [|intros ?]
    | apply keeps_bind; [|intros ?]
    | match goal with
      | |- keeps (if ?c then _ else _) => destruct c
      | |- keeps (match ?x with _ => _ end) => destruct x
      end ].

Section Robust.
Context `{K : Constants}.

Lemma keeps_dispatch env ctrl old_st st fe add rem :
  keeps (dispatch env ctrl old_st st fe add rem).
Proof.
  unfold dispatch, check_buttons, check_sticks, check_gyro, check_triggers,
    check_rpad, check_dpad, check_lpad, check_cpad, self_controller_flags.
  keeps_tac.
Qed.

Lemma keeps_generate_feedback env : keeps (generate_feedback env).
Proof. unfold generate_feedback. keeps_tac. Qed.

(** X20. With [STICKPRESS] on another bit than [LPAD]: when [input] enters
    its [try] block, that is, as the handlers of the cycle are about to be
    called, [buttons] does not show the left pad pressed without also
    showing it touched or the stick tilted. A press that the controller
    reports without touch and without tilt has been turned into a stick
    press by then: [LPAD] is cleared and [STICKPRESS] is set. *)
Theorem pad_press_implies_touch_or_tilt
    (env : Env) (ctrl : Controller) (old_st st : ControllerState) (m : t) :
  Z.land STICKPRESS LPAD = 0 →
  let entered := started m old_st st in
  let b := buttons entered in
  input env ctrl old_st st m
  = (py_try (dispatch env ctrl old_st st (force_event m) (btn_add m st) (btn_rem m st))
       (λ _, true) (on_error env);; after_try env) entered
  ∧ (truthy (Z.land b LPAD) = true →
     truthy (Z.land b (Z.lor LPADTOUCH STICKTILT)) = true)
  ∧ (truthy (Z.land (st_buttons st) LPAD) = true →
     truthy (Z.land (st_buttons st) (Z.lor LPADTOUCH STICKTILT)) = false →
     Z.land b LPAD = 0 ∧ Z.land b STICKPRESS = STICKPRESS).
Proof.
  intros Hdisj entered b. subst b entered.
  split; [apply input_parts|]. cbn [buttons started].
  unfold normalize. split.
  - destruct (truthy (Z.land (st_buttons st) LPAD)) eqn:Hp; simpl;
      [|intros H; congruence].
    destruct (truthy (Z.land (st_buttons st) (Z.lor LPADTOUCH STICKTILT))) eqn:Ht;
      simpl; [intros _; exact Ht|].
    rewrite Z.land_lor_distr_l, <- Z.land_assoc, Hdisj.
    rewrite (Z.land_comm (Z.lnot LPAD)), Z.land_lnot_diag, Z.land_0_r.
    simpl. discriminate.
  - intros -> ->. simpl. split.
    + rewrite Z.land_lor_distr_l, <- Z.land_assoc, Hdisj.
      by rewrite (Z.land_comm (Z.lnot LPAD)), Z.land_lnot_diag, Z.land_0_r.
    + rewrite Z.land_lor_distr_l, Z.land_diag.
      apply Z.bits_inj'. intros n Hn.
      rewrite Z.lor_spec, !Z.land_spec.
      destruct (Z.testbit STICKPRESS n); simpl; [by rewrite orb_true_r | by rewrite andb_false_r].
Qed.

(** The calls of [input] outside its [try] block, and the log, do not
    raise. *)
Definition housekeeping_ok (env : Env) : Prop :=
  ∀ history c,
    match c with
    | log_error | scheduler_run | generate_events | controller_feedback _ =>
        env history c = None
    | _ => True
    end.

Lemma call_ok env c m :
  env (trace m) c = None → call env c m = (Returned tt, record m [c]).
Proof. intros H. unfold call. by rewrite H. Qed.

Lemma generate_feedback_ok env m :
  housekeeping_ok env →
  length (feedbacks m) = 2%nat →
  ∃ fb,
    fst (generate_feedback env m) = Returned tt
    ∧ trace (snd (generate_feedback env m)) = trace m ++ fb
    ∧ forallb is_feedback fb = true.
Proof.
  intros Hok Hlen. destruct m as [pr co fbs b ob lt s os fe tst tr]. simpl in *.
  destruct fbs as [|f0 [|f1 [|? ?]]]; try discriminate.
  unfold generate_feedback, set_feedbacks, call. py_simpl.
  destruct co as [c|]; py_simpl; [|exists []; by rewrite app_nil_r].
  destruct f0 as [h0|], f1 as [h1|]; py_simpl;
    rewrite ?(Hok _ (controller_feedback _)); py_simpl;
    rewrite ?(Hok _ (controller_feedback _)); py_simpl;
    eexists; rewrite <- ?app_assoc;
    (split; [reflexivity|]); (split; [reflexivity || (symmetry; apply app_nil_r)|]);
    reflexivity.
Qed.

(** X21. Outside of tests, [input] never raises because of a handler. When a
    handler of the profile raises (or [self.controller] is missing), the
    rest of the [try] block is skipped, the error is logged twice, and the
    cycle goes on as always: the scheduler runs, the events are generated
    and the pending haptic feedback is sent. *)
Theorem input_survives_failing_handlers
    (env : Env) (ctrl : Controller) (old_st st : ControllerState) (m : t) :
  housekeeping_ok env →
  _testing m = false →
  length (feedbacks m) = 2%nat →
  let tried := dispatch env ctrl old_st st (force_event m) (btn_add m st) (btn_rem m st)
                 (started m old_st st) in
  ∃ fb,
    fst (input env ctrl old_st st m) = Returned tt
    ∧ trace (snd (input env ctrl old_st st m)) =
        trace (snd tried)
        ++ match fst tried with
           | Raised _ => [log_error; log_error]
           | Returned _ => []
           end
        ++ [scheduler_run; generate_events] ++ fb
    ∧ forallb is_feedback fb = true.
Proof.
  intros Hok Htest Hlen tried. rewrite input_head.
  pose proof (keeps_dispatch env ctrl old_st st (force_event m) (btn_add m st)
                (btn_rem m st) (started m old_st st)) as Hkept.
  fold tried in Hkept. unfold mbind, Py_bind, py_bind, py_try, py_get. fold tried.
  destruct tried as [[[]|e] m1]; simpl in Hkept;
    destruct Hkept as (_ & _ & Hfb & _ & _ & _ & _ & _ & Ht & _);
    simpl in Hfb, Ht; cbn [fst snd].
  - rewrite (call_ok env scheduler_run) by apply (Hok _ scheduler_run).
    rewrite (call_ok env generate_events) by apply (Hok _ generate_events).
    destruct (generate_feedback_ok env (record (record m1 [scheduler_run]) [generate_events])
                Hok) as (fb & Ho & Htr & Hall); [simpl; congruence|].
    exists fb. destruct (generate_feedback env _) as [o m2]. simpl in *.
    rewrite Htr, <- !app_assoc. done.
  - rewrite Ht, Htest.
    rewrite (call_ok env log_error) by apply (Hok _ log_error).
    rewrite (call_ok env log_error) by apply (Hok _ log_error).
    rewrite (call_ok env scheduler_run) by apply (Hok _ scheduler_run).
    rewrite (call_ok env generate_events) by apply (Hok _ generate_events).
    destruct (generate_feedback_ok env
                (record (record (record (record m1 [log_error]) [log_error])
                           [scheduler_run]) [generate_events])
                Hok) as (fb & Ho & Htr & Hall); [simpl; congruence|].
    exists fb. destruct (generate_feedback env _) as [o m2]. simpl in *.
    rewrite Htr, <- !app_assoc. done.
Qed.

(** X22. Under test ([_testing] is set) the exception of a handler is not
    swallowed: [input] raises it, and nothing that follows the [try] block
    runs: no log entry, no scheduler, no events, no feedback. *)
Theorem input_reraises_under_test
    (env : Env) (ctrl : Controller) (old_st st : ControllerState) (m : t) (e : exn) :
  _testing m = true →
  let tried := dispatch env ctrl old_st st (force_event m) (btn_add m st) (btn_rem m st)
                 (started m old_st st) in
  fst tried = Raised e →
  input env ctrl old_st st m = (Raised e, snd tried).
Proof.
  intros Htest tried Hraised. rewrite input_head.
  pose proof (keeps_dispatch env ctrl old_st st (force_event m) (btn_add m st)
                (btn_rem m st) (started m old_st st)) as Hkept.
  fold tried in Hkept. unfold mbind, Py_bind, py_bind, py_try, py_get. fold tried.
  destruct tried as [o m1]; simpl in *. subst o.
  destruct Hkept as (_ & _ & _ & _ & _ & _ & _ & _ & Ht & _).
  simpl in Ht. by rewrite Ht, Htest.
Qed.

End Robust.

(** The action bound to a button is broken: pressing raises. *)
Definition broken_button : Env :=
  λ _ c, match c with button_press _ => Some KeyError | _ => None end.

Lemma pad_press_implies_touch_or_tilt_witness :
  let b := buttons (@started sample_constants (sample_mapper 0 false)
                      (snapshot 0 0 0 0 0) (snapshot (2 ^ 25) 0 0 0 0)) in
  Z.land b (2 ^ 25) = 0 ∧ Z.land b (2 ^ 30) = 2 ^ 30.
Proof.
  exact (proj2 (proj2 (@pad_press_implies_touch_or_tilt sample_constants quiet_env steam
                  (snapshot 0 0 0 0 0) (snapshot (2 ^ 25) 0 0 0 0)
                  (sample_mapper 0 false) eq_refl))
           eq_refl eq_refl).
Defined.

Lemma input_survives_failing_handlers_witness :
  let r := @input sample_constants broken_button steam
             (snapshot 0 0 0 0 0) (snapshot (2 ^ 15) 0 0 0 0) (sample_mapper 0 false) in
  fst r = Returned tt
  ∧ ∃ fb, trace (snd r) =
            [button_press (2 ^ 15); log_error; log_error; scheduler_run; generate_events]
            ++ fb.
Proof.
  intros r.
  destruct (@input_survives_failing_handlers sample_constants broken_button steam
              (snapshot 0 0 0 0 0) (snapshot (2 ^ 15) 0 0 0 0) (sample_mapper 0 false)
              ltac:(intros h c; destruct c; exact I || reflexivity) eq_refl eq_refl)
    as (fb & H1 & H2 & _).
  split; [exact H1|]. exists fb. exact H2.
Defined.

Lemma input_reraises_under_test_witness :
  let m := mk sample_profile (Some steam) [None; None] 0 0 false None None [] true [] in
  @input sample_constants broken_button steam
    (snapshot 0 0 0 0 0) (snapshot (2 ^ 15) 0 0 0 0) m
  = (Raised KeyError,
     mk sample_profile (Some steam) [None; None] (2 ^ 15) 0 false
        (Some (snapshot (2 ^ 15) 0 0 0 0)) (Some (snapshot 0 0 0 0 0)) [] true
        [button_press (2 ^ 15)]).
Proof.
  intros m.
  exact (@input_reraises_under_test sample_constants broken_button steam
           (snapshot 0 0 0 0 0) (snapshot (2 ^ 15) 0 0 0 0) m KeyError
           eq_refl eq_refl).
Defined.

End MapperRobustness.


(** ** Input mapper: forced events, gyro, shared axes, pending feedback *)
Module MapperCycleSpec.
Import Mapper MapperSpec.

#[local] Arguments dispatch : simpl never.
#[local] Arguments generate_feedback : simpl never.
#[local] Arguments call : simpl never.


Definition is_gyro (c : Call) : bool :=
  match c with gyro _ _ _ _ _ _ _ => true | _ => false end.

Definition is_stick (c : Call) : bool :=
  match c with stick_whole _ _ _ => true | _ => false end.

(** Decides the branches of a list of events and compares. *)
Ltac by_cases :=
  repeat match goal with
         | |- context [if ?c then _ else _] => destruct c eqn:?
         end;
  simpl; try reflexivity; try congruence.

Section Cycle.
Context `{K : Constants}.
Variable env : Env.
Hypothesis Hq : quiet env.

Lemma filter_button_events (P : Call → bool) keys add rem :
  (∀ c, is_button c = true → P c = false) →
  List.filter P (button_events keys add rem) = [].
Proof.
  intros HP. apply filter_none.
  apply (forallb_impl is_button); [|apply button_events_buttons].
  intros c Hc. by rewrite (HP c Hc).
Qed.

Lemma filter_feedback (P : Call → bool) fb :
  (∀ c, is_feedback c = true → P c = false) →
  forallb is_feedback fb = true →
  List.filter P fb = [].
Proof.
  intros HP Hfb. apply filter_none.
  apply (forallb_impl is_feedback); [|exact Hfb].
  intros c Hc. by rewrite (HP c Hc).
Qed.

(** The calls of one cycle that satisfy [P], when [P] holds of no button
    call, of no feedback call and of neither of the two calls that follow
    the [try] block. *)
Lemma filter_cycle (P : Call → bool) c ctrl old_st st m :
  controller m = Some c →
  (∀ x, is_button x = true → P x = false) →
  (∀ x, is_feedback x = true → P x = false) →
  P scheduler_run = false → P generate_events = false →
  List.filter P (new_calls m (snd (input env ctrl old_st st m)))
  = List.filter P (axis_events (flags c) ctrl (started m old_st st) old_st st
                     (force_event m) (btn_rem m st)).
Proof.
  intros Hc Hb Hf Hs Hg.
  destruct (input_quiet env Hq c ctrl old_st st m Hc) as (o & fbs & fb & -> & Hfb).
  cbn [snd]. erewrite new_calls_record by reflexivity.
  rewrite !List.filter_app, filter_button_events by exact Hb.
  rewrite (filter_feedback P fb Hf Hfb). simpl. rewrite Hs, Hg.
  by rewrite app_nil_r.
Qed.

(** X23. The gyro handler is called exactly once in every cycle for which the
    controller that delivered the input has its gyroscope enabled, with the
    angles and the quaternion of the new state, whether or not they changed;
    otherwise it is not called. It is the controller passed to [input] that
    decides, not the one set on the mapper. *)
Theorem gyro_is_dispatched_every_cycle
    (c ctrl : Controller) (old_st st : ControllerState) (m : t) :
  controller m = Some c →
  List.filter is_gyro (new_calls m (snd (input env ctrl old_st st m)))
  = if get_gyro_enabled ctrl
    then [gyro (gpitch st) (gyaw st) (groll st) (q1 st) (q2 st) (q3 st) (q4 st)]
    else [].
Proof.
  intros Hc.
  rewrite (filter_cycle is_gyro c ctrl old_st st m Hc)
    by (try reflexivity; intros [] ?; done).
  unfold axis_events. rewrite !List.filter_app.
  unfold stick_events, gyro_events, trigger_events, rpad_events, dpad_events,
    lpad_events, cpad_events.
  rewrite !List.filter_app. by_cases.
Qed.


(** X25. On a controller whose stick shares its axes with the left pad, the
    stick handler gets no pad coordinates while the pad is touched, not
    even when [FE_STICK] is pending: in such a cycle it is called at most
    once, with (0, 0), and exactly when the stick was tilted in the old
    state and is not tilted any more. *)
Theorem touched_pad_keeps_stick_still
    (c ctrl : Controller) (old_st st : ControllerState) (m : t) :
  controller m = Some c →
  truthy (Z.land (flags c) SEPARATE_STICK) = false →
  truthy (Z.land (normalize (st_buttons st)) LPADTOUCH) = true →
  List.filter is_stick (new_calls m (snd (input env ctrl old_st st m)))
  = if truthy (Z.land (st_buttons old_st) STICKTILT)
       && negb (truthy (Z.land (normalize (st_buttons st)) STICKTILT))
    then [stick_whole 0 0 STICK] else [].
Proof.
  intros Hc Hshared Htouch.
  rewrite (filter_cycle is_stick c ctrl old_st st m Hc)
    by (try reflexivity; intros [] ?; done).
  unfold axis_events. rewrite !List.filter_app.
  unfold stick_events, gyro_events, trigger_events, rpad_events, dpad_events,
    lpad_events, cpad_events.
  rewrite !List.filter_app. cbn [started buttons]. rewrite Hshared, Htouch.
  simpl. by_cases.
Qed.



(** What [generate_feedback] does with the two slots: without a
    controller nothing is sent and nothing is lost; with one, every filled
    slot is passed to [controller.feedback], the left slot before the right
    one, and both slots are empty afterwards. *)
Lemma generate_feedback_delivers_pending
    (m : t) (f0 f1 : option HapticData) :
  feedbacks m = [f0; f1] →
  generate_feedback env m
  = (Returned tt,
     match controller m with
     | None => m
     | Some _ =>
         mk (profile m) (controller m) [None; None] (buttons m) (old_buttons m)
            (lpad_touched m) (state m) (old_state m) (force_event m) (_testing m)
            (trace m ++ map controller_feedback (omap id [f0; f1]))
     end).
Proof.
  intros Hfb. destruct m as [pr co fbs b ob lt s os fe tst tr]. simpl in *. subst fbs.
  unfold generate_feedback, set_feedbacks, call. py_simpl.
  destruct co as [c|]; py_simpl; [|reflexivity].
  destruct f0 as [h0|], f1 as [h1|]; py_simpl; rewrite ?Hq; py_simpl;
    rewrite ?Hq; py_simpl; rewrite <- ?app_assoc, ?app_nil_r; reflexivity.
Qed.

(** X27. Of two haptic requests for the same position that are sent before
    the feedback is generated, only the later one counts: the slots are as
    if the earlier one had never been sent. *)
Theorem later_feedback_replaces_earlier (h1 h2 : HapticData) (m : t) :
  get_position h1 = get_position h2 →
  length (feedbacks m) = 2%nat →
  (send_feedback h1;; send_feedback h2) m = send_feedback h2 m.
Proof.
  intros Hpos Hlen. destruct m as [pr co fbs b ob lt s os fe tst tr]. simpl in *.
  destruct fbs as [|f0 [|f1 [|? ?]]]; try discriminate.
  unfold send_feedback. rewrite Hpos.
  destruct (bool_decide (get_position h2 = HapticPos.BOTH)).
  - unfold set_feedbacks, py_setitem. py_simpl. reflexivity.
  - generalize (HapticPos_value (get_position h2)). intros i.
    destruct (decide (i = 0)) as [->|H0]; [reflexivity|].
    destruct (decide (i = 1)) as [->|H1]; [reflexivity|].
    destruct (decide (i = -1)) as [->|H2]; [reflexivity|].
    destruct (decide (i = -2)) as [->|H3]; [reflexivity|].
    unfold set_feedbacks, py_setitem. py_simpl.
    repeat (rewrite ?(bool_decide_eq_false_2 (0 ≤ i < Z.of_nat 2)) by lia;
            rewrite ?(bool_decide_eq_false_2 (- Z.of_nat 2 ≤ i < 0)) by lia;
            progress py_simpl).
    rewrite ?(bool_decide_eq_false_2 (0 ≤ i < Z.of_nat 2)) by lia.
    rewrite ?(bool_decide_eq_false_2 (- Z.of_nat 2 ≤ i < 0)) by lia.
    reflexivity.
Qed.

End Cycle.

(** A controller with its gyroscope switched on. *)
Definition steam_with_gyro : Controller := {| flags := 0; get_gyro_enabled := true |}.

Lemma gyro_is_dispatched_every_cycle_witness :
  List.filter is_gyro
    (new_calls (sample_mapper 0 false)
       (snd (@input sample_constants quiet_env steam_with_gyro
               (snapshot 0 0 0 0 0) (snapshot 0 0 0 0 0) (sample_mapper 0 false))))
  = [gyro 0 0 0 0 0 0 0].
Proof.
  exact (@gyro_is_dispatched_every_cycle sample_constants quiet_env (λ _ _, eq_refl)
           steam steam_with_gyro (snapshot 0 0 0 0 0) (snapshot 0 0 0 0 0)
           (sample_mapper 0 false) eq_refl).
Defined.


Lemma touched_pad_keeps_stick_still_witness :
  List.filter is_stick
    (new_calls (sample_mapper (2 ^ 31) false)
       (snd (@input sample_constants quiet_env steam
               (snapshot (2 ^ 31) 300 0 0 0) (snapshot (2 ^ 27) 100 200 0 0)
               (sample_mapper (2 ^ 31) false))))
  = [stick_whole 0 0 STICK].
Proof.
  exact (@touched_pad_keeps_stick_still sample_constants quiet_env (λ _ _, eq_refl)
           steam steam (snapshot (2 ^ 31) 300 0 0 0) (snapshot (2 ^ 27) 100 200 0 0)
           (sample_mapper (2 ^ 31) false) eq_refl eq_refl eq_refl).
Defined.


Lemma generate_feedback_delivers_pending_witness :
  let h := mkHaptic HapticPos.RIGHT (900 # 1) (6000 # 1) 5 in
  let m := mk sample_profile (Some steam) [Some h; None] 0 0 false None None [] false [] in
  generate_feedback quiet_env m
  = (Returned tt,
     mk sample_profile (Some steam) [None; None] 0 0 false None None [] false
        [controller_feedback h]).
Proof.
  intros h m.
  exact (generate_feedback_delivers_pending quiet_env (λ _ _, eq_refl) m (Some h) None
           eq_refl).
Defined.

Lemma later_feedback_replaces_earlier_witness :
  let h1 := mkHaptic HapticPos.LEFT (900 # 1) (6000 # 1) 5 in
  let h2 := mkHaptic HapticPos.LEFT (600 # 1) (25000 # 1) 1 in
  feedbacks (snd ((@send_feedback sample_constants h1;;
                   @send_feedback sample_constants h2) (sample_mapper 0 false)))
  = [None; Some h2].
Proof.
  intros h1 h2.
  rewrite (@later_feedback_replaces_earlier sample_constants h1 h2
             (sample_mapper 0 false) eq_refl eq_refl).
  reflexivity.
Defined.

End MapperCycleSpec.


(** ** Input mapper: what the button queries report inside a cycle *)
Module MapperButtonsSpec.
Import Mapper MapperSpec MapperButtons.

Section Queries.
Context `{K : Constants}.
Variable RPAD : Z.
Variable SCButtons : list Z.

Lemma find_ext {A} (f g : A → bool) (l : list A) :
  (∀ x, f x = g x) → List.find f l = List.find g l.
Proof.
  intros H. induction l as [|x l IH]; simpl; [done|]. by rewrite H, IH.
Qed.

(** The bits that are set now and were not set before are the bits of
    [btn_add]. *)
Lemma newly_set (x old new : Z) :
  Z.land (Z.land x new) (Z.lnot old) = Z.land x (Z.land (Z.lxor old new) new).
Proof.
  apply Z.bits_inj'. intros n Hn.
  rewrite !Z.land_spec, Z.lnot_spec, Z.lxor_spec by exact Hn.
  destruct (Z.testbit x n), (Z.testbit new n), (Z.testbit old n); reflexivity.
Qed.

(** X28. When [input] enters its [try] block, that is, as the handlers of
    the cycle are about to be called: [get_pressed_button] yields the first
    member of [SCButtons] that has a bit in [btn_add], the mask that decides
    in this cycle which entries get [button_press], and [None] when no such
    member exists; the [was_] queries report what the [is_] queries reported
    before the cycle; [is_pressed] reads the quirk-corrected button word of
    the new state; and [controller_flags] is unchanged. *)
Theorem button_queries_in_a_cycle
    (env : Env) (ctrl : Controller) (old_st st : ControllerState) (m : t)
    (button : Button) (what : What) :
  let entered := started m old_st st in
  input env ctrl old_st st m
  = (py_try (dispatch env ctrl old_st st (force_event m) (btn_add m st) (btn_rem m st))
       (λ _, true) (on_error env);; after_try env) entered
  ∧ get_pressed_button SCButtons entered
    = List.find (λ x, truthy (Z.land x (btn_add m st))) SCButtons
  ∧ was_pressed RPAD button entered = is_pressed RPAD button m
  ∧ was_touched what entered = is_touched what m
  ∧ is_pressed RPAD button entered
    = Z.land (normalize (st_buttons st)) (pressed_mask RPAD button)
  ∧ controller_flags entered = controller_flags m.
Proof.
  intros entered. subst entered. split; [apply input_parts|].
  unfold get_pressed_button, was_pressed, is_pressed, was_touched, is_touched,
    controller_flags.
  cbn [started buttons old_buttons controller]. split; [|by destruct what].
  apply find_ext. intros x. unfold btn_add. by rewrite newly_set.
Qed.

(** X29. [set_button(LEFT, state)] emulates the finger on the left pad, not a
    press of the pad: it makes [is_touched(LEFT)] report [state], and leaves
    [is_pressed(LEFT)], every bit outside [LPADTOUCH] and [old_buttons]
    alone. When [buttons] is still as [set_button(LEFT, False)] left it at
    the next call of [input], the [btn_add] of that cycle has every touch
    bit of the new state, as if the pad had just been touched. *)
Theorem set_button_emulates_touch (st : ControllerState) (m : t) :
  Z.land LPAD LPADTOUCH = 0 →
  let up := snd (set_button PadLeft false m) in
  let down := snd (set_button PadLeft true m) in
  is_touched LEFT up = 0
  ∧ is_touched LEFT down = LPADTOUCH
  ∧ is_pressed RPAD PadLeft up = is_pressed RPAD PadLeft m
  ∧ is_pressed RPAD PadLeft down = is_pressed RPAD PadLeft m
  ∧ Z.land (buttons up) (Z.lnot LPADTOUCH) = Z.land (buttons m) (Z.lnot LPADTOUCH)
  ∧ Z.land (buttons down) (Z.lnot LPADTOUCH) = Z.land (buttons m) (Z.lnot LPADTOUCH)
  ∧ old_buttons up = old_buttons m
  ∧ Z.land (btn_add up st) LPADTOUCH = Z.land (normalize (st_buttons st)) LPADTOUCH.
Proof.
  intros Hdisj up down. subst up down.
  unfold set_button, set_buttons, is_touched, is_pressed, btn_add. py_simpl.
  assert (Hbits : ∀ n, 0 ≤ n →
            Z.testbit LPAD n && Z.testbit LPADTOUCH n = false).
  { intros n Hn. rewrite <- Z.land_spec, Hdisj. apply Z.bits_0. }
  repeat split.
  - rewrite <- Z.land_assoc, (Z.land_comm (Z.lnot LPADTOUCH)), Z.land_lnot_diag.
    apply Z.land_0_r.
  - rewrite Z.land_lor_distr_l, Z.land_diag.
    apply Z.bits_inj'. intros n Hn. rewrite Z.lor_spec, Z.land_spec.
    destruct (Z.testbit LPADTOUCH n); [apply orb_true_r | by rewrite andb_false_r].
  - apply Z.bits_inj'. intros n Hn. specialize (Hbits n Hn).
    rewrite !Z.land_spec, Z.lnot_spec by exact Hn.
    destruct (Z.testbit (buttons m) n), (Z.testbit LPAD n), (Z.testbit LPADTOUCH n);
      simpl in *; congruence.
  - apply Z.bits_inj'. intros n Hn. specialize (Hbits n Hn).
    rewrite !Z.land_spec, Z.lor_spec.
    destruct (Z.testbit (buttons m) n), (Z.testbit LPAD n), (Z.testbit LPADTOUCH n);
      simpl in *; congruence.
  - apply Z.bits_inj'. intros n Hn.
    rewrite !Z.land_spec, Z.lnot_spec by exact Hn.
    by destruct (Z.testbit (buttons m) n), (Z.testbit LPADTOUCH n).
  - apply Z.bits_inj'. intros n Hn.
    rewrite !Z.land_spec, Z.lor_spec, Z.lnot_spec by exact Hn.
    by destruct (Z.testbit (buttons m) n), (Z.testbit LPADTOUCH n).
  - apply Z.bits_inj'. intros n Hn.
    rewrite !Z.land_spec, Z.lxor_spec, !Z.land_spec, Z.lnot_spec by exact Hn.
    by destruct (Z.testbit (buttons m) n), (Z.testbit LPADTOUCH n),
      (Z.testbit (normalize (st_buttons st)) n).
Qed.

End Queries.

Lemma set_button_emulates_touch_witness :
  let m := sample_mapper (2 ^ 27) true in
  let up := snd (@set_button sample_constants PadLeft false m) in
  @is_touched sample_constants LEFT up = 0
  ∧ Z.land (@btn_add sample_constants up (snapshot (2 ^ 27) 10 10 0 0)) (2 ^ 27) = 2 ^ 27.
Proof.
  intros m up.
  pose proof (@set_button_emulates_touch sample_constants 0
                (snapshot (2 ^ 27) 10 10 0 0) m eq_refl)
    as H.
  cbv zeta in H. destruct H as (H1 & _ & _ & _ & _ & _ & _ & H8).
  split; [exact H1 | exact H8].
Defined.

End MapperButtonsSpec.


(** ** Input mapper: pending output is flushed once *)
Module MapperOutputSpec.
Import MapperOutput.

Section Flush.
Variable num : Type.
Variable zero : num.
Variable add : num → num → num.
Variable negate : num → num.
Variable to_int : num → Outcome Z.
Variable nonzero : num → bool.
Variable iteration_order : gset Device → list Device.

#[local] Abbreviation Out := (Out num).
#[local] Abbreviation DevEnv := (DevEnv num).
#[local] Abbreviation sync := (sync num iteration_order).
#[local] Abbreviation generate_events :=
  (generate_events num zero negate to_int nonzero iteration_order).

#[local] Arguments MapperOutput.sync : simpl never.

(** No call on a virtual device raises. *)
Definition devices_quiet (env : DevEnv) : Prop := ∀ history ev, env history ev = None.

(** What [int(mx)] and [int(my * -1)] give when the mouse is to be moved:
    the two integers, or the exception of the first conversion that
    fails. *)
Definition converted (mx my : num) : Outcome (option (Z * Z)) :=
  if nonzero mx || nonzero my then
    match to_int mx with
    | Raised e => Raised e
    | Returned x =>
        match to_int (negate my) with
        | Raised e => Raised e
        | Returned y => Returned (Some (x, y))
        end
    end
  else Returned None.

(** The calls on the keyboard at the head of [generate_events]. *)
Definition keys_sent (s : Out) : list (OutEvent num) :=
  (if bool_decide (keypress_list num s ≠ []) then [pressEvent num (keypress_list num s)]
   else [])
  ++ (if bool_decide (keyrelease_list num s ≠ [])
      then [releaseEvent num (keyrelease_list num s)] else []).

(** The calls on the mouse, given the integers of the movement. *)
Definition mouse_sent (s : Out) (xy : option (Z * Z)) (wx wy sx sy : num)
    : list (OutEvent num) :=
  match xy with
  | Some (x, y) => [moveEvent num x y (time_elapsed num s)]
  | None => []
  end
  ++ (if nonzero wx || nonzero wy then [scrollEvent num wx wy] else [])
  ++ (if nonzero sx || nonzero sy
      then [moveStickEvent num sx (negate sy) (time_elapsed num s)] else []).

(** The devices that wait for a [synEvent] when [sync] is reached. *)
Definition waiting (s : Out) (mx my wx wy sx sy : num) : gset Device :=
  if (nonzero mx || nonzero my) || (nonzero wx || nonzero wy)
     || (nonzero sx || nonzero sy)
  then {[Mouse]} ∪ syn_list num s
  else syn_list num s.

(** The calls of [sync] for the set [X]. *)
Definition syn_sent (X : gset Device) : list (OutEvent num) :=
  if bool_decide (X ≠ ∅) then map (synEvent num) (iteration_order X) else [].

Section Quiet.
Variable env : DevEnv.
Hypothesis Hq : devices_quiet env.

Lemma device_call_quiet (ev : OutEvent num) (s : Out) :
  call num env ev s
  = (Returned tt,
     mkOut num (keypress_list num s) (keyrelease_list num s) (mouse_movements num s)
       (syn_list num s) (time_elapsed num s) (events num s ++ [ev])).
Proof. unfold call. by rewrite Hq. Qed.

Lemma syn_loop (l : list Device) (s : Out) :
  py_for l (λ dev, call num env (synEvent num dev)) s
  = (Returned tt,
     mkOut num (keypress_list num s) (keyrelease_list num s) (mouse_movements num s)
       (syn_list num s) (time_elapsed num s) (events num s ++ map (synEvent num) l)).
Proof.
  revert s. induction l as [|d l IH]; intros s; simpl.
  - rewrite app_nil_r. by destruct s.
  - unfold py_bind. rewrite device_call_quiet, IH. simpl. by rewrite <- app_assoc.
Qed.

Lemma sync_eq (s : Out) :
  sync env s
  = (Returned tt,
     mkOut num (keypress_list num s) (keyrelease_list num s) (mouse_movements num s)
       ∅ (time_elapsed num s) (events num s ++ syn_sent (syn_list num s))).
Proof.
  unfold MapperOutput.sync, syn_sent. py_simpl.
  destruct (bool_decide (syn_list num s ≠ ∅)) eqn:E.
  - rewrite syn_loop. unfold set_syn_list. py_simpl. reflexivity.
  - apply bool_decide_eq_false in E. apply dec_stable in E.
    simpl. rewrite app_nil_r. destruct s; simpl in *. by rewrite E.
Qed.

(** The keys at the head of [generate_events]. *)
Lemma keys_eq (s : Out) (rest : Py Out unit) :
  (s0 ← py_get;
   (if bool_decide (keypress_list num s0 ≠ []) then
      call num env (pressEvent num (keypress_list num s0));;
      set_keypress_list num []
    else mret tt);;
   s0 ← py_get;
   (if bool_decide (keyrelease_list num s0 ≠ []) then
      call num env (releaseEvent num (keyrelease_list num s0));;
      set_keyrelease_list num []
    else mret tt);;
   rest) s
  = rest (mkOut num [] [] (mouse_movements num s) (syn_list num s)
            (time_elapsed num s) (events num s ++ keys_sent s)).
Proof.
  destruct s as [kp kr mm sl te ev]. unfold keys_sent.
  unfold set_keypress_list, set_keyrelease_list. py_simpl.
  destruct kp as [|k kp], kr as [|r kr]; py_simpl;
    repeat (progress (unfold call; rewrite ?Hq; py_simpl));
    rewrite <- ?app_assoc, ?app_nil_r; reflexivity.
Qed.

End Quiet.

Lemma waiting_eq (X : gset Device) (a b c : bool) :
  (if c then {[Mouse]} ∪ (if b then {[Mouse]} ∪ (if a then {[Mouse]} ∪ X else X)
                         else (if a then {[Mouse]} ∪ X else X))
   else (if b then {[Mouse]} ∪ (if a then {[Mouse]} ∪ X else X)
         else (if a then {[Mouse]} ∪ X else X)))
  = if a || b || c then {[Mouse]} ∪ X else X.
Proof.
  destruct a, b, c; simpl; rewrite ?(assoc_L (∪)), ?union_idemp_L; reflexivity.
Qed.

(** [generate_events] in closed form, when no call on a virtual device
    raises. *)
Lemma generate_events_eq (env : DevEnv) (s : Out) (mx my wx wy sx sy : num) :
  devices_quiet env →
  mouse_movements num s = [mx; my; wx; wy; sx; sy] →
  generate_events env s
  = match converted mx my with
    | Returned xy =>
        (Returned tt,
         mkOut num [] [] [zero; zero; zero; zero; zero; zero] ∅ (time_elapsed num s)
           (events num s ++ keys_sent s ++ mouse_sent s xy wx wy sx sy
              ++ syn_sent (waiting s mx my wx wy sx sy)))
    | Raised e =>
        (Raised e,
         mkOut num [] [] (mouse_movements num s) (syn_list num s)
           (time_elapsed num s) (events num s ++ keys_sent s))
    end.
Proof.
  intros Hq Hm. destruct s as [kp kr mm sl te ev]. cbn in Hm. subst mm.
  unfold MapperOutput.generate_events. rewrite (keys_eq env Hq).
  unfold converted, mouse_sent, waiting, syn_add, set_syn_list, set_mouse_movements.
  cbn [mouse_movements syn_list time_elapsed events].
  rewrite <- (waiting_eq sl (nonzero mx || nonzero my) (nonzero wx || nonzero wy)
                (nonzero sx || nonzero sy)).
  py_simpl.
  destruct (nonzero mx || nonzero my);
    [destruct (to_int mx) as [x|e]; [destruct (to_int (negate my)) as [y|e]|]|];
    py_simpl; try reflexivity;
    destruct (nonzero wx || nonzero wy), (nonzero sx || nonzero sy);
    repeat (progress (unfold call; rewrite ?Hq; py_simpl));
    rewrite (sync_eq env Hq); cbn [events syn_list keypress_list keyrelease_list
                                    mouse_movements time_elapsed];
    rewrite <- ?app_assoc; reflexivity.
Qed.

(** X30. [generate_events] when no call on a virtual device raises. The keys
    to press are sent, then the keys to release. If [int()] converts the
    mouse movement, or there is none, the movement (with the vertical
    direction inverted), the wheel and the stick-driven movement follow,
    each only if one of its two accumulators is not zero, and at the end a
    [synEvent] goes to every device in [syn_list], the mouse among them if
    anything was sent to it, in the order in which the set is iterated;
    afterwards both key lists and [syn_list] are empty and the six
    accumulators are zero, so that a second [generate_events] sends nothing.
    If [int()] raises, [generate_events] raises with it after the keys:
    nothing goes to the mouse, no [synEvent] is sent, and the accumulators
    and [syn_list] stay as they are, so that the next [generate_events]
    raises again without sending anything. *)
Theorem generate_events_flushes_once
    (env : DevEnv) (s : Out) (mx my wx wy sx sy : num) :
  devices_quiet env →
  nonzero zero = false →
  mouse_movements num s = [mx; my; wx; wy; sx; sy] →
  match converted mx my with
  | Returned xy =>
      let s1 := mkOut num [] [] [zero; zero; zero; zero; zero; zero] ∅
                  (time_elapsed num s)
                  (events num s ++ keys_sent s ++ mouse_sent s xy wx wy sx sy
                     ++ syn_sent (waiting s mx my wx wy sx sy)) in
      generate_events env s = (Returned tt, s1)
      ∧ generate_events env s1 = (Returned tt, s1)
  | Raised e =>
      let s1 := mkOut num [] [] (mouse_movements num s) (syn_list num s)
                  (time_elapsed num s) (events num s ++ keys_sent s) in
      generate_events env s = (Raised e, s1)
      ∧ generate_events env s1 = (Raised e, s1)
  end.
Proof.
  intros Hq Hz Hm.
  rewrite (generate_events_eq env s mx my wx wy sx sy Hq Hm).
  destruct (converted mx my) as [xy|e] eqn:Hconv; cbv zeta.
  - split; [reflexivity|].
    generalize (events num s ++ keys_sent s ++ mouse_sent s xy wx wy sx sy
                  ++ syn_sent (waiting s mx my wx wy sx sy)).
    intros sent.
    match goal with
    | |- generate_events env ?s1 = _ =>
        rewrite (generate_events_eq env s1 zero zero zero zero zero zero Hq eq_refl)
    end.
    unfold converted, keys_sent, mouse_sent, waiting, syn_sent.
    cbn [keypress_list keyrelease_list syn_list time_elapsed events].
    rewrite Hz. cbn [orb].
    rewrite !bool_decide_eq_false_2 by (intros H; by apply H).
    by rewrite !app_nil_r.
  - split; [reflexivity|].
    generalize (events num s ++ keys_sent s). intros sent.
    match goal with
    | |- generate_events env ?s1 = _ =>
        rewrite (generate_events_eq env s1 mx my wx wy sx sy Hq Hm)
    end.
    rewrite Hconv. unfold keys_sent.
    cbn [keypress_list keyrelease_list syn_list time_elapsed events mouse_movements].
    rewrite !bool_decide_eq_false_2 by (intros H; by apply H).
    by rewrite !app_nil_r.
Qed.

End Flush.

(** With integers for numbers and a set that is iterated in the order of
    its elements: a movement of (3, -2), then a wheel step, then one
    [generate_events]. *)
Lemma generate_events_flushes_once_witness :
  let s := snd ((mouse_move Z Z.add 3 (-2);; mouse_wheel Z Z.add 0 1)
                  (init Z 0)) in
  events Z (snd (generate_events Z 0 Z.opp Returned (λ z, negb (z =? 0)) elements
                   (λ _ _, None) s))
  = [moveEvent Z 3 2 0; scrollEvent Z 0 1; synEvent Z Mouse].
Proof.
  intros s.
  pose proof (generate_events_flushes_once Z 0 Z.opp Returned (λ z, negb (z =? 0))
                elements (λ _ _, None) s 3 (-2) 0 1 0 0
                (λ _ _, eq_refl) eq_refl eq_refl) as H.
  cbv zeta in H. destruct H as [H _].
  rewrite H. vm_compute. reflexivity.
Defined.

End MapperOutputSpec.
